(** * Image upload, EXIF extraction and enrichment server (server.py)

    A shallow embedding of the metadata pipeline of [server.py]: the
    hand-written multipart decoder of the upload handler, the EXIF/GPS
    extractor, the geo enrichment clients, the language services and the
    request handler that sequences them, followed by the properties that the
    specification states about them.

    Conventions of the embedding.
    - Python [bytes] are lists of [byte]; Python [str] are lists of Unicode
      code points ([N]).  The sequence methods both types share ([in],
      [split], [rsplit], [strip], [replace], [join]) are defined once, over any
      element type with decidable equality, in module [Py].
    - Python [float] is the kernel's binary64 [float]; the operations that
      binary64 arithmetic does not provide (C's [pow], [round(x, n)], the
      parsing and printing of floats, Unicode lower-casing) are fields of the
      class [PyRuntime], and every theorem holds for every runtime.
    - An exception is a value: functions that can raise return a [result].
    - The outside world (the remote services, the image container reader,
      the clock) is an explicit argument; the calls a handler makes are
      recorded in a trace. *)

From Stdlib Require Import ZArith NArith Lia List Floats Strings.Byte String Ascii.
From stdpp Require Import base option list strings pretty gmap.

Local Open Scope nat_scope.

(** ** Python sequences *)

#[global] Instance byte_eq_dec : EqDecision byte.
Proof.
  intros a b. destruct (Byte.eqb a b) eqn:E.
  - left. apply Byte.byte_dec_bl. exact E.
  - right. intros Hab. apply Byte.byte_dec_lb in Hab. congruence.
Defined.

Module Py.
Section sequences.
Context {A : Type} `{EqDecision A}.
Implicit Types (s p sep : list A).

(** [s.startswith(p)] *)
Fixpoint starts_with p s : bool :=
  match p, s with
  | [], _ => true
  | _ :: _, [] => false
  | a :: p', b :: s' => bool_decide (a = b) && starts_with p' s'
  end.

(** [s.find(sep)], with [None] for Python's [-1] *)
Fixpoint find sep s : option nat :=
  if starts_with sep s then Some 0
  else match s with
       | [] => None
       | _ :: s' => S <$> find sep s'
       end.

(** [s.rfind(sep)] *)
Fixpoint rfind sep s : option nat :=
  match s with
  | [] => if starts_with sep [] then Some 0 else None
  | _ :: s' =>
      match rfind sep s' with
      | Some i => Some (S i)
      | None => if starts_with sep s then Some 0 else None
      end
  end.

(** [sep in s] *)
Definition contains sep s : bool :=
  match find sep s with Some _ => true | None => false end.

(** [s.split(sep)] for a separator that is not empty: the pieces between
    the successive leftmost occurrences.  The fuel bounds the number of
    cuts; [length s] cuts are never exceeded. *)
Fixpoint split_fuel (n : nat) sep s : list (list A) :=
  match n with
  | 0 => [s]
  | S n' =>
      match find sep s with
      | None => [s]
      | Some i => take i s :: split_fuel n' sep (drop (i + length sep) s)
      end
  end.

Definition split sep s : list (list A) := split_fuel (length s) sep s.

(** [s.split(sep, 1)] *)
Definition split_max1 sep s : list (list A) :=
  match find sep s with
  | None => [s]
  | Some i => [take i s; drop (i + length sep) s]
  end.

(** [s.rsplit(sep, 1)] *)
Definition rsplit_max1 sep s : list (list A) :=
  match rfind sep s with
  | None => [s]
  | Some i => [take i s; drop (i + length sep) s]
  end.

(** [sep.join(pieces)] *)
Fixpoint join sep (pieces : list (list A)) : list A :=
  match pieces with
  | [] => []
  | [x] => x
  | x :: rest => x ++ sep ++ join sep rest
  end.

(** [s.replace(old, new)] for a pattern that is not empty: the leftmost
    occurrences, which do not overlap, are the cuts of [split]. *)
Definition replace (old new : list A) s : list A := join new (split old s).

Fixpoint drop_while (f : A -> bool) s : list A :=
  match s with
  | [] => []
  | a :: s' => if f a then drop_while f s' else s
  end.

(** [s.strip(chars)], with the set of characters as a predicate *)
Definition strip_by (f : A -> bool) s : list A :=
  rev (drop_while f (rev (drop_while f s))).

Definition one_of (chars : list A) (a : A) : bool := bool_decide (a ∈ chars).

Definition strip (chars : list A) s : list A := strip_by (one_of chars) s.

(** [s.split()] with no argument: the maximal runs of elements that are
    not whitespace. *)
Fixpoint fields (ws : A -> bool) (cur : list A) s : list (list A) :=
  match s with
  | [] => match cur with [] => [] | _ => [rev cur] end
  | a :: s' =>
      if ws a
      then match cur with [] => fields ws [] s' | _ => rev cur :: fields ws [] s' end
      else fields ws (a :: cur) s'
  end.

End sequences.
End Py.

(** ** Bytes and text *)

Abbreviation bytes := (list byte).
(** A Python [str]: its Unicode code points. *)
Abbreviation str := (list N).

(** A bytes literal of the source whose characters are all ASCII. *)
Definition b (lit : string) : bytes := list_byte_of_string lit.
(** A text literal of the source whose characters are all ASCII. *)
Definition u (lit : string) : str := Byte.to_N <$> list_byte_of_string lit.

Definition CR : N := 13%N.
Definition LF : N := 10%N.
Definition DQUOTE : N := 34%N.
Definition SQUOTE : N := 39%N.
Definition CRLF : bytes := [x0d; x0a].

(** [c.isspace()] for a code point, the characters that [str.strip()] and
    [str.split()] treat as whitespace. *)
Definition isspace (c : N) : bool :=
  ((9 <=? c) && (c <=? 13) || (28 <=? c) && (c <=? 32)
   || (c =? 0x85) || (c =? 0xA0) || (c =? 0x1680)
   || (0x2000 <=? c) && (c <=? 0x200A)
   || (c =? 0x2028) || (c =? 0x2029) || (c =? 0x202F) || (c =? 0x205F)
   || (c =? 0x3000))%N.

(** [s.strip()] *)
Definition strip_ws (s : str) : str := Py.strip_by isspace s.
(** [s.split()] *)
Definition split_ws (s : str) : list str := Py.fields isspace [] s.

(** Truth value of a sequence: [not s] holds of the empty one only. *)
Definition truthy {A} (s : list A) : bool :=
  match s with [] => false | _ => true end.

Definition byte_of_N (n : N) : byte := default x00 (Byte.of_N n).

Module Utf8.

Definition is_cont (n : N) : bool := ((0x80 <=? n) && (n <=? 0xBF))%N.

(** The well-formed two, three and four byte sequences (overlong forms,
    surrogates and values above U+10FFFF are not well formed). *)
Definition ok2 (n1 n2 : N) : bool :=
  ((0xC2 <=? n1) && (n1 <=? 0xDF))%N && is_cont n2.

Definition ok3 (n1 n2 n3 : N) : bool :=
  ((0xE0 <=? n1) && (n1 <=? 0xEF))%N && is_cont n2 && is_cont n3
  && negb ((n1 =? 0xE0) && (n2 <? 0xA0))%N
  && negb ((n1 =? 0xED) && (0xA0 <=? n2))%N.

Definition ok4 (n1 n2 n3 n4 : N) : bool :=
  ((0xF0 <=? n1) && (n1 <=? 0xF4))%N && is_cont n2 && is_cont n3 && is_cont n4
  && negb ((n1 =? 0xF0) && (n2 <? 0x90))%N
  && negb ((n1 =? 0xF4) && (0x90 <=? n2))%N.

Definition cp2 (n1 n2 : N) : N := ((n1 - 0xC0) * 64 + (n2 - 0x80))%N.
Definition cp3 (n1 n2 n3 : N) : N :=
  ((n1 - 0xE0) * 4096 + (n2 - 0x80) * 64 + (n3 - 0x80))%N.
Definition cp4 (n1 n2 n3 n4 : N) : N :=
  ((n1 - 0xF0) * 262144 + (n2 - 0x80) * 4096 + (n3 - 0x80) * 64 + (n4 - 0x80))%N.

(** [bs.decode('utf-8', errors='ignore')]: a well-formed sequence yields
    its code point; any other byte is dropped and decoding resumes at the
    next byte. *)
Fixpoint decode_ignore (bs : bytes) : str :=
  match bs with
  | [] => []
  | b1 :: r1 =>
      let n1 := Byte.to_N b1 in
      if (n1 <? 0x80)%N then n1 :: decode_ignore r1 else
      match r1 with
      | [] => decode_ignore r1
      | b2 :: r2 =>
          let n2 := Byte.to_N b2 in
          if ok2 n1 n2 then cp2 n1 n2 :: decode_ignore r2 else
          match r2 with
          | [] => decode_ignore r1
          | b3 :: r3 =>
              let n3 := Byte.to_N b3 in
              if ok3 n1 n2 n3 then cp3 n1 n2 n3 :: decode_ignore r3 else
              match r3 with
              | [] => decode_ignore r1
              | b4 :: r4 =>
                  let n4 := Byte.to_N b4 in
                  if ok4 n1 n2 n3 n4 then cp4 n1 n2 n3 n4 :: decode_ignore r4
                  else decode_ignore r1
              end
          end
      end
  end.

(** [bs.decode()]: strict, [None] ([UnicodeDecodeError]) at the first byte
    that starts no well-formed sequence. *)
Fixpoint decode (bs : bytes) : option str :=
  match bs with
  | [] => Some []
  | b1 :: r1 =>
      let n1 := Byte.to_N b1 in
      if (n1 <? 0x80)%N then cons n1 <$> decode r1 else
      match r1 with
      | [] => None
      | b2 :: r2 =>
          let n2 := Byte.to_N b2 in
          if ok2 n1 n2 then cons (cp2 n1 n2) <$> decode r2 else
          match r2 with
          | [] => None
          | b3 :: r3 =>
              let n3 := Byte.to_N b3 in
              if ok3 n1 n2 n3 then cons (cp3 n1 n2 n3) <$> decode r3 else
              match r3 with
              | [] => None
              | b4 :: r4 =>
                  let n4 := Byte.to_N b4 in
                  if ok4 n1 n2 n3 n4 then cons (cp4 n1 n2 n3 n4) <$> decode r4
                  else None
              end
          end
      end
  end.

(** The UTF-8 form of one code point; a surrogate or a value above
    U+10FFFF has none ([UnicodeEncodeError]). *)
Definition encode_cp (c : N) : option bytes :=
  if (c <? 0x80)%N then Some [byte_of_N c]
  else if (c <? 0x800)%N then
    Some [byte_of_N (0xC0 + c / 64); byte_of_N (0x80 + c mod 64)]
  else if (c <? 0x10000)%N then
    if ((0xD800 <=? c) && (c <=? 0xDFFF))%N then None
    else Some [byte_of_N (0xE0 + c / 4096); byte_of_N (0x80 + (c / 64) mod 64);
               byte_of_N (0x80 + c mod 64)]
  else if (c <? 0x110000)%N then
    Some [byte_of_N (0xF0 + c / 262144); byte_of_N (0x80 + (c / 4096) mod 64);
          byte_of_N (0x80 + (c / 64) mod 64); byte_of_N (0x80 + c mod 64)]
  else None.

(** [s.encode()] *)
Fixpoint encode (s : str) : option bytes :=
  match s with
  | [] => Some []
  | c :: s' =>
      match encode_cp c, encode s' with
      | Some bs, Some rest => Some (bs ++ rest)
      | _, _ => None
      end
  end.

End Utf8.


(** ** Exceptions and results *)

(** The exception classes the code tells apart ([URLError], which includes
    [HTTPError], has a handler of its own) or that the interpreter raises in
    it; [OtherError] is any other subclass of [Exception]. *)
Inductive exn_class :=
| URLError | ValueError | TypeError | IndexError | KeyError | AttributeError
| OverflowError | UnicodeError | OtherError.

(** An exception [e], with [str(e)]. *)
Record exn := Exn { exn_kind : exn_class; exn_str : str }.

Inductive result (A : Type) :=
| Ok (a : A)
| Raise (e : exn).
Arguments Ok {A} a.
Arguments Raise {A} e.

#[global] Instance result_ret : MRet result := fun A a => Ok a.
#[global] Instance result_bind : MBind result := fun A B f m =>
  match m with
  | Ok a => f a
  | Raise e => Raise e
  end.

#[global] Instance result_fmap : FMap result := fun A B f m =>
  match m with
  | Ok a => Ok (f a)
  | Raise e => Raise e
  end.

(** [try: m  except Exception as e: h e] *)
Definition try_except {A} (m : result A) (h : exn -> A) : A :=
  match m with
  | Ok a => a
  | Raise e => h e
  end.

(** ** Python values *)

(** A dictionary key: a string, or an integer (a tag with no known name). *)
Inductive key :=
| KStr (s : str)
| KInt (n : Z).

#[global] Instance key_eq_dec : EqDecision key.
Proof. solve_decision. Defined.

#[global] Instance key_countable : Countable key.
Proof.
  refine (inj_countable'
            (fun k => match k with KStr s => inl s | KInt n => inr n end)
            (fun x => match x with inl s => KStr s | inr n => KInt n end) _).
  intros []; reflexivity.
Defined.

(** The values the program handles: what [json.loads] returns, what the
    image container reader delivers, and what the functions build.  A
    rational of the container reader appears as the [float] it converts to.
    A dict keeps its content, not the order of insertion. *)
#[warnings="-register-all"]
Inductive pyval :=
| VNone
| VBool (x : bool)
| VInt (z : Z)
| VFloat (f : float)
| VStr (s : str)
| VBytes (bs : bytes)
| VList (l : list pyval)
| VTuple (l : list pyval)
| VDict (d : gmap key pyval).

Abbreviation dict := (gmap key pyval).

(** A dict display of the source, [{'k1': v1, ...}]. *)
Definition mkdict (items : list (string * pyval)) : dict :=
  list_to_map ((fun kv => (KStr (u kv.1), kv.2)) <$> items).

Definition type_name (v : pyval) : string :=
  match v with
  | VNone => "NoneType" | VBool _ => "bool" | VInt _ => "int"
  | VFloat _ => "float" | VStr _ => "str" | VBytes _ => "bytes"
  | VList _ => "list" | VTuple _ => "tuple" | VDict _ => "dict"
  end.

(** The interpreter's own exceptions, with the words of CPython 3.11 up to
    the rendering of the offending value. *)
Definition no_attribute (v : pyval) (attr : string) : exn :=
  Exn AttributeError
      (u ("'" ++ type_name v ++ "' object has no attribute '" ++ attr ++ "'")).
Definition not_iterable (v : pyval) : exn :=
  Exn TypeError (u ("argument of type '" ++ type_name v ++ "' is not iterable")).
Definition not_subscriptable (v : pyval) : exn :=
  Exn TypeError (u ("'" ++ type_name v ++ "' object is not subscriptable")).
Definition bad_index (v : pyval) : exn :=
  Exn TypeError
      (match v with
       | VStr _ => u "string indices must be integers, not 'str'"
       | VBytes _ => u "byte indices must be integers or slices, not str"
       | _ => u (type_name v ++ " indices must be integers or slices, not str")
       end).
Definition cannot_unpack (v : pyval) : exn :=
  Exn TypeError (u ("cannot unpack non-iterable " ++ type_name v ++ " object")).
Definition wrong_arity (expected got : nat) : exn :=
  Exn ValueError
      (if got <? expected
       then u ("not enough values to unpack (expected " ++ pretty expected
               ++ ", got " ++ pretty got ++ ")")
       else u ("too many values to unpack (expected " ++ pretty expected ++ ")")).
Definition index_out_of_range : exn := Exn IndexError (u "list index out of range").

(** [not v] is [negb (py_truthy v)]. *)
Definition py_truthy (v : pyval) : bool :=
  match v with
  | VNone => false
  | VBool x => x
  | VInt z => negb (z =? 0)%Z
  | VFloat f => negb (PrimFloat.eqb f 0%float)
  | VStr s => truthy s
  | VBytes bs => truthy bs
  | VList l | VTuple l => truthy l
  | VDict d => negb (bool_decide (dom d = ∅))
  end.

(** [v.get(k, dflt)] *)
Definition py_get (v : pyval) (k : string) (dflt : pyval) : result pyval :=
  match v with
  | VDict d => Ok (default dflt (d !! KStr (u k)))
  | _ => Raise (no_attribute v "get")
  end.

(** [v[k]] for a string [k] *)
Definition py_item (v : pyval) (k : string) : result pyval :=
  match v with
  | VDict d =>
      match d !! KStr (u k) with
      | Some x => Ok x
      | None => Raise (Exn KeyError (u ("'" ++ k ++ "'")))
      end
  | VStr _ | VBytes _ | VList _ | VTuple _ => Raise (bad_index v)
  | _ => Raise (not_subscriptable v)
  end.

(** [v == 'k'] for a string literal: only the same string is equal to it. *)
Definition py_eq_str (v : pyval) (k : string) : bool :=
  match v with
  | VStr s => bool_decide (s = u k)
  | _ => false
  end.

(** ['k' in v] for a string literal [k] *)
Definition py_in (k : string) (v : pyval) : result bool :=
  match v with
  | VDict d => Ok (bool_decide (is_Some (d !! KStr (u k))))
  | VStr s => Ok (Py.contains (u k) s)
  | VList l | VTuple l => Ok (existsb (fun x => py_eq_str x k) l)
  | VBytes _ => Raise (Exn TypeError (u "a bytes-like object is required, not 'str'"))
  | _ => Raise (not_iterable v)
  end.

(** [isinstance(v, list)] *)
Definition is_list (v : pyval) : bool :=
  match v with VList _ => true | _ => false end.

(** ** Floats *)

(** [float(n)] for an integer: the nearest binary64 number, ties to even;
    [None] ([OverflowError]) when that is not finite. *)
Definition float_of_int (n : Z) : option float :=
  let x := SF2Prim (binary_normalize prec emax n 0 false) in
  if is_infinity x then None else Some x.

(** The services of the Python runtime and its libraries that are neither
    written in the program nor operations of binary64 arithmetic. *)
Class PyRuntime := {
  (* [x ** y] on floats (C's [pow]) where the result is a float; [None] is
      [OverflowError] *)
  float_pow : float -> float -> option float;
  (* [round(x, n)] *)
  float_round : float -> Z -> float;
  (* [float(s)] for a string; [None] is [ValueError] *)
  float_of_str : str -> option float;
  (* [str(x)] and the [{x}] of an f-string, for any value *)
  py_str : pyval -> str;
  (* [repr(x)], which the interpreter puts into its messages *)
  py_repr : pyval -> str;
  (* [s.lower()] *)
  str_lower : str -> str;
  (* [json.loads(bs.decode())] *)
  json_loads : bytes -> result pyval;
  (* [base64.b64encode(bs).decode('utf-8')] *)
  b64encode : bytes -> str;
}.

Section values.
Context `{PyRuntime}.

(** [float(v)] *)
Definition py_float (v : pyval) : result float :=
  match v with
  | VFloat f => Ok f
  | VInt z =>
      match float_of_int z with
      | Some f => Ok f
      | None => Raise (Exn OverflowError (u "int too large to convert to float"))
      end
  | VBool x => Ok (if x then 1%float else 0%float)
  | VStr s =>
      match float_of_str s with
      | Some f => Ok f
      | None => Raise (Exn ValueError (u "could not convert string to float: "
                                         ++ py_repr v))
      end
  | VBytes bs =>
      match float_of_str (Byte.to_N <$> bs) with
      | Some f => Ok f
      | None => Raise (Exn ValueError (u "could not convert string to float: "
                                         ++ py_repr v))
      end
  | _ => Raise (Exn TypeError
                  (u ("float() argument must be a string or a real number, not '"
                      ++ type_name v ++ "'")))
  end.

(** [a, b, c = v] *)
Definition py_unpack3 (v : pyval) : result (pyval * pyval * pyval) :=
  let of_list (l : list pyval) :=
    match l with
    | [x; y; z] => Ok (x, y, z)
    | _ => Raise (wrong_arity 3 (length l))
    end in
  match v with
  | VTuple l | VList l => of_list l
  | VStr s => of_list ((fun c => VStr [c]) <$> s)
  | VBytes bs => of_list ((fun c => VInt (Z.of_N (Byte.to_N c))) <$> bs)
  | VDict d => of_list ((fun kv => match kv.1 with KStr s => VStr s | KInt n => VInt n end)
                          <$> map_to_list d)
  | _ => Raise (cannot_unpack v)
  end.

End values.

(** ** Effects *)

(** What a run does to the outside world, in the order it does it.  Console
    output is left out, except for the one line that is the only use of an
    argument ([direction], in [search_nearby_poi]). *)
Inductive event :=
| HttpRequest (url : str) (payload : option pyval)
| SparqlQuery (query : str)
| FileRead (path : str)
| FileWrite (path : str) (data : bytes)
| ImageOpen (path : str)
| Print (line : str).

(** A computation with effects: the events it produced, and what it
    returned or raised. *)
Record IO (A : Type) := mkIO { trace : list event; outcome : result A }.
Arguments mkIO {A} trace outcome.
Arguments trace {A} _.
Arguments outcome {A} _.

#[global] Instance IO_ret : MRet IO := fun A a => mkIO [] (Ok a).
#[global] Instance IO_bind : MBind IO := fun A B f m =>
  match outcome m with
  | Ok a => mkIO (trace m ++ trace (f a)) (outcome (f a))
  | Raise e => mkIO (trace m) (Raise e)
  end.

Definition emit (ev : event) : IO unit := mkIO [ev] (Ok tt).
Definition lift {A} (r : result A) : IO A := mkIO [] r.
Definition raise {A} (e : exn) : IO A := mkIO [] (Raise e).

(** [try: m  except Exception as e: h e], both with effects *)
Definition catch {A} (m : IO A) (h : exn -> IO A) : IO A :=
  match outcome m with
  | Ok a => m
  | Raise e => mkIO (trace m ++ trace (h e)) (outcome (h e))
  end.

(** What the image container reader finds in a file: the top-level tag
    directory ([image.getexif().items()]) and the GPS sub-directory
    ([get_ifd(0x8825)]), each as (tag id, value) pairs in iteration order. *)
Record raw_image := RawImage {
  exif_items : list (Z * pyval);
  gps_items : list (Z * pyval);
}.

(** The outside world of one request. *)
Record World := {
  (* [urlopen(Request(url, data=payload), timeout=...)], the body read and
      parsed by [json.loads] *)
  urlopen_json : str -> option pyval -> result pyval;
  (* [SPARQLWrapper(...).query().convert()] for a query text *)
  sparql_convert : str -> result pyval;
  (* whether the SPARQL client library could be imported *)
  SPARQL_AVAILABLE : bool;
  (* [open(path, 'rb').read()] *)
  read_file : str -> result bytes;
  (* [open(path, 'wb').write(data)] *)
  write_file : str -> bytes -> result unit;
  (* [os.path.exists(path)] *)
  path_exists : str -> bool;
  (* [Image.open(path)], [getexif()] and [get_ifd(0x8825)] *)
  open_image : str -> result raw_image;
  (* the tag name tables of the image library *)
  TAGS : Z -> option str;
  GPSTAGS : Z -> option str;
  (* [datetime.now().strftime("%Y%m%d_%H%M%S")] *)
  timestamp : str;
}.

(** ** Configuration *)

Definition UPLOAD_DIR : str := u "uploads".
Definition OLLAMA_API_URL : str := u "http://localhost:11434/api/chat".
Definition OLLAMA_MODEL : str := u "qwen3-vl:8b".
Definition OLLAMA_TRANSLATION_MODEL : str := u "gemma3:12b-it-qat".

(** ** More operations on values *)

Section dynamic.
Context `{PyRuntime}.

(** The text an f-string puts for [{v}]: a string stands for itself. *)
Definition fmt (v : pyval) : str :=
  match v with
  | VStr s => s
  | _ => py_str v
  end.

(** [len(v)] *)
Definition py_len (v : pyval) : result nat :=
  match v with
  | VStr s => Ok (length s)
  | VBytes bs => Ok (length bs)
  | VList l | VTuple l => Ok (length l)
  | VDict d => Ok (size d)
  | _ => Raise (Exn TypeError (u ("object of type '" ++ type_name v ++ "' has no len()")))
  end.

Definition key_value (k : key) : pyval :=
  match k with KStr s => VStr s | KInt n => VInt n end.

(** The items that [for x in v] visits. *)
Definition py_iter (v : pyval) : result (list pyval) :=
  match v with
  | VList l | VTuple l => Ok l
  | VStr s => Ok ((fun c => VStr [c]) <$> s)
  | VBytes bs => Ok ((fun c => VInt (Z.of_N (Byte.to_N c))) <$> bs)
  | VDict d => Ok ((fun kv => key_value kv.1) <$> map_to_list d)
  | _ => Raise (Exn TypeError (u ("'" ++ type_name v ++ "' object is not iterable")))
  end.

(** [v[:n]] *)
Definition py_slice_to (n : nat) (v : pyval) : result pyval :=
  match v with
  | VStr s => Ok (VStr (take n s))
  | VBytes bs => Ok (VBytes (take n bs))
  | VList l => Ok (VList (take n l))
  | VTuple l => Ok (VTuple (take n l))
  | VDict _ => Raise (Exn TypeError (u "unhashable type: 'slice'"))
  | _ => Raise (not_subscriptable v)
  end.

(** [x or y] *)
Definition py_or (x y : pyval) : pyval := if py_truthy x then x else y.

(** [v.strip()] *)
Definition py_strip (v : pyval) : result str :=
  match v with
  | VStr s => Ok (strip_ws s)
  | _ => Raise (no_attribute v "strip")
  end.

(** [v - y] for a float [y] *)
Definition py_sub_float (v : pyval) (y : float) : result float :=
  match v with
  | VFloat x => Ok (x - y)%float
  | VInt z =>
      match float_of_int z with
      | Some x => Ok (x - y)%float
      | None => Raise (Exn OverflowError (u "int too large to convert to float"))
      end
  | VBool x => Ok ((if x then 1 else 0) - y)%float
  | _ => Raise (Exn TypeError
                  (u ("unsupported operand type(s) for -: '" ++ type_name v
                      ++ "' and 'float'")))
  end.

(** [x ** y] for floats *)
Definition py_pow (x y : float) : result float :=
  match float_pow x y with
  | Some r => Ok r
  | None => Raise (Exn OverflowError (u "(34, 'Numerical result out of range')"))
  end.

End dynamic.

(** ** The metadata extractor *)

Section program.
Context `{PyRuntime} (w : World).

(** [convert_to_degrees(value)]: "Convert GPS coordinates to degrees in
    float format." *)
Definition convert_to_degrees (value : pyval) : result float :=
  '(d, m, s) ← py_unpack3 value;
  fd ← py_float d;
  fm ← py_float m;
  fs ← py_float s;
  mret (fd + (fm / 60) + (fs / 3600))%float.

(** [TAGS.get(tag_id, tag_id)] *)
Definition tag_key (table : Z -> option str) (tag_id : Z) : key :=
  match table tag_id with
  | Some name => KStr name
  | None => KInt tag_id
  end.

(** "Convert bytes to string": [value.decode()], or [str(value)] when
    that fails. *)
Definition bytes_to_string (value : pyval) : pyval :=
  match value with
  | VBytes bs =>
      match Utf8.decode bs with
      | Some s => VStr s
      | None => VStr (py_str value)
      end
  | _ => value
  end.

(** The loop [for tag_id, value in items: d[table.get(tag_id, tag_id)] = f value]. *)
Definition named_tags (table : Z -> option str) (f : pyval -> pyval)
    (items : list (Z * pyval)) : dict :=
  foldl (fun d item => <[tag_key table item.1 := f item.2]> d) ∅ items.

(** The block "Extract GPS data if available" for a GPS directory that is
    not empty. *)
Definition add_gps_data (exif_data gps_data : dict) : result dict :=
  exif_data ←
    (if bool_decide (is_Some (gps_data !! KStr (u "GPSLatitude")))
        && bool_decide (is_Some (gps_data !! KStr (u "GPSLongitude")))
     then
       v_lat ← py_item (VDict gps_data) "GPSLatitude";
       lat ← convert_to_degrees v_lat;
       v_lon ← py_item (VDict gps_data) "GPSLongitude";
       lon ← convert_to_degrees v_lon;
       ref_lat ← py_get (VDict gps_data) "GPSLatitudeRef" VNone;
       let lat := if py_eq_str ref_lat "S" then (- lat)%float else lat in
       ref_lon ← py_get (VDict gps_data) "GPSLongitudeRef" VNone;
       let lon := if py_eq_str ref_lon "W" then (- lon)%float else lon in
       mret (<[KStr (u "GPSLongitude") := VFloat lon]>
               (<[KStr (u "GPSLatitude") := VFloat lat]> exif_data))
     else mret exif_data);
  mret (<[KStr (u "GPSData") := VDict gps_data]> exif_data).

(** [extract_exif_data(image_path)]: "Extract EXIF data from an image
    file." *)
Definition extract_exif_data (image_path : str) : IO dict :=
  emit (ImageOpen image_path);;
  mret (try_except
          (image ← open_image w image_path;
           let exif_data := named_tags (TAGS w) bytes_to_string (exif_items image) in
           match gps_items image with
           | [] => mret exif_data
           | gps_info => add_gps_data exif_data (named_tags (GPSTAGS w) id gps_info)
           end)
          (fun e => mkdict [("error", VStr (exn_str e))])).

(** ** The geo enrichment clients *)

Definition error_dict (e : exn) : pyval :=
  VDict (mkdict [("error", VStr (exn_str e))]).

Definition reverse_geocode_url (lat lon : pyval) : str :=
  u "https://nominatim.openstreetmap.org/reverse?format=json&lat="
  ++ fmt lat ++ u "&lon=" ++ fmt lon
  ++ u "&addressdetails=1&extratags=1&namedetails=1&zoom=18".

(** [reverse_geocode(lat, lon)]: "Query OpenStreetMap Nominatim API for
    reverse geocoding." *)
Definition reverse_geocode (lat lon : pyval) : IO dict :=
  let url := reverse_geocode_url lat lon in
  catch
    (emit (HttpRequest url None);;
     data ← lift (urlopen_json w url None);
     mret (mkdict [("api_url", VStr url); ("api_response", data); ("data", data)]))
    (fun e =>
       mret (mkdict [("api_url", VStr url); ("api_response", error_dict e);
                     ("data", VNone)])).

(** What one round of the loop over [data[:15]] reads and computes before
    its test. *)
Record candidate := Candidate {
  c_display_name : pyval;
  c_name : pyval;
  c_lat : float;
  c_lon : float;
  c_distance : float;
}.

Definition read_candidate (lat lon item : pyval) : result candidate :=
  display_name ← py_get item "display_name" (VStr []);
  name ← py_get item "name" (VStr []);
  v_lat ← py_get item "lat" (VInt 0);
  item_lat ← py_float v_lat;
  v_lon ← py_get item "lon" (VInt 0);
  item_lon ← py_float v_lon;
  dlat ← py_sub_float lat item_lat;
  dlat2 ← py_pow dlat 2;
  dlon ← py_sub_float lon item_lon;
  dlon2 ← py_pow dlon 2;
  root ← py_pow (dlat2 + dlon2) 0.5;
  mret (Candidate display_name name item_lat item_lon (root * 111000)).

(** The test "Only include if >10m away and has a name". *)
Definition included (c : candidate) : bool :=
  PrimFloat.ltb 10 (c_distance c) && py_truthy (c_name c).

(** The record appended to [pois]. *)
Definition poi_record (item : pyval) (c : candidate) : result pyval :=
  type ← py_get item "type" VNone;
  category ← py_get item "category" VNone;
  class ← py_get item "class" VNone;
  mret (VDict (mkdict
    [("name", c_name c); ("type", type); ("category", category); ("class", class);
     ("display_name", c_display_name c);
     ("distance", VFloat (float_round (c_distance c) 1));
     ("lat", VFloat (c_lat c)); ("lon", VFloat (c_lon c))])).

Definition poi_of_item (lat lon item : pyval) : result (option pyval) :=
  c ← read_candidate lat lon item;
  if included c then Some <$> poi_record item c else mret None.

(** The loop [for item in data[:15]], building [pois]. *)
Fixpoint collect_pois (lat lon : pyval) (items : list pyval) : result (list pyval) :=
  match items with
  | [] => mret []
  | item :: rest =>
      poi ← poi_of_item lat lon item;
      pois ← collect_pois lat lon rest;
      mret (match poi with Some p => p :: pois | None => pois end)
  end.

(** The two characters that follow [{direction}] in the source text of
    the console line. *)
Definition DIRECTION_UNIT : str := [0xAC; 0x221E]%N.

Definition poi_search_url (lat lon : pyval) : str :=
  u "https://nominatim.openstreetmap.org/search?format=json&q=&lat="
  ++ fmt lat ++ u "&lon=" ++ fmt lon
  ++ u "&addressdetails=1&extratags=1&limit=20".

(** [search_nearby_poi(lat, lon, direction=None)]: "Search for nearby
    points of interest using Nominatim." *)
Definition search_nearby_poi (lat lon : pyval) (direction : option float) : IO dict :=
  let url := poi_search_url lat lon in
  match direction with
  | Some d => emit (Print (u "Camera direction: " ++ fmt (VFloat d) ++ DIRECTION_UNIT))
  | None => mret tt
  end;;
  catch
    (emit (HttpRequest url None);;
     data ← lift (urlopen_json w url None);
     pois ← lift (match data with
                  | VList items => collect_pois lat lon (take 15 items)
                  | _ => mret []
                  end);
     mret (mkdict
       [("pois", VList pois); ("api_url", VStr url);
        ("api_response",
         if is_list data then data
         else VDict (mkdict [("error", VStr (u "Invalid response format"))]))]))
    (fun e =>
       mret (mkdict [("pois", VList []); ("api_url", VStr url);
                     ("api_response", error_dict e)])).


(** The text of the SPARQL query, line by line. *)
Definition wikidata_query (lat lon radius_km : pyval) : str :=
  Py.join [LF]
    [ u "SELECT ?place ?location ?distance ?placeLabel ?placeDescription ?instanceOfLabel WHERE {";
      u "    SERVICE wikibase:around {";
      u "      ?place wdt:P625 ?location .";
      u "      bd:serviceParam wikibase:center " ++ [DQUOTE] ++ u "Point(" ++ fmt lon
        ++ u " " ++ fmt lat ++ u ")" ++ [DQUOTE] ++ u "^^geo:wktLiteral .";
      u "      bd:serviceParam wikibase:radius " ++ [DQUOTE] ++ fmt radius_km
        ++ [DQUOTE] ++ u " .";
      u "      bd:serviceParam wikibase:distance ?distance .";
      u "    }";
      u "    OPTIONAL { ?place wdt:P31 ?instanceOf . }";
      u "    SERVICE wikibase:label { bd:serviceParam wikibase:language " ++ [DQUOTE]
        ++ u "[AUTO_LANGUAGE],mul,en" ++ [DQUOTE] ++ u ". }";
      u "} ORDER BY ?distance LIMIT 100" ].

(** [result.get(field, {}).get("value", dflt)] *)
Definition binding_value (binding : pyval) (field : string) (dflt : pyval) : result pyval :=
  cell ← py_get binding field (VDict ∅);
  py_get cell "value" dflt.

(** [place_uri.split('/')[-1]] when [place_uri] is not empty, the empty
    string otherwise: "Extract Wikidata ID from URI (e.g.,
    http://www.wikidata.org/entity/Q123 -> Q123)" *)
Definition wikidata_id_of (place_uri : pyval) : result str :=
  if py_truthy place_uri then
    match place_uri with
    | VStr s =>
        match last (Py.split (u "/") s) with
        | Some piece => mret piece
        | None => Raise index_out_of_range
        end
    | VBytes _ => Raise (Exn TypeError (u "a bytes-like object is required, not 'str'"))
    | _ => Raise (no_attribute place_uri "split")
    end
  else mret [].

(** One round of the loop over the bindings: the record appended to
    [places]. *)
Definition place_of_binding (binding : pyval) : result pyval :=
  place_uri ← binding_value binding "place" (VStr []);
  place_label ← binding_value binding "placeLabel" (VStr (u "Unknown"));
  place_desc ← binding_value binding "placeDescription" (VStr []);
  instance_of ← binding_value binding "instanceOfLabel" (VStr []);
  v_distance ← binding_value binding "distance" (VInt 0);
  distance ← py_float v_distance;
  wikidata_id ← wikidata_id_of place_uri;
  mret (VDict (mkdict
    [("label", place_label); ("description", place_desc);
     ("instance_of", instance_of);
     ("distance_km", VFloat (float_round distance 3));
     ("distance_m", VFloat (float_round (distance * 1000) 1));
     ("wikidata_id", VStr wikidata_id);
     ("wikidata_url",
      VStr (if truthy wikidata_id
            then u "https://www.wikidata.org/wiki/" ++ wikidata_id else []))])).

Fixpoint collect_places (bindings : list pyval) : result (list pyval) :=
  match bindings with
  | [] => mret []
  | binding :: rest =>
      place ← place_of_binding binding;
      places ← collect_places rest;
      mret (place :: places)
  end.

(** [results.get("results", {}).get("bindings", [])], as the console line
    that counts them and the loop read it. *)
Definition bindings_of (results : pyval) : result (list pyval) :=
  section ← py_get results "results" (VDict ∅);
  bindings ← py_get section "bindings" (VList []);
  _ ← py_len bindings;
  py_iter bindings.

(** [query_wikidata_pois(lat, lon, radius_km=1)]: "Query Wikidata for
    nearby points of interest using SPARQL." *)
Definition query_wikidata_pois (lat lon radius_km : pyval) : IO dict :=
  if negb (SPARQL_AVAILABLE w) then
    mret (mkdict [("places", VList []);
                  ("error", VStr (u "SPARQLWrapper not installed"));
                  ("query", VNone); ("raw_response", VNone)])
  else
    let query := wikidata_query lat lon radius_km in
    catch
      (emit (SparqlQuery query);;
       results ← lift (sparql_convert w query);
       bindings ← lift (bindings_of results);
       places ← lift (collect_places bindings);
       mret (mkdict [("places", VList places); ("query", VStr query);
                     ("raw_response", results); ("error", VNone)]))
      (fun e =>
         mret (mkdict [("places", VList []); ("query", VStr query);
                       ("raw_response", VNone); ("error", VStr (exn_str e))])).

(** ** The description and language services *)

(** [addr.get('city') or addr.get('town') or addr.get('village')] *)
Definition locality (addr : pyval) : result pyval :=
  city ← py_get addr "city" VNone;
  if py_truthy city then mret city else
  town ← py_get addr "town" VNone;
  if py_truthy town then mret town else
  py_get addr "village" VNone.

(** The address breakdown of a reverse-geocode result, when the guard
    [location_data and location_data.get('data')] lets it through. *)
Definition address_of (location_data : pyval) : result (option pyval) :=
  if py_truthy location_data then
    data ← py_get location_data "data" VNone;
    if py_truthy data then
      loc ← py_item location_data "data";
      addr ← py_get loc "address" (VDict ∅);
      mret (Some addr)
    else mret None
  else mret None.

(** [sep.join(parts)] for a list of values, from its item number [i] on *)
Fixpoint str_join_from (i : nat) (sep : str) (parts : list pyval) : result str :=
  match parts with
  | [] => mret []
  | VStr s :: rest =>
      match rest with
      | [] => mret s
      | _ => tail ← str_join_from (S i) sep rest; mret (s ++ sep ++ tail)
      end
  | v :: _ => Raise (Exn TypeError
                       (u ("sequence item " ++ pretty i ++ ": expected str instance, "
                           ++ type_name v ++ " found")))
  end.

Definition str_join (sep : str) (parts : list pyval) : result str :=
  str_join_from 0 sep parts.

(** "Build context from EXIF and location data" *)
Definition location_context_of (location_data : pyval) : result str :=
  addr ← address_of location_data;
  match addr with
  | None => mret []
  | Some addr =>
      place ← locality addr;
      parts1 ← (if py_truthy place then p ← locality addr; mret [p] else mret []);
      country ← py_get addr "country" VNone;
      parts2 ← (if py_truthy country
                then c ← py_get addr "country" VNone; mret (parts1 ++ [c])
                else mret parts1);
      match parts2 with
      | [] => mret []
      | _ => str_join (u ", ") parts2
      end
  end.

(** One line of the list of nearby places. *)
Definition place_info (i : nat) (place : pyval) : result str :=
  label ← py_get place "label" (VStr (u "Unknown"));
  let info := u (pretty i) ++ u ". " ++ fmt label in
  instance_of ← py_get place "instance_of" VNone;
  let info := if py_truthy instance_of
              then info ++ u " (" ++ fmt instance_of ++ u ")" else info in
  description ← py_get place "description" VNone;
  let info := if py_truthy description
              then info ++ u " - " ++ fmt description else info in
  distance_m ← py_get place "distance_m" (VInt 0);
  mret (info ++ u " [" ++ fmt distance_m ++ u "m away]").

(** The loop [for i, place in enumerate(wikidata_places[:10], 1)] *)
Fixpoint place_lines (i : nat) (places : list pyval) : result str :=
  match places with
  | [] => mret []
  | place :: rest =>
      info ← place_info i place;
      tail ← place_lines (S i) rest;
      mret (info ++ [LF] ++ tail)
  end.

(** "Add Wikidata places context if available" *)
Definition wikidata_context (wikidata_places : pyval) : result str :=
  n ← (if py_truthy wikidata_places then py_len wikidata_places else mret 0);
  if py_truthy wikidata_places && (0 <? n) then
    top ← py_slice_to 10 wikidata_places;
    places ← py_iter top;
    listed ← place_lines 1 places;
    mret ([LF; LF]
          ++ u "Based on GPS coordinates, these specific places/structures are nearby (ordered by distance):"
          ++ [LF] ++ listed ++ [LF]
          ++ u "IMPORTANT: If you recognize any of these specific places in the image, "
          ++ u "include its exact name in your description. For example: 'A Ryanair airplane at Terminal 2 of Berlin Brandenburg Airport' "
          ++ u "rather than just 'A Ryanair airplane at an airport terminal'." ++ [LF])
  else mret [].

Definition vision_prompt (location_data wikidata_places : pyval) : result str :=
  location_context ← location_context_of location_data;
  places_context ← wikidata_context wikidata_places;
  mret (u "Describe what you see in this image in one clear sentence (maximum 25 words). "
        ++ u "Your description should naturally include the main subject AND the location. "
        ++ (if truthy location_context
            then u "This photo was taken in " ++ location_context ++ u ". " else [])
        ++ places_context
        ++ [LF; LF]
        ++ u "Provide a single integrated sentence that describes the subject and location together. "
        ++ u "Do not split this into separate parts - make it one flowing sentence.").

(** The request body of a chat call. *)
Definition chat_payload (model : str) (message : list (string * pyval)) : pyval :=
  VDict (mkdict [("model", VStr model);
                 ("messages", VList [VDict (mkdict message)]);
                 ("stream", VBool false)]).

(** The reply's [message.content], when the reply has one:
    [if 'message' in result and 'content' in result['message']]. *)
Definition message_content (reply : pyval) : result (option pyval) :=
  has_message ← py_in "message" reply;
  if (has_message : bool) then
    message ← py_item reply "message";
    has_content ← py_in "content" message;
    if (has_content : bool) then
      message ← py_item reply "message";
      content ← py_item message "content";
      mret (Some content)
    else mret None
  else mret None.

(** "Prepare request to Ollama" *)
Definition vision_payload (prompt image_base64 : str) : pyval :=
  chat_payload OLLAMA_MODEL
    [("role", VStr (u "user")); ("content", VStr prompt);
     ("images", VList [VStr image_base64])].

(** [analyze_image_with_ollama(image_path, exif_data, location_data,
    wikidata_places=None)]: "Analyze image using Ollama vision model." *)
Definition analyze_image_with_ollama
    (image_path : str) (exif_data location_data wikidata_places : pyval) : IO dict :=
  catch
    (emit (FileRead image_path);;
     image ← lift (read_file w image_path);
     let image_base64 := b64encode image in
     prompt ← lift (vision_prompt location_data wikidata_places);
     let payload := vision_payload prompt image_base64 in
     emit (HttpRequest OLLAMA_API_URL (Some payload));;
     reply ← lift (urlopen_json w OLLAMA_API_URL (Some payload));
     content ← lift (message_content reply);
     description ← lift (match content with
                         | Some c => VStr <$> py_strip c
                         | None => mret VNone
                         end);
     mret (mkdict [("description", description); ("model", VStr OLLAMA_MODEL);
                   ("prompt", VStr prompt); ("raw_response", reply)]))
    (fun e =>
       let error_msg :=
         match exn_kind e with
         | URLError => u "Failed to connect to Ollama. Is it running? Error: " ++ exn_str e
         | _ => exn_str e
         end in
       mret (mkdict [("description", VNone); ("error", VStr error_msg);
                     ("model", VStr OLLAMA_MODEL)])).

Definition translation_payload (text target_language : pyval) : pyval :=
  let prompt :=
    u "Translate the following text from English to " ++ fmt target_language
    ++ u ". Only output the translation, nothing else. No interpretation, no explanation. Your only output should be a faithful translation of the text I gave, no other acknowledgement or talk."
    ++ [LF; LF] ++ fmt text in
  chat_payload OLLAMA_TRANSLATION_MODEL
    [("role", VStr (u "user")); ("content", VStr prompt)].

(** [translate_text(text, target_language)]: "Translate text to target
    language using Ollama."  The console line before the [try] calls
    [target_language.upper()]. *)
Definition translate_text (text target_language : pyval) : IO pyval :=
  lift (match target_language with
        | VStr _ | VBytes _ => mret tt
        | _ => Raise (no_attribute target_language "upper")
        end);;
  catch
    (let payload := translation_payload text target_language in
     _ ← lift (py_slice_to 100 text);
     emit (HttpRequest OLLAMA_API_URL (Some payload));;
     reply ← lift (urlopen_json w OLLAMA_API_URL (Some payload));
     content ← lift (message_content reply);
     lift (match content with
           | Some c => VStr <$> py_strip c
           | None => mret VNone
           end))
    (fun e => mret VNone).

(** The part of a filename suggestion that comes from the place. *)
Definition location_hint_of (location_data : pyval) : result str :=
  addr ← address_of location_data;
  match addr with
  | None => mret []
  | Some addr =>
      city ← locality addr;
      country ← py_get addr "country" VNone;
      mret (if py_truthy city then u " in " ++ fmt city
            else if py_truthy country then u " in " ++ fmt country
            else [])
  end.

(** "Extract date in YYYY-MM-DD format":
    [date_str.split()[0] if ' ' in date_str else date_str], for a
    [date_str] that is not empty, and the empty string otherwise. *)
Definition date_part_of (date_str : pyval) : result pyval :=
  if py_truthy date_str then
    has_space ← py_in " " date_str;
    if (has_space : bool) then
      match date_str with
      | VStr s =>
          match split_ws s with
          | first :: _ => mret (VStr first)
          | [] => Raise index_out_of_range
          end
      | _ => Raise (no_attribute date_str "split")
      end
    else mret date_str
  else mret (VStr []).

(** "Clean up the filename": the words of the model's reply, from its
    stripped content. *)
Definition clean_filename_base (filename_base : str) : str :=
  let s := str_lower filename_base in
  let s := Py.replace (u "-") (u " ") s in
  let s := Py.strip ([DQUOTE; SQUOTE] ++ u ".,!?") s in
  let s := Py.replace (u "end_of_turn>") [] s in
  let s := Py.replace (u "<end_of_turn>") [] s in
  let s := Py.replace (u "</s>") [] s in
  let s := Py.replace (u "<s>") [] s in
  Py.join (u " ") (split_ws s).

(** "Construct final filename with date" *)
Definition compose_filename (filename_base : option str) (date_part : pyval) : str :=
  match filename_base with
  | Some base =>
      if truthy base && py_truthy date_part
      then base ++ u " " ++ fmt date_part ++ u ".jpg"
      else if truthy base then base ++ u ".jpg"
      else if py_truthy date_part then u "image " ++ fmt date_part ++ u ".jpg"
      else u "image.jpg"
  | None =>
      if py_truthy date_part then u "image " ++ fmt date_part ++ u ".jpg"
      else u "image.jpg"
  end.

Definition filename_payload (description : pyval) (location_hint : str) : pyval :=
  let prompt :=
    u "Based on this image description: " ++ [DQUOTE] ++ fmt description
    ++ [DQUOTE] ++ u ", "
    ++ u "suggest a short, descriptive filename (3-6 words maximum) for Wikimedia Commons. "
    ++ u "The filename should describe the main subject clearly and concisely. "
    ++ u "Use only lowercase letters, spaces (not hyphens), and keep it simple. "
    ++ u "Do not include the file extension or date. "
    ++ u "Only output the filename words, nothing else."
    ++ (if truthy location_hint
        then u " The photo was taken" ++ location_hint ++ u "." else []) in
  chat_payload OLLAMA_TRANSLATION_MODEL
    [("role", VStr (u "user")); ("content", VStr prompt)].

(** [suggest_filename(description, date_str, location_data)]: "Generate a
    suggested filename based on image description and metadata." *)
Definition suggest_filename (description date_str location_data : pyval) : IO pyval :=
  catch
    (location_hint ← lift (location_hint_of location_data);
     date_part ← lift (date_part_of date_str);
     let payload := filename_payload description location_hint in
     _ ← lift (py_slice_to 80 description);
     emit (HttpRequest OLLAMA_API_URL (Some payload));;
     reply ← lift (urlopen_json w OLLAMA_API_URL (Some payload));
     content ← lift (message_content reply);
     filename_base ← lift (match content with
                           | Some c => s ← py_strip c; mret (Some (clean_filename_base s))
                           | None => mret None
                           end);
     mret (VStr (compose_filename filename_base date_part)))
    (fun e => mret VNone).

(** ** The upload decoder *)

(** "Extract filename and remove quotes properly": the text that follows
    [filename=] on a header line, stripped of whitespace, then of double
    quotes, then of single quotes, then of whitespace again. *)
Definition filename_of_line (line : str) : result str :=
  match Py.split (u "filename=") line !! 1 with
  | Some filename_part =>
      mret (strip_ws (Py.strip [SQUOTE] (Py.strip [DQUOTE] (strip_ws filename_part))))
  | None => Raise index_out_of_range
  end.

(** The loop over the header lines, left at the first line that has
    [filename=]; [filename] is kept when no line has it. *)
Fixpoint filename_of_lines (lines : list str) (filename : option str)
    : result (option str) :=
  match lines with
  | [] => mret filename
  | line :: rest =>
      if Py.contains (u "filename=") line
      then Some <$> filename_of_line line
      else filename_of_lines rest filename
  end.

(** The variables [image_data] and [filename] of the handler. *)
Definition upload_state : Type := option bytes * option str.

(** One round of the loop [for part in parts]. *)
Definition scan_part (st : upload_state) (part : bytes) : result upload_state :=
  if Py.contains (b "Content-Disposition") part && Py.contains (b "filename=") part
  then
    match Py.split_max1 (CRLF ++ CRLF) part with
    | [headers; content] =>
        let headers_str := Utf8.decode_ignore headers in
        filename ← filename_of_lines (Py.split [LF] headers_str) st.2;
        match Py.rsplit_max1 CRLF content with
        | image_data :: _ => mret (Some image_data, filename)
        | [] => Raise index_out_of_range
        end
    | pieces => Raise (wrong_arity 2 (length pieces))
    end
  else mret st.

Fixpoint scan_parts (st : upload_state) (parts : list bytes) : result upload_state :=
  match parts with
  | [] => mret st
  | part :: rest => st' ← scan_part st part; scan_parts st' rest
  end.

(** "Parse multipart data manually" *)
Definition parse_multipart (boundary body : bytes) : result upload_state :=
  scan_parts (None, None) (Py.split (b "--" ++ boundary) body).

(** "Clean the filename - remove any quotes or special characters that
    might cause issues" *)
Definition clean_filename (filename : str) : str :=
  Py.replace [CR] [] (Py.replace [LF] [] (Py.replace [SQUOTE] []
    (Py.replace [DQUOTE] [] filename))).

(** What the decoder hands on: the file, or the refusal of the request. *)
Inductive upload :=
| NoImageFile
| ImageFile (filename : str) (image_data : bytes).

(** The decoder of the upload handler, from the boundary to the cleaned
    filename. *)
Definition decode_upload (boundary body : bytes) : result upload :=
  st ← parse_multipart boundary body;
  match st with
  | (Some image_data, Some filename) =>
      if truthy image_data && truthy filename
      then mret (ImageFile (clean_filename filename) image_data)
      else mret NoImageFile
  | _ => mret NoImageFile
  end.

(** [content_type.split("boundary=")[1].encode()] *)
Definition boundary_of (content_type : str) : result bytes :=
  match Py.split (u "boundary=") content_type !! 1 with
  | Some boundary =>
      match Utf8.encode boundary with
      | Some bs => mret bs
      | None => Raise (Exn UnicodeError (u "'utf-8' codec can't encode character"))
      end
  | None => Raise index_out_of_range
  end.

(** ** The request handler *)

Record request := Request {
  path : str;
  (* [self.headers['Content-Type']], [None] when the header is absent *)
  content_type : option str;
  (* the bytes that [self.rfile.read(content_length)] returns *)
  body : bytes;
}.

Inductive response :=
(* [send_response(status)] followed by a JSON document *)
| JsonResponse (status : N) (document : pyval)
(* [send_error(status, message)] *)
| ErrorResponse (status : N) (message : str).

(** The [except Exception as e] branch every endpoint ends with. *)
Definition server_error (e : exn) : IO response :=
  mret (JsonResponse 500
          (VDict (mkdict [("success", VBool false); ("error", VStr (exn_str e))]))).

(** [os.path.join(UPLOAD_DIR, name)] *)
Definition upload_path (name : str) : str :=
  if Py.starts_with (u "/") name then name else UPLOAD_DIR ++ u "/" ++ name.

Definition post_translate (req : request) : IO response :=
  catch
    (request_data ← lift (json_loads (body req));
     text ← lift (py_get request_data "text" VNone);
     target_language ← lift (py_get request_data "language" VNone);
     if negb (py_truthy text) || negb (py_truthy target_language)
     then mret (ErrorResponse 400 (u "Missing text or language"))
     else
       translation ← translate_text text target_language;
       mret (JsonResponse 200
               (VDict (mkdict [("success", VBool true); ("translation", translation);
                               ("language", target_language);
                               ("model", VStr OLLAMA_TRANSLATION_MODEL)]))))
    server_error.

Definition post_suggest_filename (req : request) : IO response :=
  catch
    (request_data ← lift (json_loads (body req));
     description ← lift (py_get request_data "description" VNone);
     date_str ← lift (py_get request_data "date" VNone);
     location_data ← lift (py_get request_data "location" VNone);
     if negb (py_truthy description)
     then mret (ErrorResponse 400 (u "Missing description"))
     else
       suggested_filename ← suggest_filename description date_str location_data;
       mret (JsonResponse 200
               (VDict (mkdict [("success", VBool true); ("filename", suggested_filename);
                               ("model", VStr OLLAMA_TRANSLATION_MODEL)]))))
    server_error.

(** [wikidata_places[0]], which a console line of the vision endpoint
    evaluates. *)
Definition py_first (v : pyval) : result pyval :=
  match v with
  | VList (x :: _) | VTuple (x :: _) => mret x
  | VStr (c :: _) => mret (VStr [c])
  | VBytes (c :: _) => mret (VInt (Z.of_N (Byte.to_N c)))
  | VList [] | VTuple [] | VStr [] | VBytes [] => Raise index_out_of_range
  | VDict d =>
      match d !! KInt 0 with
      | Some x => mret x
      | None => Raise (Exn KeyError (u "0"))
      end
  | _ => Raise (not_subscriptable v)
  end.

Definition post_vision (req : request) : IO response :=
  catch
    (request_data ← lift (json_loads (body req));
     filename ← lift (py_get request_data "filename" VNone);
     exif_data ← lift (py_get request_data "exif" VNone);
     location_data ← lift (py_get request_data "location" VNone);
     wikidata_places ← lift (py_get request_data "wikidata_places" VNone);
     lift (if py_truthy wikidata_places
           then _ ← py_len wikidata_places; _ ← py_first wikidata_places; mret tt
           else mret tt);;
     if negb (py_truthy filename)
     then mret (ErrorResponse 400 (u "No filename provided"))
     else
       file_path ← lift (match filename with
                         | VStr name => mret (upload_path name)
                         | VBytes _ =>
                             Raise (Exn TypeError
                                      (u "Can't mix strings and bytes in path components"))
                         | _ =>
                             Raise (Exn TypeError
                                      (u ("join() argument must be str, bytes, or "
                                          ++ "os.PathLike object, not '"
                                          ++ type_name filename ++ "'")))
                         end);
       if negb (path_exists w file_path)
       then mret (ErrorResponse 404 (u "File not found"))
       else
         vision_data ← analyze_image_with_ollama file_path exif_data location_data
                         wikidata_places;
         mret (JsonResponse 200 (VDict vision_data)))
    server_error.

Definition post_wikidata_pois (req : request) : IO response :=
  catch
    (request_data ← lift (json_loads (body req));
     lat ← lift (py_get request_data "lat" VNone);
     lon ← lift (py_get request_data "lon" VNone);
     radius ← lift (py_get request_data "radius" (VInt 1));
     match lat, lon with
     | VNone, _ | _, VNone => mret (ErrorResponse 400 (u "Missing lat or lon coordinates"))
     | _, _ =>
         wikidata_result ← query_wikidata_pois lat lon radius;
         mret (JsonResponse 200
                 (VDict (mkdict [("success", VBool true);
                                 ("wikidata", VDict wikidata_result)])))
     end)
    server_error.

(** "Extract camera direction if available" *)
Definition camera_direction_of (exif_data : dict) : result (option float) :=
  match exif_data !! KStr (u "GPSData") with
  | Some gps_data =>
      has_direction ← py_in "GPSImgDirection" gps_data;
      if (has_direction : bool) then
        v ← py_item gps_data "GPSImgDirection";
        Some <$> py_float v
      else mret None
  | None => mret None
  end.

(** "Perform reverse geocoding and POI search if GPS data available": the
    values of [location_data], [poi_data] and [camera_direction]. *)
Definition enrich (exif_data : dict) : IO (pyval * pyval * pyval) :=
  if bool_decide (is_Some (exif_data !! KStr (u "GPSLatitude")))
     && bool_decide (is_Some (exif_data !! KStr (u "GPSLongitude")))
  then
    camera_direction ← lift (camera_direction_of exif_data);
    lat ← lift (py_item (VDict exif_data) "GPSLatitude");
    lon ← lift (py_item (VDict exif_data) "GPSLongitude");
    location_data ← reverse_geocode lat lon;
    lat ← lift (py_item (VDict exif_data) "GPSLatitude");
    lon ← lift (py_item (VDict exif_data) "GPSLongitude");
    poi_data ← search_nearby_poi lat lon camera_direction;
    mret (VDict location_data, VDict poi_data,
          match camera_direction with Some d => VFloat d | None => VNone end)
  else mret (VNone, VNone, VNone).

Definition post_upload (req : request) : IO response :=
  catch
    (content_type ← lift (match content_type req with
                          | Some ct => mret ct
                          | None => Raise (not_iterable VNone)
                          end);
     if negb (Py.contains (u "multipart/form-data") content_type)
     then mret (ErrorResponse 400 (u "Bad Request: Expected multipart/form-data"))
     else
       boundary ← lift (boundary_of content_type);
       file ← lift (decode_upload boundary (body req));
       match file with
       | NoImageFile => mret (ErrorResponse 400 (u "No image file provided"))
       | ImageFile filename image_data =>
           let safe_filename := timestamp w ++ u "_" ++ filename in
           let file_path := upload_path safe_filename in
           emit (FileWrite file_path image_data);;
           lift (write_file w file_path image_data);;
           exif_data ← extract_exif_data file_path;
           '(location_data, poi_data, camera_direction) ← enrich exif_data;
           mret (JsonResponse 200
                   (VDict (mkdict
                      [("success", VBool true); ("filename", VStr safe_filename);
                       ("exif", VDict exif_data); ("location", location_data);
                       ("pois", poi_data); ("camera_direction", camera_direction);
                       ("vision", VNone)])))
       end)
    server_error.

(** [ImageUploadHandler.do_POST]: "Handle POST requests - process image
    upload." *)
Definition do_POST (req : request) : IO response :=
  if bool_decide (path req = u "/translate") then post_translate req
  else if bool_decide (path req = u "/suggest-filename") then post_suggest_filename req
  else if bool_decide (path req = u "/upload/vision") then post_vision req
  else if bool_decide (path req = u "/wikidata-pois") then post_wikidata_pois req
  else if bool_decide (path req = u "/upload") then post_upload req
  else mret (ErrorResponse 404 (u "Not Found")).

End program.

(** ** The multipart encoding the decoder is measured against

    A body as a browser sends it for file fields: after each delimiter
    [--boundary] a part made of a header block, a blank line, the payload
    and a line break; after the last part the closing delimiter
    [--boundary--]. *)

Definition DQ : byte := x22.

(** A part with a file: the filename as it stands between the quotes, the
    header lines that follow the [Content-Disposition] line, the payload. *)
Record file_part := FilePart {
  part_filename : bytes;
  part_headers : list bytes;
  part_payload : bytes;
}.

Definition disposition_line (filename : bytes) : bytes :=
  b "Content-Disposition" ++ b ": form-data; name=" ++ [DQ] ++ b "file" ++ [DQ]
  ++ b "; " ++ b "filename=" ++ [DQ] ++ filename ++ [DQ].

(** The text of that line before the [filename] attribute. *)
Definition disposition_lead : str :=
  u "Content-Disposition" ++ u ": form-data; name=" ++ [DQUOTE] ++ u "file" ++ [DQUOTE]
  ++ u "; ".

Definition header_block (p : file_part) : bytes :=
  CRLF ++ disposition_line (part_filename p)
  ++ concat ((fun h => CRLF ++ h) <$> part_headers p).

Definition encode_part (p : file_part) : bytes :=
  header_block p ++ (CRLF ++ CRLF) ++ part_payload p ++ CRLF.

Definition delimiter (boundary : bytes) : bytes := b "--" ++ boundary.

(** What follows the first delimiter. *)
Fixpoint encode_parts (boundary : bytes) (parts : list file_part) : bytes :=
  match parts with
  | [] => b "--" ++ CRLF
  | p :: rest => encode_part p ++ delimiter boundary ++ encode_parts boundary rest
  end.

Definition multipart_body (boundary : bytes) (parts : list file_part) : bytes :=
  delimiter boundary ++ encode_parts boundary parts.

(** The delimiter occurs in a part nowhere, not even across its end. *)
Definition delimiter_free (boundary : bytes) (p : file_part) : Prop :=
  Py.find (delimiter boundary) (encode_part p ++ delimiter boundary)
  = Some (length (encode_part p)).

(** The header block has no blank line of its own. *)
Definition no_blank_line (p : file_part) : Prop :=
  Py.find (CRLF ++ CRLF) (header_block p ++ CRLF ++ CRLF) = Some (length (header_block p)).

(** A filename that the decoder leaves as it is: not empty, free of quotes
    and line breaks, with no whitespace at either end and no [filename=]
    inside. *)
Definition plain_filename (filename : str) : bool :=
  truthy filename
  && forallb (fun c => negb (Py.one_of [DQUOTE; SQUOTE; CR; LF] c)) filename
  && from_option (fun c => negb (isspace c)) true (head filename)
  && from_option (fun c => negb (isspace c)) true (last filename)
  && negb (Py.contains (u "filename=") filename).

(** ** A runtime and a world to evaluate examples in

    The theorems hold for every runtime and every world; the examples need
    one.  In this runtime [round] and [float()] of a short decimal are exact,
    [**] is taken from binary64 multiplication and square root at the two
    exponents the program uses, lower-casing is that of ASCII, Base64 is the
    standard one, and values other than [None], booleans, integers and
    strings print as a question mark. *)

Definition round_half_even (num den : Z) : Z :=
  let q := (num / den)%Z in
  let r := (num mod den)%Z in
  if (2 * r <? den)%Z then q
  else if (den <? 2 * r)%Z then (q + 1)%Z
  else if Z.even q then q else (q + 1)%Z.

Definition float_of_Z (n : Z) : float := SF2Prim (binary_normalize prec emax n 0 false).

(** [round(x, n)] for [0 <= n]: the float nearest to the decimal with [n]
    places that is nearest to [x], ties to even. *)
Definition example_round (x : float) (n : Z) : float :=
  match Prim2SF x with
  | S754_finite sign m e =>
      let scaled := (Z.pos m * 10 ^ n)%Z in
      let r := if (0 <=? e)%Z then (scaled * 2 ^ e)%Z
               else round_half_even scaled (2 ^ (- e)) in
      if (2 ^ 53 <=? r)%Z then x
      else
        let y := (float_of_Z r / float_of_Z (10 ^ n))%float in
        if sign then (- y)%float else y
  | _ => x
  end.

Definition example_pow (x y : float) : option float :=
  if PrimFloat.eqb y 2 then
    let r := (x * x)%float in
    if is_infinity r && negb (is_infinity x) then None else Some r
  else if PrimFloat.eqb y 0.5 then Some (PrimFloat.sqrt x)
  else None.

Definition digit_value (c : N) : option Z :=
  if ((48 <=? c) && (c <=? 57))%N then Some (Z.of_N c - 48)%Z else None.

Fixpoint digits_value (acc : Z) (s : str) : option Z :=
  match s with
  | [] => Some acc
  | c :: s' =>
      match digit_value c with
      | Some d => digits_value (10 * acc + d) s'
      | None => None
      end
  end.

(** [float(s)] for [digits] or [digits.digits] with an optional minus sign,
    at most fifteen digits in all. *)
Definition example_float_of_str (s : str) : option float :=
  let '(negative, s) := match s with
                        | 45%N :: s' => (true, s')
                        | _ => (false, s)
                        end in
  let '(int_part, frac_part) :=
    match Py.split_max1 (u ".") s with
    | [i; f] => (i, f)
    | _ => (s, [])
    end in
  if truthy int_part && (length int_part + length frac_part <=? 15) then
    match digits_value 0 (int_part ++ frac_part) with
    | Some n =>
        let y := (float_of_Z n / float_of_Z (10 ^ Z.of_nat (length frac_part)))%float in
        Some (if negative then (- y)%float else y)
    | None => None
    end
  else None.

Definition example_str (v : pyval) : str :=
  match v with
  | VNone => u "None"
  | VBool true => u "True"
  | VBool false => u "False"
  | VInt z => u (pretty z)
  | VStr s => s
  | _ => u "?"
  end.

(** [repr]: a string stands between single quotes (the strings of the
    examples have no quote, backslash or control character in them); another
    value prints as [str] prints it. *)
Definition example_repr (v : pyval) : str :=
  match v with
  | VStr s => [SQUOTE] ++ s ++ [SQUOTE]
  | _ => example_str v
  end.

Definition example_lower (s : str) : str :=
  (fun c => if ((65 <=? c) && (c <=? 90))%N then (c + 32)%N else c) <$> s.

Definition base64_char (n : N) : N :=
  (if n <? 26 then 65 + n
   else if n <? 52 then 97 + (n - 26)
   else if n <? 62 then 48 + (n - 52)
   else if n =? 62 then 43 else 47)%N.

(** Base64 with the standard alphabet and padding. *)
Fixpoint example_b64encode (bs : bytes) : str :=
  match bs with
  | [] => []
  | [x] =>
      let n := Byte.to_N x in
      [base64_char (n / 4); base64_char ((n mod 4) * 16); 61; 61]%N
  | [x; y] =>
      let n := Byte.to_N x in
      let m := Byte.to_N y in
      [base64_char (n / 4); base64_char ((n mod 4) * 16 + m / 16);
       base64_char ((m mod 16) * 4); 61]%N
  | x :: y :: z :: rest =>
      let n := Byte.to_N x in
      let m := Byte.to_N y in
      let k := Byte.to_N z in
      [base64_char (n / 4); base64_char ((n mod 4) * 16 + m / 16);
       base64_char ((m mod 16) * 4 + k / 64); base64_char (k mod 64)]%N
      ++ example_b64encode rest
  end.

(** The runtime of the examples, for a given JSON reader. *)
Definition example_runtime (loads : bytes -> result pyval) : PyRuntime := {|
  float_pow := example_pow;
  float_round := example_round;
  float_of_str := example_float_of_str;
  py_str := example_str;
  py_repr := example_repr;
  str_lower := example_lower;
  json_loads := loads;
  b64encode := example_b64encode;
|}.

(** A world in which every remote call fails with [e], the disk works and
    files hold the image [img]. *)
Definition offline_world (e : exn) (img : raw_image) : World := {|
  urlopen_json := fun _ _ => Raise e;
  sparql_convert := fun _ => Raise e;
  SPARQL_AVAILABLE := true;
  read_file := fun _ => Ok [];
  write_file := fun _ _ => Ok tt;
  path_exists := fun _ => true;
  open_image := fun _ => Ok img;
  TAGS := fun _ => None;
  GPSTAGS := fun n =>
    if (n =? 1)%Z then Some (u "GPSLatitudeRef")
    else if (n =? 2)%Z then Some (u "GPSLatitude")
    else if (n =? 3)%Z then Some (u "GPSLongitudeRef")
    else if (n =? 4)%Z then Some (u "GPSLongitude")
    else if (n =? 17)%Z then Some (u "GPSImgDirection")
    else None;
  timestamp := u "20251030_080142";
|}.

(** A world whose remote services all answer with [reply]. *)
Definition answering_world (reply : pyval) (img : raw_image) : World := {|
  urlopen_json := fun _ _ => Ok reply;
  sparql_convert := fun _ => Ok reply;
  SPARQL_AVAILABLE := true;
  read_file := fun _ => Ok [];
  write_file := fun _ _ => Ok tt;
  path_exists := fun _ => true;
  open_image := fun _ => Ok img;
  TAGS := TAGS (offline_world (Exn OtherError []) img);
  GPSTAGS := GPSTAGS (offline_world (Exn OtherError []) img);
  timestamp := u "20251030_080142";
|}.

(** ** Data of the examples *)

(** Two file parts and a boundary. *)
Definition example_boundary : bytes := b "XyZ".
Definition example_part_a : file_part :=
  FilePart (b "a.jpg") [b "Content-Type: image/jpeg"] (b "AAA").
Definition example_part_b : file_part :=
  FilePart (b "b.jpg") [b "Content-Type: image/jpeg"] (b "BBB").
(** A file part whose payload is empty. *)
Definition example_part_empty : file_part := FilePart (b "a.jpg") [] [].

(** An image with a GPS directory: 48 deg 51' 29.5'' S, 2 deg 17' 40'' E. *)
Definition example_gps_image : raw_image := {|
  exif_items := [(271, VStr (u "ACME"))];
  gps_items :=
    [ (1, VStr (u "S"));
      (2, VTuple [VFloat 48; VFloat 51; VFloat 29.5]);
      (3, VStr (u "E"));
      (4, VTuple [VFloat 2; VFloat 17; VFloat 40]) ];
|}%Z.

(** An image with no GPS directory. *)
Definition example_plain_image : raw_image := {|
  exif_items := [(271, VStr (u "ACME"))]%Z;
  gps_items := [];
|}.

Definition example_error : exn := Exn URLError (u "<urlopen error [Errno 111] Connection refused>").

(** Candidates of the POI search around the fix (48, 2): one a degree
    away, one at the fix itself. *)
Definition example_poi_far : pyval :=
  VDict (mkdict [("name", VStr (u "Tower")); ("display_name", VStr (u "Tower, Paris"));
                 ("type", VStr (u "attraction")); ("lat", VStr (u "49.0"));
                 ("lon", VStr (u "2.0"))]).
Definition example_poi_near : pyval :=
  VDict (mkdict [("name", VStr (u "Here")); ("display_name", VStr (u "Here, Paris"));
                 ("type", VStr (u "house")); ("lat", VStr (u "48.0"));
                 ("lon", VStr (u "2.0"))]).
(** Sixteen candidates, of which only the last is far enough. *)
Definition example_sixteen : list pyval := replicate 15 example_poi_near ++ [example_poi_far].


(** A SPARQL answer with two rows for the same entity, which is an instance
    of two classes: the rows have the same distance. *)
Definition example_binding (instance_of : string) : pyval :=
  let cell (s : string) := VDict (mkdict [("type", VStr (u "literal")); ("value", VStr (u s))]) in
  VDict (mkdict [("place", cell "http://www.wikidata.org/entity/Q64");
                 ("placeLabel", cell "Berlin"); ("instanceOfLabel", cell instance_of);
                 ("distance", cell "0.5")]).

(** A request to translate a sentence into German, as parsed JSON. *)
Definition example_translate_request : pyval :=
  VDict (mkdict [("text", VStr (u "A bridge over a river.")); ("language", VStr (u "German"))]).

(** The body of that request as JSON text, and a JSON reader that knows
    this one text. *)
Definition example_translate_body : bytes :=
  b "{" ++ [DQ] ++ b "text" ++ [DQ] ++ b ": " ++ [DQ] ++ b "A bridge over a river." ++ [DQ]
  ++ b ", " ++ [DQ] ++ b "language" ++ [DQ] ++ b ": " ++ [DQ] ++ b "German" ++ [DQ] ++ b "}".
Definition example_loads (body : bytes) : result pyval :=
  if bool_decide (body = example_translate_body) then Ok example_translate_request
  else Raise (Exn ValueError (u "Expecting value: line 1 column 1 (char 0)")).

(** An upload of [example_part_a]. *)
Definition example_upload_request : request := {|
  path := u "/upload";
  content_type := Some (u "multipart/form-data; boundary=XyZ");
  body := multipart_body example_boundary [example_part_a];
|}.

(** ** Further data of the examples *)

(** An image whose GPS directory gives the latitude as two numbers only. *)
Definition example_short_gps_image : raw_image := {|
  exif_items := [(271, VStr (u "ACME"))];
  gps_items :=
    [ (2, VTuple [VFloat 48; VFloat 51]);
      (4, VTuple [VFloat 2; VFloat 17; VFloat 40]) ];
|}%Z.

(** An image whose GPS directory has a latitude and no longitude. *)
Definition example_half_gps_image : raw_image := {|
  exif_items := [(271, VBytes (b "ACME")); (272, VInt 7)];
  gps_items := [(2, VTuple [VFloat 48; VFloat 51])];
|}%Z.

(** A row whose distance is not a number, and an answer that has it after a
    row that can be read. *)
Definition example_broken_binding : pyval :=
  let cell (s : string) := VDict (mkdict [("type", VStr (u "literal")); ("value", VStr (u s))]) in
  VDict (mkdict [("place", cell "http://www.wikidata.org/entity/Q64");
                 ("placeLabel", cell "Berlin"); ("distance", cell "near")]).
Definition example_broken_sparql_answer : pyval :=
  VDict (mkdict [("results", VDict (mkdict
    [("bindings", VList [example_binding "city"; example_broken_binding])]))]).

(** A world in which nothing works: every call fails with [e], no file
    exists and the SPARQL client library is missing. *)
Definition broken_world (e : exn) : World := {|
  urlopen_json := fun _ _ => Raise e;
  sparql_convert := fun _ => Raise e;
  SPARQL_AVAILABLE := false;
  read_file := fun _ => Raise e;
  write_file := fun _ _ => Raise e;
  path_exists := fun _ => false;
  open_image := fun _ => Raise e;
  TAGS := fun _ => None;
  GPSTAGS := fun _ => None;
  timestamp := u "20251030_080142";
|}.

Definition example_missing_file : exn :=
  Exn OtherError (u "[Errno 2] No such file or directory: 'uploads/photo.jpg'").

(** The answer of a chat model. *)
Definition example_chat_reply : pyval :=
  VDict (mkdict [("message", VDict (mkdict
    [("role", VStr (u "assistant"));
     ("content", VStr (u " A bridge over a river. " ++ [LF]))]))]).

(** The answer of the reverse geocoder for a place in a town. *)
Definition example_address : pyval :=
  VDict (mkdict [("town", VStr (u "Potsdam")); ("village", VStr (u "Golm"));
                 ("country", VStr (u "Germany"))]).
Definition example_location : pyval :=
  VDict (mkdict [("data", VDict (mkdict [("address", example_address)]))]).

(** A body with one form field and no file. *)
Definition example_form_body : bytes :=
  b "--XyZ" ++ CRLF ++ b "Content-Disposition: form-data; name=" ++ [DQ] ++ b "note" ++ [DQ]
  ++ CRLF ++ CRLF ++ b "hello" ++ CRLF ++ b "--XyZ--" ++ CRLF.

(** A file part whose filename has a quote inside. *)
Definition example_part_quoted : file_part :=
  FilePart (b "a" ++ [DQ] ++ b "b.jpg") [b "Content-Type: image/jpeg"] (b "AAA").

(** A body whose file part has no blank line after its header. *)
Definition example_unterminated_body : bytes :=
  b "--XyZ" ++ CRLF ++ disposition_line (b "a.jpg") ++ CRLF ++ b "AAA".

(** * Properties *)

(** ** Facts about Python sequences *)

Module PyFacts.
Section sequences.
Context {A : Type} `{EqDecision A}.
Implicit Types (s p sep x y r : list A) (c : A).

Lemma starts_with_prefix p s : Py.starts_with p s = true ↔ ∃ r, s = p ++ r.
Proof.
  revert s. induction p as [|a p IH]; intros s; simpl.
  - split; [intros _; by exists s | done].
  - destruct s as [|c s].
    + split; [done | intros [r Hr]; discriminate Hr].
    + rewrite andb_true_iff, bool_decide_eq_true, IH. split.
      * intros [-> [r ->]]. by exists r.
      * intros [r Hr]. injection Hr as -> ->. split; [done | by exists r].
Qed.

Lemma starts_with_app p r : Py.starts_with p (p ++ r) = true.
Proof. apply starts_with_prefix. by exists r. Qed.

Lemma starts_with_refl p : Py.starts_with p p = true.
Proof. apply starts_with_prefix. exists []. by rewrite app_nil_r. Qed.

Lemma starts_with_length p s : Py.starts_with p s = true → length p ≤ length s.
Proof.
  intros [r ->]%starts_with_prefix. rewrite length_app. lia.
Qed.

(** Only the first [length p] elements of [s] matter. *)
Lemma starts_with_app_l p x r :
  length p ≤ length x → Py.starts_with p (x ++ r) = Py.starts_with p x.
Proof.
  revert x. induction p as [|a p IH]; intros x Hlen; simpl; [done|].
  destruct x as [|c x]; simpl in *; [lia|].
  rewrite IH by lia. done.
Qed.

Lemma find_Some_elim sep s i :
  Py.find sep s = Some i →
  Py.starts_with sep (drop i s) = true ∧ i ≤ length s
  ∧ ∀ j, j < i → Py.starts_with sep (drop j s) = false.
Proof.
  revert i. induction s as [|c s IH]; intros i; cbn [Py.find].
  - destruct (Py.starts_with sep []) eqn:E; [|done].
    intros [= <-]. simpl. split_and!; [done | lia | lia].
  - destruct (Py.starts_with sep (c :: s)) eqn:E.
    + intros [= <-]. simpl. split_and!; [done | lia | lia].
    + destruct (Py.find sep s) as [k|] eqn:Ek; simpl; [|done].
      intros [= <-]. destruct (IH k eq_refl) as (Hk & Hlen & Hmin).
      simpl. split_and!; [done | lia |].
      intros [|j] Hj; simpl; [done | apply Hmin; lia].
Qed.

Lemma find_None_elim sep s j :
  Py.find sep s = None → Py.starts_with sep (drop j s) = false.
Proof.
  revert j. induction s as [|c s IH]; intros j; cbn [Py.find].
  - destruct (Py.starts_with sep []) eqn:E; [done|]. by rewrite drop_nil.
  - destruct (Py.starts_with sep (c :: s)) eqn:E; [done|].
    destruct (Py.find sep s) eqn:Ek; simpl; [done|]. intros _.
    destruct j as [|j]; simpl; [done | by apply IH].
Qed.

(** [find] returns the first position at which [sep] starts. *)
Lemma find_intro sep s i :
  Py.starts_with sep (drop i s) = true →
  (∀ j, j < i → Py.starts_with sep (drop j s) = false) →
  Py.find sep s = Some i.
Proof.
  intros Hi Hmin. destruct (Py.find sep s) as [k|] eqn:Ek.
  - apply find_Some_elim in Ek as (Hk & _ & Hkmin). f_equal.
    destruct (decide (k < i)); [rewrite Hmin in Hk by done; done|].
    destruct (decide (i < k)); [rewrite Hkmin in Hi by done; done|]. lia.
  - by rewrite (find_None_elim _ _ i Ek) in Hi.
Qed.

Lemma find_bound sep s i : Py.find sep s = Some i → i + length sep ≤ length s.
Proof.
  intros Hf. apply find_Some_elim in Hf as (Hi & Hlen & _).
  apply starts_with_length in Hi. rewrite length_drop in Hi. lia.
Qed.

(** What follows a first occurrence does not move it. *)
Lemma find_app_sep sep a r :
  Py.find sep (a ++ sep) = Some (length a) →
  Py.find sep (a ++ sep ++ r) = Some (length a).
Proof.
  intros (_ & _ & Hmin)%find_Some_elim. apply find_intro.
  - rewrite drop_app_length. apply starts_with_app.
  - intros j Hj. specialize (Hmin j Hj).
    rewrite app_assoc, drop_app_le by (rewrite length_app; lia).
    rewrite starts_with_app_l; [done|].
    rewrite length_drop, length_app. lia.
Qed.

Lemma find_here sep r : Py.find sep (sep ++ r) = Some 0.
Proof. apply find_intro; [apply starts_with_app | lia]. Qed.

Lemma contains_true sep x y : Py.contains sep (x ++ sep ++ y) = true.
Proof.
  unfold Py.contains. destruct (Py.find sep (x ++ sep ++ y)) eqn:E; [done|].
  apply (find_None_elim _ _ (length x)) in E.
  by rewrite drop_app_length, starts_with_app in E.
Qed.

Lemma contains_decompose sep s x y : s = x ++ sep ++ y → Py.contains sep s = true.
Proof. intros ->. apply contains_true. Qed.

Lemma contains_false_short sep s : length s < length sep → Py.contains sep s = false.
Proof.
  intros Hlen. unfold Py.contains.
  destruct (Py.find sep s) eqn:E; [|done]. apply find_bound in E. lia.
Qed.

(** *** [split] *)

Lemma find_nil_sep sep : sep ≠ [] → Py.find sep [] = None.
Proof.
  intros Hsep. destruct (Py.find sep []) eqn:E; [|done].
  apply find_bound in E. destruct sep; [done | simpl in E; lia].
Qed.

Lemma split_fuel_indep sep n m s :
  sep ≠ [] → length s ≤ n → length s ≤ m →
  Py.split_fuel n sep s = Py.split_fuel m sep s.
Proof.
  intros Hsep. revert m s. induction n as [|n IH]; intros m s Hn Hm.
  - destruct s; [|simpl in Hn; lia].
    destruct m; cbn [Py.split_fuel]; [done|]. by rewrite find_nil_sep.
  - destruct m as [|m].
    + destruct s; [|simpl in Hm; lia].
      cbn [Py.split_fuel]. by rewrite find_nil_sep.
    + cbn [Py.split_fuel]. destruct (Py.find sep s) as [i|] eqn:E; [|done].
      pose proof (find_bound _ _ _ E) as Hb.
      assert (0 < length sep) by (destruct sep; [done | simpl; lia]).
      f_equal. apply IH; rewrite length_drop; lia.
Qed.

Lemma split_cons sep s i :
  sep ≠ [] → Py.find sep s = Some i →
  Py.split sep s = take i s :: Py.split sep (drop (i + length sep) s).
Proof.
  intros Hsep E. unfold Py.split at 1.
  pose proof (find_bound _ _ _ E) as Hb.
  assert (0 < length sep) by (destruct sep; [done | simpl; lia]).
  destruct (length s) as [|n] eqn:Hn; [lia|]. cbn [Py.split_fuel]. rewrite E. f_equal.
  apply split_fuel_indep; [done | rewrite length_drop; lia | done].
Qed.

Lemma split_singleton sep s : Py.find sep s = None → Py.split sep s = [s].
Proof. intros E. unfold Py.split. destruct (length s); cbn [Py.split_fuel]; by rewrite ?E. Qed.

(** The piece before a separator that does not occur earlier. *)
Lemma split_app_sep sep a r :
  sep ≠ [] → Py.find sep (a ++ sep) = Some (length a) →
  Py.split sep (a ++ sep ++ r) = a :: Py.split sep r.
Proof.
  intros Hsep E. rewrite (split_cons _ _ (length a)) by auto using find_app_sep.
  rewrite take_app_length. f_equal. f_equal.
  rewrite app_assoc, drop_app_length'; [done | by rewrite length_app].
Qed.

Lemma split_here sep r : sep ≠ [] → Py.split sep (sep ++ r) = [] :: Py.split sep r.
Proof.
  intros Hsep. apply (split_app_sep sep [] r); [done|].
  apply find_intro; [apply starts_with_refl | simpl; lia].
Qed.

Lemma find_short sep s : length s < length sep → Py.find sep s = None.
Proof.
  intros Hlen. destruct (Py.find sep s) eqn:E; [|done]. apply find_bound in E. lia.
Qed.

Lemma split_fuel_pieces n sep s :
  Forall (fun piece => length piece ≤ length s) (Py.split_fuel n sep s).
Proof.
  revert s. induction n as [|n IH]; intros s; cbn [Py.split_fuel].
  - by constructor.
  - destruct (Py.find sep s) as [i|]; [|by constructor].
    constructor; [rewrite length_take; lia|].
    eapply Forall_impl; [apply IH|]. simpl. intros piece.
    rewrite length_drop. lia.
Qed.

(** No piece is longer than the whole. *)
Lemma split_pieces sep s :
  Forall (fun piece => length piece ≤ length s) (Py.split sep s).
Proof. apply split_fuel_pieces. Qed.

Lemma split_nonempty sep s : ∃ piece rest, Py.split sep s = piece :: rest.
Proof.
  unfold Py.split. destruct (length s); cbn [Py.split_fuel]; [by eexists _, _|].
  destruct (Py.find sep s); by eexists _, _.
Qed.

Lemma split_second sep s :
  sep ≠ [] → Py.contains sep s = true → is_Some (Py.split sep s !! 1).
Proof.
  intros Hsep. unfold Py.contains.
  destruct (Py.find sep s) as [i|] eqn:E; [intros _|done].
  rewrite (split_cons _ _ i) by done.
  destruct (split_nonempty sep (drop (i + length sep) s)) as (piece & rest & ->).
  by exists piece.
Qed.

(** *** Patterns of one element, and patterns that an element blocks *)

Lemma find_None_intro sep s :
  (∀ j, j ≤ length s → Py.starts_with sep (drop j s) = false) → Py.find sep s = None.
Proof.
  intros Hno. destruct (Py.find sep s) as [i|] eqn:E; [|done].
  apply find_Some_elim in E as (Hi & Hlen & _). rewrite Hno in Hi; done.
Qed.

Lemma starts_with_blocked p a c y :
  c ∉ p → length a < length p → Py.starts_with p (a ++ c :: y) = false.
Proof.
  revert a. induction p as [|e p IH]; intros a Hc Hlen; [simpl in Hlen; lia|].
  apply not_elem_of_cons in Hc as [Hce Hcp].
  destruct a as [|z a]; simpl.
  - rewrite bool_decide_eq_false_2; [done | congruence].
  - simpl in Hlen. rewrite IH by (done || lia). apply andb_false_r.
Qed.

(** A pattern does not occur across an element that it does not have. *)
Lemma find_None_app_cons p x c y :
  c ∉ p → Py.find p x = None → Py.find p y = None → Py.find p (x ++ c :: y) = None.
Proof.
  intros Hc Hx Hy. apply find_None_intro. intros j _.
  destruct (decide (j ≤ length x)) as [Hj|Hj].
  - rewrite drop_app_le by done.
    destruct (decide (length p ≤ length (drop j x))).
    + rewrite starts_with_app_l by done. by apply find_None_elim.
    + apply starts_with_blocked; [done | lia].
  - rewrite drop_app_ge by lia.
    destruct (j - length x) as [|k] eqn:Ek; [lia|]. simpl.
    by apply find_None_elim.
Qed.

Lemma find_single_None c s : c ∉ s → Py.find [c] s = None.
Proof.
  induction s as [|a s IH]; intros Hc; cbn [Py.find Py.starts_with]; [done|].
  apply not_elem_of_cons in Hc as [Hca Hcs].
  rewrite bool_decide_eq_false_2 by done. simpl. by rewrite IH.
Qed.

Lemma find_single_first c x r : c ∉ x → Py.find [c] (x ++ c :: r) = Some (length x).
Proof.
  induction x as [|a x IH]; intros Hc; cbn [Py.find Py.starts_with app].
  - by rewrite bool_decide_eq_true_2.
  - apply not_elem_of_cons in Hc as [Hca Hcx].
    rewrite bool_decide_eq_false_2 by done. simpl. by rewrite IH.
Qed.

Lemma split_single_cons c x r :
  c ∉ x → Py.split [c] (x ++ c :: r) = x :: Py.split [c] r.
Proof.
  intros Hc. rewrite (split_cons _ _ (length x)) by auto using find_single_first.
  rewrite take_app_length. f_equal. f_equal.
  rewrite (cons_middle c), app_assoc, drop_app_length'; [done|].
  rewrite length_app. simpl. lia.
Qed.


Lemma replace_absent c new s : c ∉ s → Py.replace [c] new s = s.
Proof.
  intros Hc. unfold Py.replace. by rewrite split_singleton by by apply find_single_None.
Qed.

(** *** [rfind] and [rsplit] *)

Lemma starts_with_short sep s : length s < length sep → Py.starts_with sep s = false.
Proof.
  intros Hlen. destruct (Py.starts_with sep s) eqn:E; [|done].
  apply starts_with_length in E. lia.
Qed.

Lemma rfind_short sep s : length s < length sep → Py.rfind sep s = None.
Proof.
  induction s as [|c s IH]; intros Hlen; cbn [Py.rfind].
  - by rewrite starts_with_short.
  - simpl in Hlen. rewrite IH by lia. by rewrite starts_with_short.
Qed.

Lemma rfind_app_sep sep a : sep ≠ [] → Py.rfind sep (a ++ sep) = Some (length a).
Proof.
  intros Hsep. induction a as [|c a IH].
  - destruct sep as [|e sep]; [done|]. cbn [app Py.rfind].
    rewrite rfind_short by (simpl; lia).
    by rewrite starts_with_refl.
  - cbn [app Py.rfind]. by rewrite IH.
Qed.

Lemma rsplit_max1_app_sep sep a :
  sep ≠ [] → Py.rsplit_max1 sep (a ++ sep) = [a; []].
Proof.
  intros Hsep. unfold Py.rsplit_max1. rewrite rfind_app_sep by done.
  rewrite take_app_length, drop_ge; [done | rewrite length_app; lia].
Qed.

Lemma split_max1_app_sep sep a r :
  Py.find sep (a ++ sep) = Some (length a) →
  Py.split_max1 sep (a ++ sep ++ r) = [a; r].
Proof.
  intros E. unfold Py.split_max1. rewrite (find_app_sep _ _ _ E).
  rewrite take_app_length. do 2 f_equal.
  rewrite app_assoc, drop_app_length'; [done | by rewrite length_app].
Qed.

(** *** [strip] *)

Lemma drop_while_all (f : A → bool) pre s :
  Forall (fun a => f a = true) pre → Py.drop_while f (pre ++ s) = Py.drop_while f s.
Proof. induction 1 as [|a pre Ha _ IH]; simpl; [done|]. by rewrite Ha. Qed.

Lemma drop_while_stop (f : A → bool) s :
  (∀ c, head s = Some c → f c = false) → Py.drop_while f s = s.
Proof. destruct s as [|a s]; simpl; [done|]. intros Hh. by rewrite Hh. Qed.

(** Stripping removes the padding and nothing else. *)
Lemma strip_by_pad (f : A → bool) pre s post :
  Forall (fun a => f a = true) pre → Forall (fun a => f a = true) post →
  (∀ c, head s = Some c → f c = false) → (∀ c, last s = Some c → f c = false) →
  Py.strip_by f (pre ++ s ++ post) = s.
Proof.
  intros Hpre Hpost Hhead Hlast. unfold Py.strip_by.
  rewrite drop_while_all by done.
  destruct s as [|a s].
  - simpl. rewrite <- (app_nil_r post), drop_while_all by done. done.
  - rewrite (drop_while_stop f ((a :: s) ++ post))
      by (simpl; intros ? [= <-]; by apply Hhead).
    rewrite rev_app_distr, drop_while_all by by apply Forall_rev.
    rewrite (drop_while_stop f (rev (a :: s))); [by rewrite rev_involutive|].
    intros y Hy. apply Hlast. rewrite <- Hy, rev_alt.
    symmetry. apply (head_reverse (a :: s)).
Qed.

Lemma strip_by_id (f : A → bool) s :
  (∀ c, head s = Some c → f c = false) → (∀ c, last s = Some c → f c = false) →
  Py.strip_by f s = s.
Proof.
  intros Hh Hl. rewrite <- (strip_by_pad f [] s []) at 2 by done.
  by rewrite app_nil_r.
Qed.

End sequences.
End PyFacts.

(** ** Facts about the UTF-8 codec *)

Module Utf8Facts.

Lemma to_N_byte_of_N n : (n < 256)%N → Byte.to_N (byte_of_N n) = n.
Proof.
  intros Hn. unfold byte_of_N. destruct (Byte.of_N n) as [x|] eqn:E; simpl.
  - by apply Byte.to_of_N.
  - apply Byte.of_N_None_iff in E. lia.
Qed.

(** Decides the comparisons that linear arithmetic decides. *)
Ltac bool_N :=
  repeat match goal with
  | |- context [(?x <? ?y)%N] =>
      first [ rewrite (proj2 (N.ltb_lt x y)) by lia
            | rewrite (proj2 (N.ltb_ge x y)) by lia ]
  | |- context [(?x <=? ?y)%N] =>
      first [ rewrite (proj2 (N.leb_le x y)) by lia
            | rewrite (proj2 (N.leb_gt x y)) by lia ]
  | |- context [(?x =? ?y)%N] =>
      first [ rewrite (proj2 (N.eqb_eq x y)) by lia
            | rewrite (proj2 (N.eqb_neq x y)) by lia ]
  end.

Lemma low_six_bits c : (c = 64 * (c / 64) + c mod 64 ∧ c mod 64 < 64)%N.
Proof. split; [apply N.div_mod; lia | apply N.mod_lt; lia]. Qed.

(** One step of the decoder. *)
Lemma decode_ignore_unfold b1 r1 :
  Utf8.decode_ignore (b1 :: r1) =
  let n1 := Byte.to_N b1 in
  if (n1 <? 0x80)%N then n1 :: Utf8.decode_ignore r1 else
  match r1 with
  | [] => Utf8.decode_ignore r1
  | b2 :: r2 =>
      let n2 := Byte.to_N b2 in
      if Utf8.ok2 n1 n2 then Utf8.cp2 n1 n2 :: Utf8.decode_ignore r2 else
      match r2 with
      | [] => Utf8.decode_ignore r1
      | b3 :: r3 =>
          let n3 := Byte.to_N b3 in
          if Utf8.ok3 n1 n2 n3 then Utf8.cp3 n1 n2 n3 :: Utf8.decode_ignore r3 else
          match r3 with
          | [] => Utf8.decode_ignore r1
          | b4 :: r4 =>
              let n4 := Byte.to_N b4 in
              if Utf8.ok4 n1 n2 n3 n4 then Utf8.cp4 n1 n2 n3 n4 :: Utf8.decode_ignore r4
              else Utf8.decode_ignore r1
          end
      end
  end.
Proof. reflexivity. Qed.

(** Decoding reads back an encoded code point, whatever follows it. *)
Lemma decode_ignore_encode_cp c e rest :
  Utf8.encode_cp c = Some e →
  Utf8.decode_ignore (e ++ rest) = c :: Utf8.decode_ignore rest.
Proof.
  unfold Utf8.encode_cp.
  destruct (N.ltb_spec c 0x80); [|destruct (N.ltb_spec c 0x800);
    [|destruct (N.ltb_spec c 0x10000); [|destruct (N.ltb_spec c 0x110000)]]].
  - intros [= <-]. cbn [app]. rewrite decode_ignore_unfold. cbv zeta.
    rewrite to_N_byte_of_N by lia. by bool_N.
  - intros [= <-].
    destruct (low_six_bits c) as [Hc Hd].
    set (q := (c / 64)%N) in *. set (d := (c mod 64)%N) in *. clearbody q d.
    cbn [app]. rewrite decode_ignore_unfold. cbv zeta.
    rewrite !to_N_byte_of_N by lia.
    unfold Utf8.ok2, Utf8.is_cont, Utf8.cp2. bool_N. cbn [andb]. f_equal. lia.
  - destruct (_ && _) eqn:Es; [done|]. intros [= <-].
    destruct (low_six_bits c) as [Hc Hd]. destruct (low_six_bits (c / 64)) as [Hq Hb].
    assert (c / 4096 = c / 64 / 64)%N as -> by (rewrite N.Div0.div_div; done).
    set (q := (c / 64)%N) in *. set (d := (c mod 64)%N) in *.
    set (a := (q / 64)%N) in *. set (b := (q mod 64)%N) in *. clearbody a b q d.
    apply andb_false_iff in Es. rewrite N.leb_gt, N.leb_gt in Es.
    cbn [app]. rewrite decode_ignore_unfold. cbv zeta.
    rewrite !to_N_byte_of_N by lia.
    unfold Utf8.ok2, Utf8.ok3, Utf8.is_cont, Utf8.cp3.
    destruct (decide (a = 0%N)) as [Ha|Ha];
      [|destruct (decide (a = 13%N)) as [Ha'|Ha']];
      bool_N; cbn [andb negb]; f_equal; lia.
  - intros [= <-].
    destruct (low_six_bits c) as [Hc Hd]. destruct (low_six_bits (c / 64)) as [Hq Hb].
    destruct (low_six_bits (c / 64 / 64)) as [Hq' Hb'].
    assert (c / 4096 = c / 64 / 64)%N as -> by (rewrite N.Div0.div_div; done).
    assert (c / 262144 = c / 64 / 64 / 64)%N as -> by (rewrite !N.Div0.div_div; done).
    set (q := (c / 64)%N) in *. set (d := (c mod 64)%N) in *.
    set (q' := (q / 64)%N) in *. set (b := (q mod 64)%N) in *.
    set (a := (q' / 64)%N) in *. set (b' := (q' mod 64)%N) in *.
    clearbody a b b' q q' d.
    cbn [app]. rewrite decode_ignore_unfold. cbv zeta.
    rewrite !to_N_byte_of_N by lia.
    unfold Utf8.ok2, Utf8.ok3, Utf8.ok4, Utf8.is_cont, Utf8.cp4.
    destruct (decide (a = 0%N)) as [Ha|Ha];
      [|destruct (decide (a = 4%N)) as [Ha'|Ha']];
      bool_N; cbn [andb negb]; f_equal; lia.
  - done.
Qed.

Lemma decode_ignore_encode s bs rest :
  Utf8.encode s = Some bs →
  Utf8.decode_ignore (bs ++ rest) = s ++ Utf8.decode_ignore rest.
Proof.
  revert bs. induction s as [|c s IH]; intros bs; cbn [Utf8.encode].
  - by intros [= <-].
  - destruct (Utf8.encode_cp c) as [e|] eqn:Ec; [|done].
    destruct (Utf8.encode s) as [tail|] eqn:Es; [|done]. intros [= <-].
    rewrite <- app_assoc, (decode_ignore_encode_cp c e) by done.
    by rewrite (IH tail).
Qed.

(** ASCII bytes decode to themselves. *)
Lemma decode_ignore_ascii bs rest :
  Forall (fun x => (Byte.to_N x < 0x80)%N) bs →
  Utf8.decode_ignore (bs ++ rest) = (Byte.to_N <$> bs) ++ Utf8.decode_ignore rest.
Proof.
  induction 1 as [|x bs Hx _ IH]; [done|].
  cbn [app fmap list_fmap]. rewrite decode_ignore_unfold. cbv zeta.
  rewrite (proj2 (N.ltb_lt _ _)) by done. by rewrite IH.
Qed.

Lemma decode_ignore_ascii_bytes bs rest :
  forallb (fun x => (Byte.to_N x <? 0x80)%N) bs = true →
  Utf8.decode_ignore (bs ++ rest) = (Byte.to_N <$> bs) ++ Utf8.decode_ignore rest.
Proof.
  intros Hbs. apply decode_ignore_ascii, Forall_forall.
  intros x Hx. rewrite forallb_forall in Hbs. apply N.ltb_lt, Hbs.
  by apply list_elem_of_In.
Qed.

End Utf8Facts.

Example decode_ignore_example :
  Utf8.decode_ignore [xc3; x9f; xff; xe2; x82; xac; x80; xf0; x9f; x98; x80; xe2; x82]
  = [0xDF; 0x20AC; 0x1F600]%N.
Proof. reflexivity. Qed.

Example encode_example :
  Utf8.encode [0xDF; 0x20AC; 0x1F600]%N
  = Some [xc3; x9f; xe2; x82; xac; xf0; x9f; x98; x80].
Proof. reflexivity. Qed.

(** ** Facts about the upload decoder *)

Module DecoderFacts.
Import PyFacts Utf8Facts.

#[local] Arguments b : simpl never.
#[local] Arguments u : simpl never.
#[local] Arguments scan_part : simpl never.
#[local] Arguments filename_of_line : simpl never.
#[local] Arguments encode_part : simpl never.
#[local] Arguments Py.find {A _} sep s : simpl never.
#[local] Arguments Py.contains {A _} sep s : simpl never.
#[local] Arguments Py.split {A _} sep s : simpl never.

Lemma scan_parts_app st l1 l2 :
  scan_parts st (l1 ++ l2) = st' ← scan_parts st l1; scan_parts st' l2.
Proof.
  revert st. induction l1 as [|p l1 IH]; intros st; simpl; [done|].
  destruct (scan_part st p) as [st'|e]; simpl; [apply IH | done].
Qed.

(** A piece too short to hold [Content-Disposition] is passed over. *)
Lemma scan_part_short st part : length part < 19 → scan_part st part = Ok st.
Proof.
  intros Hlen. unfold scan_part.
  by rewrite (contains_false_short (b "Content-Disposition")) by done.
Qed.

Lemma scan_parts_short st parts :
  Forall (fun part => length part < 19) parts → scan_parts st parts = Ok st.
Proof.
  induction 1 as [|part parts Hp _ IH]; simpl; [done|].
  by rewrite scan_part_short.
Qed.

Lemma delimiter_nonempty boundary : delimiter boundary ≠ [].
Proof. done. Qed.

Lemma split_encode_parts boundary parts :
  Forall (delimiter_free boundary) parts →
  Py.split (delimiter boundary) (encode_parts boundary parts)
  = (encode_part <$> parts) ++ Py.split (delimiter boundary) (b "--" ++ CRLF).
Proof.
  induction 1 as [|p parts Hp _ IH]; [done|].
  cbn [encode_parts fmap list_fmap app].
  rewrite split_app_sep by (done || apply delimiter_nonempty). by rewrite IH.
Qed.

(** The pieces of a well-formed body: the empty preamble, the parts, and
    what the closing marker leaves. *)
Lemma split_multipart_body boundary parts :
  Forall (delimiter_free boundary) parts →
  ∃ closing,
    Py.split (delimiter boundary) (multipart_body boundary parts)
    = [] :: (encode_part <$> parts) ++ closing
    ∧ Forall (fun part => length part < 19) closing.
Proof.
  intros Hfree. exists (Py.split (delimiter boundary) (b "--" ++ CRLF)). split.
  - unfold multipart_body.
    rewrite split_here by apply delimiter_nonempty.
    by rewrite split_encode_parts.
  - eapply Forall_impl; [apply split_pieces|]. simpl. lia.
Qed.

Lemma filename_of_lines_total lines filename :
  ∃ r, filename_of_lines lines filename = Ok r.
Proof.
  induction lines as [|line lines IH]; simpl; [by eexists|].
  destruct (Py.contains (u "filename=") line) eqn:E; [|done].
  unfold filename_of_line.
  destruct (split_second (u "filename=") line) as [part ->]; [done | done |].
  by eexists.
Qed.

(** A part that has a blank line is scanned without an exception. *)
Lemma scan_part_total st part :
  Py.contains (CRLF ++ CRLF) part = true → ∃ st', scan_part st part = Ok st'.
Proof.
  intros Hblank. unfold scan_part.
  destruct (_ && _); [|by eexists].
  unfold Py.split_max1. unfold Py.contains in Hblank.
  destruct (Py.find (CRLF ++ CRLF) part) as [i|]; [|done].
  destruct (filename_of_lines_total
              (Py.split [LF] (Utf8.decode_ignore (take i part))) st.2) as [r ->].
  simpl. unfold Py.rsplit_max1. destruct (Py.rfind _ _); by eexists.
Qed.

Lemma scan_parts_total st parts :
  ∃ st', scan_parts st (encode_part <$> parts) = Ok st'.
Proof.
  revert st. induction parts as [|p parts IH]; intros st;
    cbn [fmap list_fmap scan_parts]; [by eexists|].
  destruct (scan_part_total st (encode_part p)) as [st' ->].
  - apply contains_true.
  - apply IH.
Qed.

Ltac in_list := repeat first [apply list_elem_of_here | apply list_elem_of_further].

Lemma not_elem_of_forallb (c : N) (l : str) :
  forallb (fun x => negb (x =? c)%N) l = true → c ∉ l.
Proof.
  rewrite forallb_forall. intros Hl Hc%list_elem_of_In.
  specialize (Hl c Hc). by rewrite N.eqb_refl in Hl.
Qed.

Section plain.
Variable filename : str.
Hypothesis Hplain : plain_filename filename = true.

Lemma plain_parts :
  filename ≠ []
  ∧ Forall (fun c => c ∉ [DQUOTE; SQUOTE; CR; LF]) filename
  ∧ (∀ c, head filename = Some c → isspace c = false)
  ∧ (∀ c, last filename = Some c → isspace c = false)
  ∧ Py.find (u "filename=") filename = None.
Proof using Hplain.
  unfold plain_filename in Hplain.
  repeat (apply andb_true_iff in Hplain as [Hplain ?]).
  split_and!.
  - by destruct filename.
  - apply Forall_forall. intros c Hc%list_elem_of_In.
    match goal with H : forallb _ _ = true |- _ =>
      rewrite forallb_forall in H; specialize (H c Hc) end.
    unfold Py.one_of in *. by case_bool_decide.
  - intros c Hc. rewrite Hc in *. simpl in *. by apply negb_true_iff.
  - intros c Hc. rewrite Hc in *. simpl in *. by apply negb_true_iff.
  - unfold Py.contains in *. by destruct (Py.find _ _).
Qed.

Lemma plain_free (c : N) : c ∈ [DQUOTE; SQUOTE; CR; LF] → c ∉ filename.
Proof using Hplain.
  destruct plain_parts as (_ & Hall & _). rewrite Forall_forall in Hall.
  intros Hc Hin. by apply (Hall c Hin).
Qed.

Lemma clean_filename_plain : clean_filename filename = filename.
Proof using Hplain.
  unfold clean_filename.
  rewrite (replace_absent DQUOTE), (replace_absent SQUOTE),
    (replace_absent LF), (replace_absent CR);
    [done | | | |]; apply plain_free; in_list.
Qed.

(** The text after [filename=] on the disposition line, with what may
    follow the closing quote: nothing or a carriage return. *)
Lemma filename_of_quoted (pre t : str) :
  Py.find (u "filename=") (pre ++ u "filename=") = Some (length pre) →
  t = [] ∨ t = [CR] →
  filename_of_line (pre ++ u "filename=" ++ DQUOTE :: filename ++ DQUOTE :: t)
  = Ok filename.
Proof using Hplain.
  intros Hpre Ht. destruct plain_parts as (Hne & Hall & Hhead & Hlast & Hfind).
  unfold filename_of_line.
  rewrite split_app_sep by done.
  rewrite (split_singleton _ (DQUOTE :: _)); cycle 1.
  { apply (find_None_app_cons _ []);
      [by apply not_elem_of_forallb | reflexivity |].
    apply find_None_app_cons; [by apply not_elem_of_forallb | done |].
    apply find_short. destruct Ht as [-> | ->]; simpl; lia. }
  change ((?x :: ?y :: ?l) !! 1) with (Some y). cbv beta iota. f_equal.
  assert (DQUOTE :: filename ++ DQUOTE :: t
          = [] ++ (DQUOTE :: filename ++ [DQUOTE]) ++ t) as ->
    by (simpl; by rewrite <- app_assoc).
  unfold strip_ws at 2.
  rewrite (strip_by_pad isspace [] (DQUOTE :: filename ++ [DQUOTE]) t); cycle 1.
  { done. }
  { destruct Ht as [-> | ->]; by repeat constructor. }
  { by intros c [= <-]. }
  { intros c. change (DQUOTE :: filename ++ [DQUOTE])
      with ((DQUOTE :: filename) ++ [DQUOTE]).
    rewrite last_snoc. by intros [= <-]. }
  assert (∀ q c, q ∈ [DQUOTE; SQUOTE; CR; LF] → c ∈ filename →
                 Py.one_of [q] c = false) as Hq.
  { intros q c Hq Hc. unfold Py.one_of. apply bool_decide_eq_false.
    intros ->%list_elem_of_singleton. by apply (plain_free q). }
  unfold Py.strip.
  change (DQUOTE :: filename ++ [DQUOTE]) with ([DQUOTE] ++ filename ++ [DQUOTE]).
  rewrite (strip_by_pad _ [DQUOTE] filename [DQUOTE]); cycle 1.
  { by repeat constructor. }
  { by repeat constructor. }
  { intros c Hc%head_Some_elem_of. apply (Hq DQUOTE); [in_list | done]. }
  { intros c Hc%last_Some_elem_of. apply (Hq DQUOTE); [in_list | done]. }
  rewrite strip_by_id; cycle 1.
  { intros c Hc%head_Some_elem_of. apply (Hq SQUOTE); [in_list | done]. }
  { intros c Hc%last_Some_elem_of. apply (Hq SQUOTE); [in_list | done]. }
  by apply strip_by_id.
Qed.

End plain.

Lemma lead_then_filename :
  Py.find (u "filename=") (disposition_lead ++ u "filename=")
  = Some (length disposition_lead).
Proof. by vm_compute. Qed.

(** The lines of a decoded header block, up to the disposition line. *)
Lemma header_lines p filename :
  Utf8.encode filename = Some (part_filename p) → LF ∉ filename →
  ∃ t more,
    (t = [] ∨ t = [CR])
    ∧ Py.split [LF] (Utf8.decode_ignore (header_block p))
      = [CR] :: (disposition_lead ++ u "filename=" ++ DQUOTE :: filename ++ DQUOTE :: t)
             :: more.
Proof.
  intros Henc Hlf.
  set (lead := CRLF ++ b "Content-Disposition" ++ b ": form-data; name=" ++ [DQ]
               ++ b "file" ++ [DQ] ++ b "; " ++ b "filename=" ++ [DQ]).
  set (tail := concat ((fun h => CRLF ++ h) <$> part_headers p)).
  assert (header_block p = lead ++ part_filename p ++ [DQ] ++ tail) as ->.
  { unfold header_block, disposition_line, lead. by rewrite <- !app_assoc. }
  rewrite decode_ignore_ascii_bytes by by vm_compute.
  rewrite (decode_ignore_encode filename) by done.
  rewrite (decode_ignore_ascii_bytes [DQ]) by by vm_compute.
  assert (∀ d, (Byte.to_N <$> lead) ++ d
               = [CR] ++ LF :: (disposition_lead ++ u "filename=" ++ [DQUOTE]) ++ d) as ->
    by done.
  change (Byte.to_N <$> [DQ]) with [DQUOTE].
  rewrite split_single_cons by by apply not_elem_of_forallb.
  set (line := disposition_lead ++ u "filename=" ++ DQUOTE :: filename ++ [DQUOTE]).
  assert (LF ∉ line) as Hline.
  { unfold line.
    apply not_elem_of_app; split; [by apply not_elem_of_forallb|].
    apply not_elem_of_app; split; [by apply not_elem_of_forallb|].
    apply not_elem_of_cons; split; [by vm_compute|].
    apply not_elem_of_app; split; [done | by apply not_elem_of_forallb]. }
  assert (∀ d, (disposition_lead ++ u "filename=" ++ [DQUOTE])
               ++ filename ++ [DQUOTE] ++ d = line ++ d) as Hshape.
  { intros d. unfold line. rewrite <- !app_assoc. cbn [app].
    by rewrite <- !app_assoc. }
  rewrite Hshape.
  destruct (part_headers p) as [|h hs] eqn:Hh; subst tail; cbn [fmap list_fmap concat].
  - exists [], []. split; [by left|]. cbn [Utf8.decode_ignore].
    by rewrite app_nil_r, split_singleton by by apply find_single_None.
  - rewrite <- app_assoc.
    rewrite (decode_ignore_ascii_bytes CRLF) by by vm_compute.
    change (Byte.to_N <$> CRLF) with [CR; LF].
    exists [CR], (Py.split [LF] (Utf8.decode_ignore (h ++ concat ((fun h => CRLF ++ h) <$> hs)))).
    split; [by right|].
    assert (∀ d, line ++ [CR; LF] ++ d = (line ++ [CR]) ++ LF :: d) as ->
      by (intros d; by rewrite <- app_assoc).
    rewrite split_single_cons.
    + unfold line. rewrite <- !app_assoc. cbn [app]. by rewrite <- !app_assoc.
    + rewrite not_elem_of_app. split; [done | by apply not_elem_of_forallb].
Qed.

(** The last file part of a body decides both variables. *)
Lemma scan_part_plain st p filename :
  no_blank_line p →
  Utf8.encode filename = Some (part_filename p) →
  plain_filename filename = true →
  scan_part st (encode_part p) = Ok (Some (part_payload p), Some filename).
Proof.
  intros Hblank Henc Hplain. unfold scan_part.
  set (after_name := [DQ] ++ part_filename p ++ [DQ]
                     ++ concat ((fun h => CRLF ++ h) <$> part_headers p)
                     ++ (CRLF ++ CRLF) ++ part_payload p ++ CRLF).
  assert (Py.contains (b "Content-Disposition") (encode_part p) = true) as ->.
  { apply (contains_decompose _ _ CRLF
             (b ": form-data; name=" ++ [DQ] ++ b "file" ++ [DQ] ++ b "; "
              ++ b "filename=" ++ after_name)).
    unfold encode_part, header_block, disposition_line, after_name.
    by rewrite <- !app_assoc. }
  assert (Py.contains (b "filename=") (encode_part p) = true) as ->.
  { apply (contains_decompose _ _
             (CRLF ++ b "Content-Disposition" ++ b ": form-data; name=" ++ [DQ]
              ++ b "file" ++ [DQ] ++ b "; ") after_name).
    unfold encode_part, header_block, disposition_line, after_name.
    by rewrite <- !app_assoc. }
  clear after_name.
  cbn [andb]. unfold encode_part.
  rewrite split_max1_app_sep by done.
  destruct (header_lines p filename) as (t & more & Ht & ->);
    [done | apply (plain_free filename Hplain); in_list |].
  cbn [filename_of_lines].
  rewrite (contains_false_short (u "filename=") [CR]) by (simpl; lia).
  rewrite contains_true.
  rewrite (filename_of_quoted filename Hplain) by (apply lead_then_filename || done).
  rewrite rsplit_max1_app_sep by done. done.
Qed.

(** A body whose last part is a file with a plain filename and a payload
    that is not empty decodes to that file, whatever file parts come
    before it. *)
Lemma decode_upload_last boundary earlier p filename :
  Forall (delimiter_free boundary) (earlier ++ [p]) →
  no_blank_line p →
  Utf8.encode filename = Some (part_filename p) →
  plain_filename filename = true →
  part_payload p ≠ [] →
  decode_upload boundary (multipart_body boundary (earlier ++ [p]))
  = Ok (ImageFile filename (part_payload p)).
Proof.
  intros Hfree Hblank Henc Hplain Hpayload.
  unfold decode_upload, parse_multipart.
  change (b "--" ++ boundary) with (delimiter boundary).
  destruct (split_multipart_body boundary _ Hfree) as (closing & -> & Hclosing).
  cbn [scan_parts]. rewrite scan_part_short by (simpl; lia). cbn [mbind result_bind].
  rewrite fmap_app, <- app_assoc, scan_parts_app.
  destruct (scan_parts_total (None, None) earlier) as [st ->].
  cbn [mbind result_bind fmap list_fmap app scan_parts].
  rewrite (scan_part_plain st p filename) by done.
  cbn [mbind result_bind]. rewrite scan_parts_short by done.
  destruct (plain_parts filename Hplain) as (Hne & _).
  cbn [mbind result_bind mret result_ret].
  assert (truthy (part_payload p) = true) as -> by by destruct (part_payload p).
  assert (truthy filename = true) as -> by by destruct filename.
  cbn [andb]. by rewrite clean_filename_plain.
Qed.

End DecoderFacts.

(** * The claims of the specification *)

(** ** The metadata extractor (C1) *)

Module ExtractFacts.

(** Two keys written as different literals are different. *)
Ltac key_neq := let E := fresh in intros E; vm_compute in E; discriminate E.

Lemma named_tags_nil `{PyRuntime} table f : named_tags table f [] = ∅.
Proof. done. Qed.

End ExtractFacts.

(** C1: when the GPS directory of an image gives latitude and longitude as
    triplets (d, m, s) of numbers, the extractor's [GPSLatitude] and
    [GPSLongitude] are [d + m/60 + s/3600] in binary64 arithmetic, negated
    exactly when the latitude reference is the string S, respectively the
    longitude reference is the string W, and unchanged for every other
    reference (N, E, anything else) and for an absent one. *)
Theorem gps_decimal_degrees `{PyRuntime} (w : World) (image_path : str)
    (image : raw_image) (d m s d' m' s' : pyval) (fd fm fs fd' fm' fs' : float) :
  let gps_data := named_tags (GPSTAGS w) id (gps_items image) in
  let lat := (fd + fm / 60 + fs / 3600)%float in
  let lon := (fd' + fm' / 60 + fs' / 3600)%float in
  open_image w image_path = Ok image →
  gps_data !! KStr (u "GPSLatitude") = Some (VTuple [d; m; s]) →
  gps_data !! KStr (u "GPSLongitude") = Some (VTuple [d'; m'; s']) →
  py_float d = Ok fd → py_float m = Ok fm → py_float s = Ok fs →
  py_float d' = Ok fd' → py_float m' = Ok fm' → py_float s' = Ok fs' →
  ∃ exif_data signed_lat signed_lon,
    outcome (extract_exif_data w image_path) = Ok exif_data
    ∧ exif_data !! KStr (u "GPSLatitude") = Some (VFloat signed_lat)
    ∧ exif_data !! KStr (u "GPSLongitude") = Some (VFloat signed_lon)
    ∧ (gps_data !! KStr (u "GPSLatitudeRef") = Some (VStr (u "S")) → signed_lat = (- lat)%float)
    ∧ (gps_data !! KStr (u "GPSLatitudeRef") ≠ Some (VStr (u "S")) → signed_lat = lat)
    ∧ (gps_data !! KStr (u "GPSLongitudeRef") = Some (VStr (u "W")) → signed_lon = (- lon)%float)
    ∧ (gps_data !! KStr (u "GPSLongitudeRef") ≠ Some (VStr (u "W")) → signed_lon = lon).
Proof.
  intros gps_data lat lon Hopen Hlat Hlon Hd Hm Hs Hd' Hm' Hs'.
  unfold extract_exif_data. cbn [mbind IO_bind emit outcome trace mret IO_ret].
  rewrite Hopen. cbn [mbind result_bind try_except].
  destruct (gps_items image) as [|item items] eqn:Hitems.
  { subst gps_data. by rewrite ExtractFacts.named_tags_nil, lookup_empty in Hlat. }
  fold gps_data.
  unfold add_gps_data.
  rewrite Hlat, Hlon.
  rewrite !bool_decide_eq_true_2 by by eexists.
  cbn [andb mbind result_bind py_item]. rewrite Hlat, Hlon.
  unfold convert_to_degrees. cbn [py_unpack3 mbind result_bind].
  rewrite Hd, Hm, Hs, Hd', Hm', Hs'.
  cbn [mbind result_bind mret result_ret py_get try_except]. fold lat lon.
  set (ref_lat := default VNone (gps_data !! KStr (u "GPSLatitudeRef"))).
  set (ref_lon := default VNone (gps_data !! KStr (u "GPSLongitudeRef"))).
  eexists _, (if py_eq_str ref_lat "S" then (- lat)%float else lat),
             (if py_eq_str ref_lon "W" then (- lon)%float else lon).
  split; [reflexivity|].
  assert (∀ (k : string) (v : option pyval),
            (v = Some (VStr (u k)) → py_eq_str (default VNone v) k = true)
            ∧ (v ≠ Some (VStr (u k)) → py_eq_str (default VNone v) k = false)) as Href.
  { intros k [[]|]; simpl; split; try done.
    - intros [= ->]. by apply bool_decide_eq_true_2.
    - intros Hne. apply bool_decide_eq_false_2. by intros ->. }
  split_and!.
  - rewrite lookup_insert_ne by ExtractFacts.key_neq.
    rewrite lookup_insert_ne by ExtractFacts.key_neq.
    by rewrite lookup_insert_eq.
  - rewrite lookup_insert_ne by ExtractFacts.key_neq.
    by rewrite lookup_insert_eq.
  - intros Hr. subst ref_lat. by rewrite (proj1 (Href "S" _) Hr).
  - intros Hr. subst ref_lat. by rewrite (proj2 (Href "S" _) Hr).
  - intros Hr. subst ref_lon. by rewrite (proj1 (Href "W" _) Hr).
  - intros Hr. subst ref_lon. by rewrite (proj2 (Href "W" _) Hr).
Qed.

Lemma gps_decimal_degrees_witness :
  ∃ exif_data,
    outcome (extract_exif_data (H := example_runtime (fun _ => Ok VNone))
               (offline_world example_error example_gps_image) (u "uploads/photo.jpg"))
    = Ok exif_data
    ∧ exif_data !! KStr (u "GPSLatitude")
      = Some (VFloat (- (48 + 51 / 60 + 29.5 / 3600))%float)
    ∧ exif_data !! KStr (u "GPSLongitude")
      = Some (VFloat (2 + 17 / 60 + 40 / 3600)%float).
Proof.
  destruct (gps_decimal_degrees (H := example_runtime (fun _ => Ok VNone))
              (offline_world example_error example_gps_image) (u "uploads/photo.jpg")
              example_gps_image
              (VFloat 48) (VFloat 51) (VFloat 29.5) (VFloat 2) (VFloat 17) (VFloat 40)
              48 51 29.5 2 17 40)
    as (exif_data & signed_lat & signed_lon & Hout & Hlat & Hlon & HS & _ & _ & HE);
    try reflexivity.
  exists exif_data. rewrite Hout, Hlat, Hlon, HS, HE; [done | by vm_compute | by vm_compute].
Defined.

(** The example of the specification: (48, 51, 29.5) is 48.858194444444443,
    the binary64 number 0x1.86dd950c83fb7p+5. *)
Example gps_decimal_degrees_example `{PyRuntime} :
  convert_to_degrees (VTuple [VInt 48; VInt 51; VFloat 29.5])
  = Ok 0x1.86dd950c83fb7p+5%float.
Proof. reflexivity. Qed.


(** ** The upload decoder (C3, C4) *)

(** C3, as the code has it: when a body holds several file parts, the
    decoder returns the filename and the payload of the LAST of them (the
    loop over the parts has no exit, so every file part overwrites what the
    one before it left).  For every body made of file parts in which the
    delimiter occurs only between parts, whose last part has a header block
    with no blank line, a plain filename and a payload that is not empty,
    the decoder returns that last filename and that last payload. *)
Theorem upload_decoder_keeps_last_file
    (boundary : bytes) (earlier : list file_part) (p : file_part) (filename : str) :
  Forall (delimiter_free boundary) (earlier ++ [p]) →
  no_blank_line p →
  Utf8.encode filename = Some (part_filename p) →
  plain_filename filename = true →
  part_payload p ≠ [] →
  decode_upload boundary (multipart_body boundary (earlier ++ [p]))
  = Ok (ImageFile filename (part_payload p)).
Proof. apply DecoderFacts.decode_upload_last. Qed.

Lemma upload_decoder_keeps_last_file_witness :
  decode_upload example_boundary
    (multipart_body example_boundary ([example_part_a] ++ [example_part_b]))
  = Ok (ImageFile (u "b.jpg") (b "BBB")).
Proof.
  apply (upload_decoder_keeps_last_file example_boundary [example_part_a]
           example_part_b (u "b.jpg")).
  - repeat constructor; by vm_compute.
  - by vm_compute.
  - reflexivity.
  - reflexivity.
  - discriminate.
Defined.

(** C3 as stated fails: of two file parts the decoder returns the second,
    not the first. *)
Lemma upload_decoder_first_file_counterexample :
  decode_upload example_boundary
    (multipart_body example_boundary [example_part_a; example_part_b])
  = Ok (ImageFile (u "b.jpg") (b "BBB"))
  ∧ Utf8.decode_ignore (part_filename example_part_a) = u "a.jpg"
  ∧ part_payload example_part_a = b "AAA"
  ∧ u "a.jpg" ≠ u "b.jpg".
Proof. split_and!; [by vm_compute | by vm_compute | done | by vm_compute]. Qed.

(** C4, amended: for every filename that is plain (not empty, free of
    quotes and line breaks, no whitespace at either end, no [filename=]
    inside) and has a UTF-8 form, and every payload that is NOT EMPTY,
    encoding them as the one file part of a multipart body (quoted
    [filename=] attribute on the [Content-Disposition] line, any further
    header lines, a blank line, the payload, a line break, the closing
    delimiter) in which the delimiter occurs nowhere else and the header
    block has no blank line, and decoding that body, gives back the
    filename and exactly the payload. *)
Theorem upload_decoder_roundtrip
    (boundary : bytes) (filename : str) (encoded : bytes) (headers : list bytes)
    (payload : bytes) :
  Utf8.encode filename = Some encoded →
  plain_filename filename = true →
  payload ≠ [] →
  no_blank_line (FilePart encoded headers payload) →
  delimiter_free boundary (FilePart encoded headers payload) →
  decode_upload boundary (multipart_body boundary [FilePart encoded headers payload])
  = Ok (ImageFile filename payload).
Proof.
  intros Henc Hplain Hpayload Hblank Hfree.
  apply (DecoderFacts.decode_upload_last boundary [] (FilePart encoded headers payload));
    try done.
  by repeat constructor.
Qed.

Lemma upload_decoder_roundtrip_witness :
  decode_upload example_boundary
    (multipart_body example_boundary
       [FilePart (b "a.jpg") [b "Content-Type: image/jpeg"] (b "AAA")])
  = Ok (ImageFile (u "a.jpg") (b "AAA")).
Proof.
  apply (upload_decoder_roundtrip example_boundary (u "a.jpg")).
  - reflexivity.
  - reflexivity.
  - discriminate.
  - by vm_compute.
  - by vm_compute.
Defined.

(** C4 as stated fails for the empty payload: the body is well formed, and
    the decoder answers that no image file was provided. *)
Lemma upload_decoder_roundtrip_counterexample :
  Utf8.encode (u "a.jpg") = Some (part_filename example_part_empty)
  ∧ part_payload example_part_empty = []
  ∧ decode_upload example_boundary (multipart_body example_boundary [example_part_empty])
    = Ok NoImageFile.
Proof. split_and!; by vm_compute. Qed.

(** ** The upload response without GPS data (C5) *)

Module HandlerFacts.

Ltac str_neq := let E := fresh in intros E; vm_compute in E; discriminate E.

Lemma outcome_bind {A B} (m : IO A) (f : A → IO B) a :
  outcome m = Ok a → m ≫= f = mkIO (trace m ++ trace (f a)) (outcome (f a)).
Proof. intros Hm. unfold mbind, IO_bind. by rewrite Hm. Qed.

Lemma catch_ok {A} (m : IO A) h a : outcome m = Ok a → catch m h = m.
Proof. intros Hm. unfold catch. by rewrite Hm. Qed.

End HandlerFacts.

(** C5: when the EXIF record extracted from an upload lacks the top-level
    field [GPSLatitude] or [GPSLongitude], the response is the success
    document with [location], [pois] and [camera_direction] null, and the
    run does nothing but write the file and open the image: no request goes
    to the reverse geocoder, to the POI search or to Wikidata. *)
Theorem upload_without_gps `{PyRuntime} (w : World) (req : request)
    (ct : str) (boundary : bytes) (filename : str) (image_data : bytes)
    (exif_data : dict) :
  let safe_filename := timestamp w ++ u "_" ++ filename in
  let file_path := upload_path safe_filename in
  path req = u "/upload" →
  content_type req = Some ct →
  Py.contains (u "multipart/form-data") ct = true →
  boundary_of ct = Ok boundary →
  decode_upload boundary (body req) = Ok (ImageFile filename image_data) →
  write_file w file_path image_data = Ok tt →
  outcome (extract_exif_data w file_path) = Ok exif_data →
  exif_data !! KStr (u "GPSLatitude") = None
  ∨ exif_data !! KStr (u "GPSLongitude") = None →
  do_POST w req
  = mkIO [FileWrite file_path image_data; ImageOpen file_path]
      (Ok (JsonResponse 200 (VDict (mkdict
         [("success", VBool true); ("filename", VStr safe_filename);
          ("exif", VDict exif_data); ("location", VNone); ("pois", VNone);
          ("camera_direction", VNone); ("vision", VNone)])))).
Proof.
  intros safe_filename file_path Hpath Hct Hmulti Hboundary Hfile Hwrite Hexif Hgps.
  unfold do_POST. rewrite Hpath.
  rewrite !bool_decide_eq_false_2 by HandlerFacts.str_neq.
  rewrite bool_decide_eq_true_2 by done.
  unfold post_upload. rewrite Hct.
  assert (enrich w exif_data = mret (VNone, VNone, VNone)) as Henrich.
  { unfold enrich. destruct Hgps as [-> | ->]; cbn [bool_decide]; 
      rewrite ?(bool_decide_eq_false_2 (is_Some None)) by (by intros [? ?]);
      by rewrite ?andb_false_r. }
  unfold extract_exif_data in *.
  cbn [mbind IO_bind emit outcome trace mret IO_ret lift app] in Hexif.
  injection Hexif as Hexif.
  cbn [lift mbind IO_bind outcome trace mret IO_ret result_ret]. rewrite Hmulti.
  cbn [negb lift mbind IO_bind outcome trace mret IO_ret]. rewrite Hboundary.
  cbn [lift mbind IO_bind outcome trace mret IO_ret]. rewrite Hfile.
  cbn [lift mbind IO_bind outcome trace mret IO_ret emit]. fold safe_filename file_path.
  rewrite Hwrite.
  cbn [lift mbind IO_bind outcome trace mret IO_ret emit]. rewrite Hexif, Henrich.
  reflexivity.
Qed.

Lemma upload_without_gps_witness :
  do_POST (H := example_runtime example_loads)
    (offline_world example_error example_plain_image) example_upload_request
  = mkIO [FileWrite (u "uploads/20251030_080142_a.jpg") (b "AAA");
          ImageOpen (u "uploads/20251030_080142_a.jpg")]
      (Ok (JsonResponse 200 (VDict (mkdict
         [("success", VBool true); ("filename", VStr (u "20251030_080142_a.jpg"));
          ("exif", VDict {[ KInt 271 := VStr (u "ACME") ]}); ("location", VNone);
          ("pois", VNone); ("camera_direction", VNone); ("vision", VNone)])))).
Proof.
  apply (upload_without_gps (H := example_runtime example_loads)
           (offline_world example_error example_plain_image) example_upload_request
           (u "multipart/form-data; boundary=XyZ") example_boundary (u "a.jpg") (b "AAA")
           {[ KInt 271 := VStr (u "ACME") ]});
    try (by vm_compute).
  left. by vm_compute.
Defined.


(** ** The POI search (C2, C9) *)

Module PoiFacts.

(** In binary64 arithmetic [x < y] excludes [y <= x]. *)
Lemma ltb_not_leb (x y : float) : PrimFloat.ltb x y = true → PrimFloat.leb y x = false.
Proof.
  rewrite ltb_spec, leb_spec. unfold SFltb, SFleb.
  destruct (Prim2SF x) as [sx|sx| |sx mx ex], (Prim2SF y) as [sy|sy| |sy my ey];
    cbn [SFcompare]; try done;
    try (by destruct sx); try (by destruct sy); try (by destruct sx, sy).
  assert (Pos.compare_cont Eq my mx = CompOpp (Pos.compare_cont Eq mx my)) as Hm
    by (by rewrite Pos.compare_cont_antisym).
  destruct sx, sy; try done;
    rewrite (Z.compare_antisym ex ey), Hm;
    destruct (ex ?= ey)%Z; cbn [CompOpp]; try done;
    by destruct (Pos.compare_cont Eq mx my).
Qed.

Section facts.
Context `{PyRuntime}.

Lemma read_candidate_dict lat lon item c :
  read_candidate lat lon item = Ok c → ∃ d, item = VDict d.
Proof. destruct item; try done. by eexists. Qed.

Lemma poi_record_dict d c :
  poi_record (VDict d) c
  = Ok (VDict (mkdict
      [("name", c_name c); ("type", default VNone (d !! KStr (u "type")));
       ("category", default VNone (d !! KStr (u "category")));
       ("class", default VNone (d !! KStr (u "class")));
       ("display_name", c_display_name c);
       ("distance", VFloat (float_round (c_distance c) 1));
       ("lat", VFloat (c_lat c)); ("lon", VFloat (c_lon c))])).
Proof. reflexivity. Qed.

Lemma collect_pois_spec lat lon items pois :
  collect_pois lat lon items = Ok pois →
  length pois ≤ length items
  ∧ (∀ poi, poi ∈ pois →
       ∃ item c, item ∈ items ∧ read_candidate lat lon item = Ok c
                 ∧ included c = true ∧ poi_record item c = Ok poi)
  ∧ (∀ item c, item ∈ items → read_candidate lat lon item = Ok c →
       included c = true → ∃ poi, poi_record item c = Ok poi ∧ poi ∈ pois).
Proof.
  revert pois. induction items as [|item items IH]; intros pois; cbn [collect_pois].
  - intros [= <-]. split_and!; [done | |]; intros *; by rewrite ?elem_of_nil.
  - unfold poi_of_item.
    destruct (read_candidate lat lon item) as [c|e] eqn:Hc; [|done].
    cbn [mbind result_bind].
    destruct (included c) eqn:Hin.
    + destruct (poi_record item c) as [poi|e] eqn:Hpoi; [|done].
      cbn [fmap result_fmap mbind result_bind].
      destruct (collect_pois lat lon items) as [rest|e]; [|done].
      cbn [mbind result_bind mret result_ret]. intros [= <-].
      destruct (IH rest eq_refl) as (Hlen & Hsound & Hcomplete).
      split_and!.
      * simpl. lia.
      * intros p [-> | Hp]%elem_of_cons.
        -- exists item, c. split_and!; try done. apply list_elem_of_here.
        -- destruct (Hsound p Hp) as (it & c' & Hit & ?).
           exists it, c'. split; [by apply list_elem_of_further | done].
      * intros it c' [-> | Hit]%elem_of_cons Hc' Hin'.
        -- rewrite Hc in Hc'. injection Hc' as <-.
           exists poi. split; [done | apply list_elem_of_here].
        -- destruct (Hcomplete it c' Hit Hc' Hin') as (p & ? & ?).
           exists p. split; [done | by apply list_elem_of_further].
    + cbn [mret result_ret mbind result_bind].
      destruct (collect_pois lat lon items) as [rest|e]; [|done].
      cbn [mbind result_bind mret result_ret]. intros [= <-].
      destruct (IH rest eq_refl) as (Hlen & Hsound & Hcomplete).
      split_and!.
      * simpl. lia.
      * intros p Hp. destruct (Hsound p Hp) as (it & c' & Hit & ?).
        exists it, c'. split; [by apply list_elem_of_further | done].
      * intros it c' [-> | Hit]%elem_of_cons Hc' Hin'.
        -- rewrite Hc in Hc'. injection Hc' as <-. congruence.
        -- by apply Hcomplete.
Qed.

Lemma collect_pois_total lat lon items :
  (∀ item, item ∈ items → ∃ c, read_candidate lat lon item = Ok c) →
  ∃ pois, collect_pois lat lon items = Ok pois.
Proof.
  induction items as [|item items IH]; intros Hall; cbn [collect_pois]; [by eexists|].
  destruct (Hall item) as [c Hc]; [apply list_elem_of_here|].
  destruct IH as [pois Hpois]; [intros it Hit; apply Hall; by apply list_elem_of_further|].
  unfold poi_of_item. rewrite Hc, Hpois. cbn [mbind result_bind].
  destruct (read_candidate_dict _ _ _ _ Hc) as [d ->].
  rewrite poi_record_dict. destruct (included c); by eexists.
Qed.

(** The loop returns only when it could read every item. *)
Lemma collect_pois_readable lat lon items pois :
  collect_pois lat lon items = Ok pois →
  ∀ item, item ∈ items → ∃ c, read_candidate lat lon item = Ok c.
Proof.
  revert pois. induction items as [|item items IH]; intros pois; cbn [collect_pois].
  - intros _ it Hit. by apply elem_of_nil in Hit.
  - unfold poi_of_item.
    destruct (read_candidate lat lon item) as [c|e] eqn:Hc; [|done].
    cbn [mbind result_bind].
    destruct (collect_pois lat lon items) as [rest|e] eqn:Hrest.
    + intros _ it [-> | Hit]%elem_of_cons; [by exists c | by apply (IH rest)].
    + by destruct (if included c then Some <$> poi_record item c else mret None).
Qed.

(** The bearing only adds a console line. *)
Lemma search_nearby_poi_bearing (w : World) (lat lon : pyval) (direction : option float) :
  outcome (search_nearby_poi w lat lon direction)
  = outcome (search_nearby_poi w lat lon None)
  ∧ trace (search_nearby_poi w lat lon direction)
    = match direction with
      | Some d => [Print (u "Camera direction: " ++ fmt (VFloat d) ++ DIRECTION_UNIT)]
      | None => []
      end ++ trace (search_nearby_poi w lat lon None).
Proof.
  unfold search_nearby_poi. destruct direction as [d|]; [|done].
  cbn [mbind IO_bind emit mret IO_ret outcome trace]. done.
Qed.

End facts.
End PoiFacts.

(** C9: the result of [search_nearby_poi] does not depend on the bearing.
    For every world, position and bearing, the function returns (or raises)
    what it returns without a bearing, and it does the same things in the
    same order, after the one console line that mentions the bearing. *)
Theorem search_nearby_poi_ignores_bearing `{PyRuntime} (w : World) (lat lon : pyval)
    (direction : option float) :
  outcome (search_nearby_poi w lat lon direction)
  = outcome (search_nearby_poi w lat lon None)
  ∧ trace (search_nearby_poi w lat lon direction)
    = match direction with
      | Some d => [Print (u "Camera direction: " ++ fmt (VFloat d) ++ DIRECTION_UNIT)]
      | None => []
      end ++ trace (search_nearby_poi w lat lon None).
Proof. apply PoiFacts.search_nearby_poi_bearing. Qed.

Module DictFacts.

Lemma mkdict_head k v rest : mkdict ((k, v) :: rest) !! KStr (u k) = Some v.
Proof. unfold mkdict. cbn [fmap list_fmap list_to_map fst snd]. apply lookup_insert_eq. Qed.

Lemma mkdict_skip k k' v rest :
  KStr (u k') ≠ KStr (u k) →
  mkdict ((k', v) :: rest) !! KStr (u k) = mkdict rest !! KStr (u k).
Proof.
  intros Hne. unfold mkdict. cbn [fmap list_fmap list_to_map fst snd].
  by apply lookup_insert_ne.
Qed.

(** Looks a literal key up in a dict display. *)
Ltac lookup_literal :=
  repeat first
    [ apply mkdict_head
    | rewrite mkdict_skip by (let E := fresh in intros E; vm_compute in E; discriminate E) ].

End DictFacts.

Section poi_claims.
Context `{PyRuntime}.

Lemma read_candidate_distance (flat flon : float) item c :
  read_candidate (VFloat flat) (VFloat flon) item = Ok c →
  ∃ dlat2 dlon2 root,
    float_pow (flat - c_lat c) 2 = Some dlat2
    ∧ float_pow (flon - c_lon c) 2 = Some dlon2
    ∧ float_pow (dlat2 + dlon2) 0.5 = Some root
    ∧ c_distance c = (root * 111000)%float.
Proof.
  unfold read_candidate. destruct item as [| | | | | | | |d]; try done.
  cbn [py_get mbind result_bind].
  destruct (py_float (default (VInt 0) (d !! KStr (u "lat")))) as [item_lat|]; [|done].
  cbn [mbind result_bind].
  destruct (py_float (default (VInt 0) (d !! KStr (u "lon")))) as [item_lon|]; [|done].
  cbn [mbind result_bind py_sub_float]. unfold py_pow.
  destruct (float_pow (flat - item_lat) 2) as [dlat2|] eqn:E1; [|done].
  cbn [mbind result_bind].
  destruct (float_pow (flon - item_lon) 2) as [dlon2|] eqn:E2; [|done].
  cbn [mbind result_bind].
  destruct (float_pow (dlat2 + dlon2) 0.5) as [root|] eqn:E3; [|done].
  cbn [mbind result_bind mret result_ret]. intros [= <-]. cbn [c_lat c_lon c_distance].
  by exists dlat2, dlon2, root.
Qed.

(** The candidates that the loop can read: JSON objects whose [lat] and
    [lon] (0 when absent) convert to floats, and whose distance from the
    position is computed without [OverflowError]. *)
Lemma read_candidate_readable (flat flon : float) item :
  (∃ c, read_candidate (VFloat flat) (VFloat flon) item = Ok c)
  ↔ ∃ d item_lat item_lon dlat2 dlon2 root,
      item = VDict d
      ∧ py_float (default (VInt 0) (d !! KStr (u "lat"))) = Ok item_lat
      ∧ py_float (default (VInt 0) (d !! KStr (u "lon"))) = Ok item_lon
      ∧ float_pow (flat - item_lat) 2 = Some dlat2
      ∧ float_pow (flon - item_lon) 2 = Some dlon2
      ∧ float_pow (dlat2 + dlon2) 0.5 = Some root.
Proof.
  split.
  - intros [c Hc]. unfold read_candidate in Hc.
    destruct item as [| | | | | | | |d]; try done.
    cbn [py_get mbind result_bind] in Hc.
    destruct (py_float (default (VInt 0) (d !! KStr (u "lat")))) as [item_lat|] eqn:Elat;
      [|done].
    cbn [mbind result_bind] in Hc.
    destruct (py_float (default (VInt 0) (d !! KStr (u "lon")))) as [item_lon|] eqn:Elon;
      [|done].
    cbn [mbind result_bind py_sub_float] in Hc. unfold py_pow in Hc.
    destruct (float_pow (flat - item_lat) 2) as [dlat2|] eqn:E1; [|done].
    cbn [mbind result_bind] in Hc.
    destruct (float_pow (flon - item_lon) 2) as [dlon2|] eqn:E2; [|done].
    cbn [mbind result_bind] in Hc.
    destruct (float_pow (dlat2 + dlon2) 0.5) as [root|] eqn:E3; [|done].
    by exists d, item_lat, item_lon, dlat2, dlon2, root.
  - intros (d & item_lat & item_lon & dlat2 & dlon2 & root & -> & Elat & Elon & E1 & E2 & E3).
    unfold read_candidate. cbn [py_get mbind result_bind]. rewrite Elat.
    cbn [mbind result_bind]. rewrite Elon.
    cbn [mbind result_bind py_sub_float]. unfold py_pow. rewrite E1.
    cbn [mbind result_bind]. rewrite E2. cbn [mbind result_bind]. rewrite E3.
    by eexists.
Qed.

End poi_claims.

(** C2, amended.  When the POI search answers with a list of candidates,
    [search_nearby_poi] returns at most 15 POIs; every POI it returns is the
    record of one of the FIRST 15 candidates, whose distance
    ((dlat**2 + dlon**2)**0.5 * 111000, in binary64 arithmetic) is greater
    than 10 (so not less than or equal to 10) and whose name is not empty,
    and it carries that name and that distance rounded to 1 decimal.  A
    candidate can be read when it is a JSON object whose [lat] and [lon] (0
    when absent) convert to floats and whose distance is computed without
    [OverflowError].  When each of the first 15 candidates can be read,
    every one of them at a distance greater than 10 with a name that is not
    empty is in the result; when one of them cannot be read, the result has
    no POI at all.  Candidates after the fifteenth are never looked at. *)
Theorem search_nearby_poi_filter `{PyRuntime} (w : World) (flat flon : float)
    (direction : option float) (items : list pyval) :
  urlopen_json w (poi_search_url (VFloat flat) (VFloat flon)) None = Ok (VList items) →
  ∃ result pois,
    outcome (search_nearby_poi w (VFloat flat) (VFloat flon) direction) = Ok result
    ∧ result !! KStr (u "pois") = Some (VList pois)
    ∧ length pois ≤ 15
    ∧ (∀ poi, poi ∈ pois →
         ∃ item c fields dlat2 dlon2 root,
           item ∈ take 15 items
           ∧ read_candidate (VFloat flat) (VFloat flon) item = Ok c
           ∧ float_pow (flat - c_lat c) 2 = Some dlat2
           ∧ float_pow (flon - c_lon c) 2 = Some dlon2
           ∧ float_pow (dlat2 + dlon2) 0.5 = Some root
           ∧ c_distance c = (root * 111000)%float
           ∧ PrimFloat.ltb 10 (c_distance c) = true
           ∧ PrimFloat.leb (c_distance c) 10 = false
           ∧ py_truthy (c_name c) = true
           ∧ poi = VDict fields
           ∧ fields !! KStr (u "name") = Some (c_name c)
           ∧ fields !! KStr (u "distance")
             = Some (VFloat (float_round (c_distance c) 1)))
    ∧ ((∀ item, item ∈ take 15 items →
          ∃ c, read_candidate (VFloat flat) (VFloat flon) item = Ok c) →
       ∀ item c,
         item ∈ take 15 items →
         read_candidate (VFloat flat) (VFloat flon) item = Ok c →
         PrimFloat.ltb 10 (c_distance c) = true →
         py_truthy (c_name c) = true →
         ∃ fields,
           VDict fields ∈ pois
           ∧ poi_record item c = Ok (VDict fields)
           ∧ fields !! KStr (u "name") = Some (c_name c)
           ∧ fields !! KStr (u "distance")
             = Some (VFloat (float_round (c_distance c) 1)))
    ∧ (∀ item,
         (∃ c, read_candidate (VFloat flat) (VFloat flon) item = Ok c)
         ↔ ∃ d item_lat item_lon dlat2 dlon2 root,
             item = VDict d
             ∧ py_float (default (VInt 0) (d !! KStr (u "lat"))) = Ok item_lat
             ∧ py_float (default (VInt 0) (d !! KStr (u "lon"))) = Ok item_lon
             ∧ float_pow (flat - item_lat) 2 = Some dlat2
             ∧ float_pow (flon - item_lon) 2 = Some dlon2
             ∧ float_pow (dlat2 + dlon2) 0.5 = Some root)
    ∧ (∀ item e,
         item ∈ take 15 items →
         read_candidate (VFloat flat) (VFloat flon) item = Raise e →
         pois = []).
Proof.
  intros Hreply.
  destruct (PoiFacts.search_nearby_poi_bearing w (VFloat flat) (VFloat flon) direction)
    as [-> _].
  unfold search_nearby_poi.
  cbn [mbind IO_bind mret IO_ret emit lift outcome trace catch].
  rewrite Hreply. cbn [outcome trace is_list].
  destruct (collect_pois (VFloat flat) (VFloat flon) (take 15 items)) as [pois|e] eqn:Hpois;
    cbn [outcome trace].
  - destruct (PoiFacts.collect_pois_spec _ _ _ _ Hpois) as (Hlen & Hsound & Hcomplete).
    eexists _, pois. split; [reflexivity|]. split; [by DictFacts.lookup_literal|].
    split; [rewrite length_take in Hlen; lia|]. split_and!.
    + intros poi Hpoi. destruct (Hsound poi Hpoi) as (item & c & Hitem & Hc & Hin & Hrec).
      destruct (PoiFacts.read_candidate_dict _ _ _ _ Hc) as [d ->].
      destruct (read_candidate_distance _ _ _ _ Hc) as (dlat2 & dlon2 & root & ? & ? & ? & ?).
      apply andb_true_iff in Hin as [Hfar Hname].
      rewrite PoiFacts.poi_record_dict in Hrec. injection Hrec as <-.
      eexists (VDict d), c, _, dlat2, dlon2, root.
      split_and!;
        first [done | by apply PoiFacts.ltb_not_leb | by DictFacts.lookup_literal].
    + intros _ item c Hitem Hc Hfar Hname.
      destruct (Hcomplete item c Hitem Hc) as (poi & Hrec & Hpoi).
      { unfold included. by rewrite Hfar, Hname. }
      destruct (PoiFacts.read_candidate_dict _ _ _ _ Hc) as [d ->].
      pose proof Hrec as Hrec'.
      rewrite PoiFacts.poi_record_dict in Hrec. injection Hrec as <-.
      eexists. split_and!; first [done | by DictFacts.lookup_literal].
    + apply read_candidate_readable.
    + intros item e Hitem Hbad.
      destruct (PoiFacts.collect_pois_readable _ _ _ _ Hpois item Hitem) as [c Hc].
      congruence.
  - eexists _, []. split; [reflexivity|]. split; [by DictFacts.lookup_literal|].
    split; [simpl; lia|]. split_and!.
    + intros poi Hpoi. by apply elem_of_nil in Hpoi.
    + intros Hall. destruct (PoiFacts.collect_pois_total _ _ _ Hall) as [pois Hok].
      congruence.
    + apply read_candidate_readable.
    + done.
Qed.

Lemma search_nearby_poi_filter_witness :
  ∃ result pois,
    outcome (search_nearby_poi (H := example_runtime (fun _ => Ok VNone))
               (answering_world (VList [example_poi_near; example_poi_far])
                  example_plain_image)
               (VFloat 48) (VFloat 2) None) = Ok result
    ∧ result !! KStr (u "pois") = Some (VList pois)
    ∧ length pois ≤ 15.
Proof.
  destruct (search_nearby_poi_filter (H := example_runtime (fun _ => Ok VNone))
              (answering_world (VList [example_poi_near; example_poi_far])
                 example_plain_image)
              48 2 None [example_poi_near; example_poi_far] eq_refl)
    as (result & pois & Hout & Hpois & Hlen & _).
  by exists result, pois.
Defined.

(** C2 as stated fails: a candidate at a distance greater than 10 with a
    name is left out when fifteen candidates come before it. *)
Lemma search_nearby_poi_filter_counterexample :
  let run := search_nearby_poi (H := example_runtime (fun _ => Ok VNone))
               (answering_world (VList example_sixteen) example_plain_image)
               (VFloat 48) (VFloat 2) None in
  example_poi_far ∈ example_sixteen
  ∧ (c_distance <$> read_candidate (H := example_runtime (fun _ => Ok VNone))
                      (VFloat 48) (VFloat 2) example_poi_far) = Ok 111000%float
  ∧ PrimFloat.ltb 10 111000 = true
  ∧ (c_name <$> read_candidate (H := example_runtime (fun _ => Ok VNone))
                  (VFloat 48) (VFloat 2) example_poi_far) = Ok (VStr (u "Tower"))
  ∧ ((fun result => result !! KStr (u "pois")) <$> outcome run) = Ok (Some (VList [])).
Proof.
  split_and!; try by vm_compute.
  unfold example_sixteen. apply elem_of_app. right. apply list_elem_of_here.
Qed.

(** A candidate whose coordinates convert and whose distance overflows
    cannot be read: with it among the first 15, no POI is returned, the one
    before it included. *)
Example search_nearby_poi_filter_overflow_example :
  let runtime := example_runtime (fun _ => Ok VNone) in
  let far_away := VDict (mkdict [("name", VStr (u "Far")); ("lat", VFloat 0x1p+700)]) in
  py_float (H := runtime) (VFloat 0x1p+700) = Ok 0x1p+700%float
  ∧ read_candidate (H := runtime) (VFloat 48) (VFloat 2) far_away
    = Raise (Exn OverflowError (u "(34, 'Numerical result out of range')"))
  ∧ ((fun result => result !! KStr (u "pois"))
       <$> outcome (search_nearby_poi (H := runtime)
                      (answering_world (VList [example_poi_far; far_away])
                         example_plain_image)
                      (VFloat 48) (VFloat 2) None))
    = Ok (Some (VList [])).
Proof. split_and!; vm_compute; reflexivity. Qed.

(** ** The description and language services (C6, C7, C10) *)







(** ** The Wikidata query (C8) *)

Section wikidata_claims.
Context `{PyRuntime}.





End wikidata_claims.




(** ** The translation endpoint (C10) *)

Section translate_claims.
Context `{PyRuntime} (w : World).


End translate_claims.


(** * Further properties of the code *)

Module ExifFacts.
Section facts.
Context `{PyRuntime}.

Lemma named_tags_snoc table f items item :
  named_tags table f (items ++ [item])
  = <[tag_key table item.1 := f item.2]> (named_tags table f items).
Proof. unfold named_tags. by rewrite foldl_app. Qed.

Lemma named_tags_absent table f items k :
  Forall (fun item => tag_key table item.1 ≠ k) items →
  named_tags table f items !! k = None.
Proof.
  induction items as [|item items IH] using rev_ind; intros Hall; [done|].
  rewrite Forall_app, Forall_singleton in Hall. destruct Hall as [Hitems Hitem].
  rewrite named_tags_snoc, lookup_insert_ne by done. by apply IH.
Qed.

Lemma named_tags_last_wins table f pre item post :
  Forall (fun later => tag_key table later.1 ≠ tag_key table item.1) post →
  named_tags table f (pre ++ item :: post) !! tag_key table item.1 = Some (f item.2).
Proof.
  induction post as [|later post IH] using rev_ind; intros Hall.
  - by rewrite named_tags_snoc, lookup_insert_eq.
  - rewrite Forall_app, Forall_singleton in Hall. destruct Hall as [Hpost Hlater].
    rewrite app_comm_cons, app_assoc, named_tags_snoc, lookup_insert_ne by done.
    by apply IH.
Qed.

Lemma named_tags_values (P : pyval → Prop) table f items :
  (∀ v, P (f v)) → map_Forall (fun _ v => P v) (named_tags table f items).
Proof.
  intros Hf. induction items as [|item items IH] using rev_ind.
  - apply map_Forall_empty.
  - rewrite named_tags_snoc. by apply map_Forall_insert_2.
Qed.

(** What the GPS block adds to the record are floats and the GPS
    directory. *)
Lemma add_gps_data_values (P : pyval → Prop) (exif_data gps_data result : dict) :
  map_Forall (fun _ v => P v) exif_data → (∀ f, P (VFloat f)) → P (VDict gps_data) →
  add_gps_data exif_data gps_data = Ok result →
  map_Forall (fun _ v => P v) result.
Proof.
  intros Hexif Hfloat Hgps. unfold add_gps_data. cbn [py_get].
  destruct (_ && _); cbn [mbind result_bind mret result_ret].
  - destruct (py_item (VDict gps_data) "GPSLatitude") as [v_lat|];
      cbn [mbind result_bind]; [|done].
    destruct (convert_to_degrees v_lat) as [lat|]; cbn [mbind result_bind]; [|done].
    destruct (py_item (VDict gps_data) "GPSLongitude") as [v_lon|];
      cbn [mbind result_bind]; [|done].
    destruct (convert_to_degrees v_lon) as [lon|];
      cbn [mbind result_bind mret result_ret]; [|done].
    intros [= <-]. by repeat (apply map_Forall_insert_2; [done|]).
  - intros [= <-]. by apply map_Forall_insert_2.
Qed.

End facts.
End ExifFacts.

(** ** The metadata extractor, further properties *)

(** X1: [convert_to_degrees] returns for exactly the sequences of three
    values that [float()] accepts, and then the degrees
    [d + m/60 + s/3600]; a tuple of another length raises the [ValueError]
    of the unpacking, and a list is treated like a tuple. *)
Theorem convert_to_degrees_accepts_triples `{PyRuntime} (l : list pyval) :
  (∀ x, convert_to_degrees (VTuple l) = Ok x ↔
        ∃ d m s fd fm fs,
          l = [d; m; s] ∧ py_float d = Ok fd ∧ py_float m = Ok fm ∧ py_float s = Ok fs
          ∧ x = (fd + fm / 60 + fs / 3600)%float)
  ∧ (length l ≠ 3 → convert_to_degrees (VTuple l) = Raise (wrong_arity 3 (length l)))
  ∧ convert_to_degrees (VList l) = convert_to_degrees (VTuple l).
Proof.
  split_and!; [| | done].
  2:{ intros Hl. destruct l as [|? [|? [|? [|? ?]]]]; try reflexivity. by destruct Hl. }
  intros x. unfold convert_to_degrees. cbn [py_unpack3]. split.
  - destruct l as [|d [|m [|s [|? ?]]]]; try done. cbn [mbind result_bind].
    destruct (py_float d) as [fd|] eqn:Hd; [|done]. cbn [mbind result_bind].
    destruct (py_float m) as [fm|] eqn:Hm; [|done]. cbn [mbind result_bind].
    destruct (py_float s) as [fs|] eqn:Hs; [|done]. cbn [mbind result_bind mret result_ret].
    intros [= <-]. by exists d, m, s, fd, fm, fs.
  - intros (d & m & s & fd & fm & fs & -> & Hd & Hm & Hs & ->).
    cbn [mbind result_bind]. by rewrite Hd, Hm, Hs.
Qed.

(** X2: when the GPS directory has both coordinates and one of them does
    not convert (the latitude, or the longitude after a latitude that
    converts), [extract_exif_data] returns the record with the one field
    [error], the message of the exception: every tag it had read is left
    out.  It raises nothing. *)
Theorem malformed_gps_coordinate_drops_all_tags `{PyRuntime} (w : World)
    (image_path : str) (image : raw_image) (v_lat v_lon : pyval) (e : exn) :
  let gps_data := named_tags (GPSTAGS w) id (gps_items image) in
  open_image w image_path = Ok image →
  gps_data !! KStr (u "GPSLatitude") = Some v_lat →
  gps_data !! KStr (u "GPSLongitude") = Some v_lon →
  (convert_to_degrees v_lat = Raise e
   ∨ (∃ lat, convert_to_degrees v_lat = Ok lat) ∧ convert_to_degrees v_lon = Raise e) →
  extract_exif_data w image_path
  = mkIO [ImageOpen image_path] (Ok (mkdict [("error", VStr (exn_str e))])).
Proof.
  intros gps_data Hopen Hlat Hlon Hbad.
  unfold extract_exif_data. cbn [mbind IO_bind emit outcome trace mret IO_ret app].
  rewrite Hopen. cbn [mbind result_bind].
  destruct (gps_items image) as [|item items] eqn:Hitems.
  { subst gps_data. by rewrite ExtractFacts.named_tags_nil, lookup_empty in Hlat. }
  fold gps_data. unfold add_gps_data. rewrite Hlat, Hlon.
  rewrite !bool_decide_eq_true_2 by by eexists.
  cbn [andb mbind result_bind py_item]. rewrite Hlat, Hlon. cbn [mbind result_bind].
  destruct Hbad as [Hbad | [[lat Hok] Hbad]].
  - by rewrite Hbad.
  - rewrite Hok. cbn [mbind result_bind]. by rewrite Hbad.
Qed.

Lemma malformed_gps_coordinate_drops_all_tags_witness :
  extract_exif_data (H := example_runtime (fun _ => Ok VNone))
    (offline_world example_error example_short_gps_image) (u "uploads/photo.jpg")
  = mkIO [ImageOpen (u "uploads/photo.jpg")]
      (Ok (mkdict [("error", VStr (u "not enough values to unpack (expected 3, got 2)"))])).
Proof.
  apply (malformed_gps_coordinate_drops_all_tags (H := example_runtime (fun _ => Ok VNone))
           (offline_world example_error example_short_gps_image) (u "uploads/photo.jpg")
           example_short_gps_image (VTuple [VFloat 48; VFloat 51])
           (VTuple [VFloat 2; VFloat 17; VFloat 40])
           (wrong_arity 3 2));
    try (by vm_compute).
  left. by vm_compute.
Defined.

(** X3: [extract_exif_data] raises nothing and does nothing but open the
    image.  When the image cannot be opened, what it returns is the record
    with the one field [error], the message of the exception.  No top-level
    value of the record it returns is a bytes object: the loop over the tags
    turns each into text, and what the GPS block adds are two floats and a
    dict.  (The values inside [GPSData] are kept as the reader gave them.) *)
Theorem extract_exif_data_returns_text_record `{PyRuntime} (w : World) (image_path : str) :
  ∃ exif_data,
    extract_exif_data w image_path = mkIO [ImageOpen image_path] (Ok exif_data)
    ∧ (∀ e, open_image w image_path = Raise e →
            exif_data = mkdict [("error", VStr (exn_str e))])
    ∧ ∀ k bs, exif_data !! k ≠ Some (VBytes bs).
Proof.
  assert (∀ d : dict,
            map_Forall (fun _ v => ∀ bs, v ≠ VBytes bs) d →
            ∀ k bs, d !! k ≠ Some (VBytes bs)) as Hfinish.
  { intros d Hd k bs Hk. by apply (Hd k _ Hk bs). }
  unfold extract_exif_data. cbn [mbind IO_bind emit outcome trace mret IO_ret app].
  eexists. split; [reflexivity|]. split; [by intros e ->|]. apply Hfinish.
  destruct (open_image w image_path) as [image|e]; cbn [mbind result_bind try_except].
  2:{ unfold mkdict. cbn [fmap list_fmap list_to_map fst snd].
      apply map_Forall_insert_2; [done | apply map_Forall_empty]. }
  assert (map_Forall (fun _ v => ∀ bs, v ≠ VBytes bs)
            (named_tags (TAGS w) bytes_to_string (exif_items image))) as Htags.
  { apply ExifFacts.named_tags_values. intros v bs0. destruct v; try done.
    cbn [bytes_to_string]. by destruct (Utf8.decode _). }
  destruct (gps_items image) as [|item items]; [done|].
  set (gps_data := named_tags (GPSTAGS w) id (item :: items)).
  destruct (add_gps_data _ gps_data) as [exif_data'|e] eqn:Hadd; cbn [try_except].
  2:{ unfold mkdict. cbn [fmap list_fmap list_to_map fst snd].
      apply map_Forall_insert_2; [done | apply map_Forall_empty]. }
  revert Hadd. by apply ExifFacts.add_gps_data_values.
Qed.

(** X4: in the record of an image with no GPS directory each tag stands
    under its name in [TAGS], or under its numeric id when [TAGS] has no name
    for it, with its value, bytes turned into text; of two tags that get the
    same key the later one stays; a key that no tag gets is absent. *)
Theorem exif_tags_by_name `{PyRuntime} (w : World) (image_path : str) (image : raw_image)
    (earlier later : list (Z * pyval)) (tag_id : Z) (value : pyval) :
  let k := match TAGS w tag_id with Some name => KStr name | None => KInt tag_id end in
  open_image w image_path = Ok image →
  gps_items image = [] →
  exif_items image = earlier ++ (tag_id, value) :: later →
  Forall (fun item => tag_key (TAGS w) item.1 ≠ k) later →
  ∃ exif_data,
    outcome (extract_exif_data w image_path) = Ok exif_data
    ∧ exif_data !! k
      = Some (match value with
              | VBytes bs => VStr (default (py_str value) (Utf8.decode bs))
              | _ => value
              end)
    ∧ ∀ k', Forall (fun item => tag_key (TAGS w) item.1 ≠ k') (exif_items image) →
            exif_data !! k' = None.
Proof.
  intros k Hopen Hgps Hitems Hlater.
  unfold extract_exif_data. cbn [mbind IO_bind emit outcome trace mret IO_ret app].
  rewrite Hopen. cbn [mbind result_bind]. rewrite Hgps. cbn [mret result_ret try_except].
  eexists. split; [reflexivity|]. split.
  - rewrite Hitems.
    change k with (tag_key (TAGS w) (tag_id, value).1).
    rewrite ExifFacts.named_tags_last_wins by done. cbn [snd]. f_equal.
    destruct value; try done. cbn [bytes_to_string]. by destruct (Utf8.decode _).
  - intros k' Hk'. by apply ExifFacts.named_tags_absent.
Qed.

Lemma exif_tags_by_name_witness :
  ∃ exif_data,
    outcome (extract_exif_data (H := example_runtime (fun _ => Ok VNone))
               (offline_world example_error (RawImage (exif_items example_half_gps_image) []))
               (u "uploads/photo.jpg")) = Ok exif_data
    ∧ exif_data !! KInt 271 = Some (VStr (u "ACME")).
Proof.
  destruct (exif_tags_by_name (H := example_runtime (fun _ => Ok VNone))
              (offline_world example_error (RawImage (exif_items example_half_gps_image) []))
              (u "uploads/photo.jpg") (RawImage (exif_items example_half_gps_image) [])
              [] [(272, VInt 7)]%Z 271 (VBytes (b "ACME")))
    as (exif_data & Hout & Hk & _); try reflexivity.
  - repeat constructor. by vm_compute.
  - by exists exif_data.
Defined.

(** X5: when the GPS directory is not empty and lacks the latitude or the
    longitude, no coordinate is converted (so a coordinate that is present
    cannot make the extraction fail): the record is the one of the tags with
    the GPS directory added under [GPSData], and when no tag is named
    [GPSLatitude] or no tag is named [GPSLongitude] the upload handler's
    enrichment does nothing for it. *)
Theorem gps_directory_without_coordinates `{PyRuntime} (w : World) (image_path : str)
    (image : raw_image) :
  let tags := named_tags (TAGS w) bytes_to_string (exif_items image) in
  let gps_data := named_tags (GPSTAGS w) id (gps_items image) in
  let exif_data := <[KStr (u "GPSData") := VDict gps_data]> tags in
  open_image w image_path = Ok image →
  gps_items image ≠ [] →
  (gps_data !! KStr (u "GPSLatitude") = None
   ∨ gps_data !! KStr (u "GPSLongitude") = None) →
  outcome (extract_exif_data w image_path) = Ok exif_data
  ∧ ((tags !! KStr (u "GPSLatitude") = None ∨ tags !! KStr (u "GPSLongitude") = None) →
     enrich w exif_data = mkIO [] (Ok (VNone, VNone, VNone))).
Proof.
  intros tags gps_data exif_data Hopen Hitems Hgps. split.
  - unfold extract_exif_data. cbn [mbind IO_bind emit outcome trace mret IO_ret app].
    rewrite Hopen. cbn [mbind result_bind].
    destruct (gps_items image) as [|item items] eqn:E; [done|].
    fold tags gps_data. unfold add_gps_data.
    assert (bool_decide (is_Some (gps_data !! KStr (u "GPSLatitude")))
            && bool_decide (is_Some (gps_data !! KStr (u "GPSLongitude"))) = false) as ->.
    { destruct Hgps as [-> | ->];
        rewrite (bool_decide_eq_false_2 (is_Some None)) by (by intros [? ?]);
        by rewrite ?andb_false_r. }
    reflexivity.
  - intros Htags. unfold enrich, exif_data.
    rewrite !lookup_insert_ne by ExtractFacts.key_neq.
    destruct Htags as [-> | ->];
      rewrite (bool_decide_eq_false_2 (is_Some None)) by (by intros [? ?]);
      by rewrite ?andb_false_r.
Qed.

Lemma gps_directory_without_coordinates_witness :
  outcome (extract_exif_data (H := example_runtime (fun _ => Ok VNone))
             (offline_world example_error example_half_gps_image) (u "uploads/photo.jpg"))
  = Ok (<[KStr (u "GPSData") := VDict {[ KStr (u "GPSLatitude") := VTuple [VFloat 48; VFloat 51] ]}]>
          (<[KInt 272 := VInt 7]> {[ KInt 271 := VStr (u "ACME") ]})).
Proof.
  refine (proj1 (gps_directory_without_coordinates (H := example_runtime (fun _ => Ok VNone))
                   (offline_world example_error example_half_gps_image)
                   (u "uploads/photo.jpg") example_half_gps_image _ _ _)).
  - reflexivity.
  - done.
  - right. by vm_compute.
Defined.
Module GeoFacts.
Section facts.
Context `{PyRuntime}.

(** What [reverse_geocode] does and returns, by the answer of the
    geocoder. *)
Lemma reverse_geocode_run (w : World) (lat lon : pyval) :
  let url := reverse_geocode_url lat lon in
  reverse_geocode w lat lon
  = mkIO [HttpRequest url None]
      (Ok (match urlopen_json w url None with
           | Ok data =>
               mkdict [("api_url", VStr url); ("api_response", data); ("data", data)]
           | Raise e =>
               mkdict [("api_url", VStr url);
                       ("api_response", VDict (mkdict [("error", VStr (exn_str e))]));
                       ("data", VNone)]
           end)).
Proof.
  intros url. unfold reverse_geocode, catch. fold url.
  cbn [mbind IO_bind mret IO_ret emit lift outcome trace].
  by destruct (urlopen_json w url None).
Qed.

Lemma search_nearby_poi_run (w : World) (lat lon : pyval) (direction : option float) :
  let url := poi_search_url lat lon in
  let failure e :=
    mkdict [("pois", VList []); ("api_url", VStr url);
            ("api_response", VDict (mkdict [("error", VStr (exn_str e))]))] in
  search_nearby_poi w lat lon direction
  = mkIO (match direction with
          | Some d => [Print (u "Camera direction: " ++ fmt (VFloat d) ++ DIRECTION_UNIT)]
          | None => []
          end ++ [HttpRequest url None])
      (Ok (match urlopen_json w url None with
           | Ok data =>
               match match data with
                     | VList items => collect_pois lat lon (take 15 items)
                     | _ => Ok []
                     end with
               | Ok pois =>
                   mkdict [("pois", VList pois); ("api_url", VStr url);
                           ("api_response",
                            if is_list data then data
                            else VDict (mkdict
                                   [("error", VStr (u "Invalid response format"))]))]
               | Raise e => failure e
               end
           | Raise e => failure e
           end)).
Proof.
  intros url failure. unfold search_nearby_poi, catch. fold url.
  destruct direction as [d|];
    cbn [mbind IO_bind mret IO_ret emit lift outcome trace app];
    (destruct (urlopen_json w url None) as [data|e]; cbn [outcome trace app]; [|done]);
    (destruct data as [| | | | | |items| |]; cbn [outcome trace app is_list]; try done);
    by destruct (collect_pois lat lon (take 15 items)).
Qed.

Lemma poi_of_item_ok lat lon item c :
  read_candidate lat lon item = Ok c →
  ∃ poi, poi_record item c = Ok poi
         ∧ poi_of_item lat lon item = Ok (if included c then Some poi else None).
Proof.
  intros Hc. destruct (PoiFacts.read_candidate_dict _ _ _ _ Hc) as [d ->].
  unfold poi_of_item. rewrite Hc. cbn [mbind result_bind].
  rewrite PoiFacts.poi_record_dict. eexists. split; [reflexivity|].
  by destruct (included c).
Qed.

(** The loop stops at the first item that cannot be read. *)
Lemma collect_pois_raise lat lon good bad rest e :
  Forall (fun item => ∃ c, read_candidate lat lon item = Ok c) good →
  read_candidate lat lon bad = Raise e →
  collect_pois lat lon (good ++ bad :: rest) = Raise e.
Proof.
  intros Hgood Hbad. induction Hgood as [|item good [c Hc] _ IH]; cbn [app collect_pois].
  - unfold poi_of_item. by rewrite Hbad.
  - destruct (poi_of_item_ok _ _ _ _ Hc) as (poi & _ & ->).
    cbn [mbind result_bind]. by rewrite IH.
Qed.

(** When every item can be read, the POIs are the records of the items
    that pass the test, one for each, in the order of the items. *)
Lemma collect_pois_exact lat lon items :
  (∀ item, item ∈ items → ∃ c, read_candidate lat lon item = Ok c) →
  ∃ pois,
    collect_pois lat lon items = Ok pois
    ∧ Forall2 (fun item poi =>
                 ∃ c, read_candidate lat lon item = Ok c ∧ included c = true
                      ∧ poi_record item c = Ok poi)
        (List.filter (fun item => match read_candidate lat lon item with
                                  | Ok c => included c
                                  | Raise _ => false
                                  end) items)
        pois.
Proof.
  induction items as [|item items IH]; intros Hall; cbn [collect_pois List.filter].
  - exists []. split; [done | constructor].
  - destruct (Hall item) as [c Hc]; [apply list_elem_of_here|].
    destruct IH as (rest & Hrest & Hall'); [intros it Hit; apply Hall; by apply list_elem_of_further|].
    destruct (poi_of_item_ok _ _ _ _ Hc) as (poi & Hpoi & ->).
    rewrite Hc, Hrest. cbn [mbind result_bind mret result_ret].
    destruct (included c) eqn:Hin.
    + exists (poi :: rest). split; [done|]. constructor; [by exists c | done].
    + by exists rest.
Qed.

End facts.
End GeoFacts.

(** ** The geo enrichment clients, further properties *)

(** X6: [reverse_geocode] raises nothing and sends one request, to the
    reverse geocoder, with the two coordinates in the URL.  When the
    geocoder answers, the answer stands under [api_response] and under
    [data]; when the call fails, [data] is null and [api_response] holds the
    message of the exception under [error].  [api_url] is the URL in both
    cases. *)
Theorem reverse_geocode_always_answers `{PyRuntime} (w : World) (lat lon : pyval) :
  let url :=
    u "https://nominatim.openstreetmap.org/reverse?format=json&lat=" ++ fmt lat
    ++ u "&lon=" ++ fmt lon ++ u "&addressdetails=1&extratags=1&namedetails=1&zoom=18" in
  reverse_geocode w lat lon
  = mkIO [HttpRequest url None]
      (Ok (match urlopen_json w url None with
           | Ok data =>
               mkdict [("api_url", VStr url); ("api_response", data); ("data", data)]
           | Raise e =>
               mkdict [("api_url", VStr url);
                       ("api_response", VDict (mkdict [("error", VStr (exn_str e))]));
                       ("data", VNone)]
           end)).
Proof. apply GeoFacts.reverse_geocode_run. Qed.

(** X7: [search_nearby_poi] raises nothing and sends one request, to the
    POI search.  What it returns has the three fields [pois], [api_url] and
    [api_response]; when the call fails, [pois] is empty and [api_response]
    holds the message of the exception; when the answer is not a list,
    [pois] is empty and [api_response] holds the error "Invalid response
    format". *)
Theorem search_nearby_poi_always_answers `{PyRuntime} (w : World) (lat lon : pyval)
    (direction : option float) :
  let url := poi_search_url lat lon in
  ∃ pois api_response,
    outcome (search_nearby_poi w lat lon direction)
    = Ok (mkdict [("pois", VList pois); ("api_url", VStr url);
                  ("api_response", api_response)])
    ∧ trace (search_nearby_poi w lat lon direction)
      = match direction with
        | Some d => [Print (u "Camera direction: " ++ fmt (VFloat d) ++ DIRECTION_UNIT)]
        | None => []
        end ++ [HttpRequest url None]
    ∧ (∀ e, urlopen_json w url None = Raise e →
            pois = [] ∧ api_response = VDict (mkdict [("error", VStr (exn_str e))]))
    ∧ (∀ data, urlopen_json w url None = Ok data → is_list data = false →
               pois = []
               ∧ api_response
                 = VDict (mkdict [("error", VStr (u "Invalid response format"))])).
Proof.
  intros url. rewrite GeoFacts.search_nearby_poi_run. fold url. cbn [outcome trace].
  destruct (urlopen_json w url None) as [data|e].
  - destruct data as [| | | | | |items| |];
      try (eexists [], _; split_and!; [reflexivity | done | done |];
           by intros ? [= <-] _).
    destruct (collect_pois lat lon (take 15 items)) as [pois|e];
      eexists _, _; (split_and!; [reflexivity | done | done |]);
      by intros ? [= <-] [=].
  - eexists [], _. split_and!; [reflexivity | done | | done]. by intros ? [= <-].
Qed.

(** X8: one candidate that cannot be read among the first 15 of the answer
    (one that is not a JSON object, or whose coordinates do not convert to
    floats) makes the POI list empty, the POIs found before it included:
    [pois] is empty and [api_response] holds the message of the exception
    of the first such candidate. *)
Theorem malformed_candidate_voids_poi_list `{PyRuntime} (w : World) (lat lon : pyval)
    (direction : option float) (good rest : list pyval) (bad : pyval) (e : exn) :
  let url := poi_search_url lat lon in
  urlopen_json w url None = Ok (VList (good ++ bad :: rest)) →
  length good < 15 →
  Forall (fun item => ∃ c, read_candidate lat lon item = Ok c) good →
  read_candidate lat lon bad = Raise e →
  outcome (search_nearby_poi w lat lon direction)
  = Ok (mkdict [("pois", VList []); ("api_url", VStr url);
                ("api_response", VDict (mkdict [("error", VStr (exn_str e))]))])
  ∧ ∀ item, match item with VDict _ => True | _ => read_candidate lat lon item
                                                   = Raise (no_attribute item "get") end.
Proof.
  intros url Hanswer Hlen Hgood Hbad. split; [|by intros []].
  rewrite GeoFacts.search_nearby_poi_run. fold url. cbn [outcome]. rewrite Hanswer.
  rewrite take_app.
  replace (take 15 good) with good by (by rewrite take_ge by lia).
  replace (15 - length good) with (S (14 - length good)) by lia. cbn [take].
  by rewrite (GeoFacts.collect_pois_raise _ _ _ _ _ _ Hgood Hbad).
Qed.

Lemma malformed_candidate_voids_poi_list_witness :
  outcome (search_nearby_poi (H := example_runtime (fun _ => Ok VNone))
             (answering_world (VList [example_poi_far; VStr (u "Tower")]) example_plain_image)
             (VFloat 48) (VFloat 2) None)
  = Ok (mkdict [("pois", VList []);
                ("api_url", VStr (poi_search_url (H := example_runtime (fun _ => Ok VNone))
                                    (VFloat 48) (VFloat 2)));
                ("api_response",
                 VDict (mkdict [("error", VStr (u "'str' object has no attribute 'get'"))]))]).
Proof.
  refine (proj1 (malformed_candidate_voids_poi_list (H := example_runtime (fun _ => Ok VNone))
                   (answering_world (VList [example_poi_far; VStr (u "Tower")])
                      example_plain_image)
                   (VFloat 48) (VFloat 2) None [example_poi_far] [] (VStr (u "Tower"))
                   (no_attribute (VStr (u "Tower")) "get") _ _ _ _)).
  - reflexivity.
  - simpl. lia.
  - constructor; [eexists; by vm_compute | constructor].
  - reflexivity.
Defined.

(** X9: when the POI search answers with a list whose first 15 candidates
    can all be read, the POIs are the records of exactly those of the first
    15 that pass the test (farther than 10 and with a name), one record for
    each, in the order in which the answer lists them: [search_nearby_poi]
    drops the others and does not sort.  [api_response] is then the whole
    answer, the candidates after the fifteenth included. *)
Theorem poi_list_keeps_answer_order `{PyRuntime} (w : World) (lat lon : pyval)
    (direction : option float) (items : list pyval) :
  let passes item :=
    match read_candidate lat lon item with
    | Ok c => included c
    | Raise _ => false
    end in
  urlopen_json w (poi_search_url lat lon) None = Ok (VList items) →
  (∀ item, item ∈ take 15 items → ∃ c, read_candidate lat lon item = Ok c) →
  ∃ result pois,
    outcome (search_nearby_poi w lat lon direction) = Ok result
    ∧ result !! KStr (u "pois") = Some (VList pois)
    ∧ Forall2 (fun item poi =>
                 ∃ c, read_candidate lat lon item = Ok c ∧ included c = true
                      ∧ poi_record item c = Ok poi)
        (List.filter passes (take 15 items)) pois
    ∧ length pois = length (List.filter passes (take 15 items))
    ∧ result !! KStr (u "api_response") = Some (VList items).
Proof.
  intros passes Hanswer Hall. rewrite GeoFacts.search_nearby_poi_run. cbn [outcome].
  rewrite Hanswer. cbn [is_list].
  destruct (GeoFacts.collect_pois_exact _ _ _ Hall) as (pois & -> & Hpois).
  eexists _, pois. split; [reflexivity|].
  split_and!; [by DictFacts.lookup_literal | done | | by DictFacts.lookup_literal].
  symmetry. by apply Forall2_length in Hpois.
Qed.

Lemma poi_list_keeps_answer_order_witness :
  let runtime := example_runtime (fun _ => Ok VNone) in
  let far_record :=
    match read_candidate (H := runtime) (VFloat 48) (VFloat 2) example_poi_far with
    | Ok c => match poi_record (H := runtime) example_poi_far c with
              | Ok poi => poi
              | Raise _ => VNone
              end
    | Raise _ => VNone
    end in
  ∃ result,
    outcome (search_nearby_poi (H := runtime)
               (answering_world (VList [example_poi_near; example_poi_far; example_poi_far])
                  example_plain_image)
               (VFloat 48) (VFloat 2) None) = Ok result
    ∧ result !! KStr (u "pois") = Some (VList [far_record; far_record])
    ∧ result !! KStr (u "api_response")
      = Some (VList [example_poi_near; example_poi_far; example_poi_far]).
Proof.
  intros runtime far_record.
  destruct (poi_list_keeps_answer_order (H := runtime)
              (answering_world (VList [example_poi_near; example_poi_far; example_poi_far])
                 example_plain_image)
              (VFloat 48) (VFloat 2) None
              [example_poi_near; example_poi_far; example_poi_far] eq_refl)
    as (result & pois & Hout & Hpois & Hall & _ & Hanswer).
  { intros item Hitem. cbn [take] in Hitem.
    repeat (apply elem_of_cons in Hitem as [-> | Hitem];
            [match goal with
             | |- ∃ c, ?r = _ =>
                 exists (match r with Ok c => c | Raise _ => Candidate VNone VNone 0 0 0 end)
             end; vm_compute; reflexivity|]).
    by apply elem_of_nil in Hitem. }
  exists result. split; [done|]. split; [|done]. rewrite Hpois. do 2 f_equal.
  assert (List.filter
            (fun item => match read_candidate (H := runtime) (VFloat 48) (VFloat 2) item with
                         | Ok c => included c
                         | Raise _ => false
                         end)
            (take 15 [example_poi_near; example_poi_far; example_poi_far])
          = [example_poi_far; example_poi_far]) as Hkept by (vm_compute; reflexivity).
  rewrite Hkept in Hall.
  apply Forall2_cons_inv_l in Hall as (poi1 & rest1 & (c1 & Hc1 & _ & Hp1) & Hall & ->).
  apply Forall2_cons_inv_l in Hall as (poi2 & rest2 & (c2 & Hc2 & _ & Hp2) & Hall & ->).
  apply Forall2_nil_inv_l in Hall as ->.
  assert (poi2 = poi1) as -> by congruence.
  unfold far_record. by rewrite Hc1, Hp1.
Defined.
Module WikidataFacts.
Section facts.
Context `{PyRuntime}.

(** What [query_wikidata_pois] does and returns, by the answer of the
    endpoint. *)
Lemma query_wikidata_pois_run (w : World) (lat lon radius_km : pyval) :
  let query := wikidata_query lat lon radius_km in
  let failure e :=
    mkdict [("places", VList []); ("query", VStr query); ("raw_response", VNone);
            ("error", VStr (exn_str e))] in
  query_wikidata_pois w lat lon radius_km
  = if SPARQL_AVAILABLE w then
      mkIO [SparqlQuery query]
        (Ok (match sparql_convert w query with
             | Ok results =>
                 match bindings_of results ≫= collect_places with
                 | Ok places =>
                     mkdict [("places", VList places); ("query", VStr query);
                             ("raw_response", results); ("error", VNone)]
                 | Raise e => failure e
                 end
             | Raise e => failure e
             end))
    else
      mkIO [] (Ok (mkdict [("places", VList []);
                           ("error", VStr (u "SPARQLWrapper not installed"));
                           ("query", VNone); ("raw_response", VNone)])).
Proof.
  intros query failure. unfold query_wikidata_pois, catch. fold query.
  destruct (SPARQL_AVAILABLE w); cbn [negb]; [|done].
  cbn [mbind IO_bind mret IO_ret emit lift outcome trace app].
  destruct (sparql_convert w query) as [results|e]; cbn [outcome trace app]; [|done].
  destruct (bindings_of results) as [bindings|e]; cbn [outcome trace app mbind result_bind];
    [|done].
  by destruct (collect_places bindings).
Qed.

(** The loop over the bindings stops at the first that cannot be read. *)
Lemma collect_places_raise good bad rest e :
  Forall (fun binding => ∃ place, place_of_binding binding = Ok place) good →
  place_of_binding bad = Raise e →
  collect_places (good ++ bad :: rest) = Raise e.
Proof.
  intros Hgood Hbad. induction Hgood as [|binding good [place Hp] _ IH];
    cbn [app collect_places].
  - by rewrite Hbad.
  - rewrite Hp. cbn [mbind result_bind]. by rewrite IH.
Qed.

End facts.
End WikidataFacts.

(** ** The Wikidata query, further properties *)

(** X10: [query_wikidata_pois] raises nothing.  Without the SPARQL client
    library it sends nothing and returns the record with no places, no query
    and the error "SPARQLWrapper not installed"; with it, it sends the one
    query, and when the endpoint call fails it returns the record with no
    places, the query text, no raw response and the message of the
    exception. *)
Theorem query_wikidata_pois_always_answers `{PyRuntime} (w : World)
    (lat lon radius_km : pyval) :
  let query := wikidata_query lat lon radius_km in
  ∃ record,
    query_wikidata_pois w lat lon radius_km
    = mkIO (if SPARQL_AVAILABLE w then [SparqlQuery query] else []) (Ok record)
    ∧ (SPARQL_AVAILABLE w = false →
       record = mkdict [("places", VList []);
                        ("error", VStr (u "SPARQLWrapper not installed"));
                        ("query", VNone); ("raw_response", VNone)])
    ∧ (∀ e, SPARQL_AVAILABLE w = true → sparql_convert w query = Raise e →
            record = mkdict [("places", VList []); ("query", VStr query);
                             ("raw_response", VNone); ("error", VStr (exn_str e))]).
Proof.
  intros query. rewrite WikidataFacts.query_wikidata_pois_run. fold query.
  destruct (SPARQL_AVAILABLE w).
  - eexists. split; [reflexivity|]. split; [done|]. by intros e _ ->.
  - eexists. split; [reflexivity|]. by split.
Qed.

(** X11: one row of the answer that cannot be read (a distance that is not
    a number, a cell that is not an object) voids the whole result: the
    places read before it are dropped, and so is the raw response; what is
    returned is the record with no places, the query text, no raw response
    and the message of the exception of the first such row. *)
Theorem malformed_binding_voids_places `{PyRuntime} (w : World)
    (lat lon radius_km results : pyval) (good rest : list pyval) (bad : pyval) (e : exn) :
  let query := wikidata_query lat lon radius_km in
  SPARQL_AVAILABLE w = true →
  sparql_convert w query = Ok results →
  bindings_of results = Ok (good ++ bad :: rest) →
  Forall (fun binding => ∃ place, place_of_binding binding = Ok place) good →
  place_of_binding bad = Raise e →
  outcome (query_wikidata_pois w lat lon radius_km)
  = Ok (mkdict [("places", VList []); ("query", VStr query); ("raw_response", VNone);
                ("error", VStr (exn_str e))]).
Proof.
  intros query Havailable Hanswer Hbindings Hgood Hbad.
  rewrite WikidataFacts.query_wikidata_pois_run. fold query.
  rewrite Havailable. cbn [outcome]. rewrite Hanswer, Hbindings. cbn [mbind result_bind].
  by rewrite (WikidataFacts.collect_places_raise _ _ _ _ Hgood Hbad).
Qed.

Lemma malformed_binding_voids_places_witness :
  let runtime := example_runtime (fun _ => Ok VNone) in
  outcome (query_wikidata_pois (H := runtime)
             (answering_world example_broken_sparql_answer example_plain_image)
             (VFloat 52.5) (VFloat 13.5) (VInt 1))
  = Ok (mkdict [("places", VList []);
                ("query", VStr (wikidata_query (H := runtime) (VFloat 52.5) (VFloat 13.5)
                                  (VInt 1)));
                ("raw_response", VNone);
                ("error", VStr (u "could not convert string to float: 'near'"))]).
Proof.
  intros runtime.
  refine (malformed_binding_voids_places (H := runtime)
            (answering_world example_broken_sparql_answer example_plain_image)
            (VFloat 52.5) (VFloat 13.5) (VInt 1) example_broken_sparql_answer
            [example_binding "city"] [] example_broken_binding
            (Exn ValueError (u "could not convert string to float: 'near'")) _ _ _ _ _).
  - reflexivity.
  - reflexivity.
  - by vm_compute.
  - constructor; [|constructor].
    exists (match place_of_binding (H := runtime) (example_binding "city") with
            | Ok place => place
            | Raise _ => VNone
            end).
    by vm_compute.
  - by vm_compute.
Defined.
Module ServiceFacts.
Section facts.
Context `{PyRuntime}.

(** A dict that has a key is not empty. *)
Lemma dict_truthy (d : dict) k v : d !! k = Some v → py_truthy (VDict d) = true.
Proof.
  intros Hk. cbn [py_truthy]. rewrite bool_decide_eq_false_2; [done|].
  intros Hd. apply dom_empty_iff_L in Hd. subst d. by rewrite lookup_empty in Hk.
Qed.



(** Only the first ten places reach the prompt. *)
Lemma wikidata_context_first_ten (places : list pyval) :
  wikidata_context (VList places) = wikidata_context (VList (take 10 places)).
Proof.
  unfold wikidata_context. cbn [py_truthy py_len py_slice_to py_iter].
  rewrite take_take. change (10 `min` 10) with 10.
  by destruct places as [|p places].
Qed.

End facts.
End ServiceFacts.

Module TextFacts.
Section sequences.
Context {A : Type} `{EqDecision A}.
Implicit Types (s p sep x y r cur word : list A) (c a : A).

(** *** [split()] with no argument *)

Lemma fields_word (ws : A → bool) cur word s :
  Forall (fun c => ws c = false) word →
  Py.fields ws cur (word ++ s) = Py.fields ws (rev word ++ cur) s.
Proof.
  intros Hword. revert cur. induction Hword as [|a word Ha _ IH]; intros cur; [done|].
  cbn [app Py.fields]. rewrite Ha, IH. cbn [rev]. by rewrite <- app_assoc.
Qed.

Lemma fields_blank (ws : A → bool) s :
  Forall (fun c => ws c = true) s → Py.fields ws [] s = [].
Proof. induction 1 as [|a s Ha _ IH]; [done|]. cbn [Py.fields]. by rewrite Ha. Qed.

(** A word followed by a separator is the first field. *)
Lemma fields_first (ws : A → bool) word c s :
  word ≠ [] → Forall (fun c => ws c = false) word → ws c = true →
  Py.fields ws [] (word ++ c :: s) = word :: Py.fields ws [] s.
Proof.
  intros Hne Hword Hc. rewrite fields_word by done. rewrite app_nil_r.
  cbn [Py.fields]. rewrite Hc, rev_involutive.
  destruct (rev word) eqn:E; [|done].
  apply (f_equal (@rev A)) in E. rewrite rev_involutive in E. by subst.
Qed.

Lemma fields_last (ws : A → bool) word :
  word ≠ [] → Forall (fun c => ws c = false) word → Py.fields ws [] word = [word].
Proof.
  intros Hne Hword. rewrite <- (app_nil_r word) at 1. rewrite fields_word by done.
  rewrite app_nil_r. cbn [Py.fields]. rewrite rev_involutive.
  destruct (rev word) eqn:E; [|done].
  apply (f_equal (@rev A)) in E. rewrite rev_involutive in E. by subst.
Qed.

(** The fields are words: not empty, with no separator inside. *)
Lemma fields_words (ws : A → bool) cur s :
  Forall (fun c => ws c = false) cur → Forall (fun word => word ≠ [] ∧ Forall (fun c => ws c = false) word) (Py.fields ws cur s).
Proof.
  revert cur. induction s as [|a s IH]; intros cur Hcur; cbn [Py.fields].
  - destruct cur as [|c cur]; [constructor|]. constructor; [|constructor]. split.
    + intros E. apply (f_equal (@length A)) in E. rewrite length_rev in E. done.
    + by apply Forall_rev.
  - destruct (ws a) eqn:Ha.
    + destruct cur as [|c cur]; [by apply IH|]. constructor; [|by apply IH]. split.
      * intros E. apply (f_equal (@length A)) in E. rewrite length_rev in E. done.
      * by apply Forall_rev.
    + apply IH. by constructor.
Qed.

(** Joining words with one separator and splitting again gives the words
    back. *)
Lemma fields_join (ws : A → bool) c words :
  ws c = true → Forall (fun word => word ≠ [] ∧ Forall (fun c => ws c = false) word) words →
  Py.fields ws [] (Py.join [c] words) = words.
Proof.
  intros Hc. induction 1 as [|word words [Hne Hword] Hwords IH]; [done|].
  destruct words as [|word' words].
  - cbn [Py.join]. by apply fields_last.
  - change (Py.join [c] (word :: word' :: words))
      with (word ++ c :: Py.join [c] (word' :: words)).
    rewrite fields_first by done. by rewrite IH.
Qed.

(** Words joined by a separator begin and end with an element of a
    word. *)
Lemma join_words_head (ws : A → bool) sep words a :
  Forall (fun word => word ≠ [] ∧ Forall (fun c => ws c = false) word) words →
  head (Py.join sep words) = Some a → ws a = false.
Proof.
  intros Hwords. destruct Hwords as [|word words [Hne Hword] _]; [done|].
  destruct word as [|a' word]; [done|].
  apply Forall_cons in Hword as [Ha' _].
  destruct words; cbn [Py.join app head]; by intros [= <-].
Qed.

Lemma join_words_last (ws : A → bool) sep words a :
  Forall (fun word => word ≠ [] ∧ Forall (fun c => ws c = false) word) words →
  last (Py.join sep words) = Some a → ws a = false.
Proof.
  induction 1 as [|word words [Hne Hword] Hwords IH]; [done|].
  destruct words as [|word' words].
  - cbn [Py.join]. intros Hlast. apply last_Some_elem_of in Hlast.
    by apply (proj1 (Forall_forall _ _) Hword).
  - change (Py.join sep (word :: word' :: words))
      with (word ++ sep ++ Py.join sep (word' :: words)).
    rewrite !last_app.
    destruct (last (Py.join sep (word' :: words))) as [y|] eqn:Hy.
    + intros [= <-]. by apply IH.
    + apply last_None in Hy. apply Forall_cons in Hwords as [[Hne' _] _].
      destruct word' as [|? ?]; [done|]. by destruct words.
Qed.

Lemma elem_of_rev s a : a ∈ rev s → a ∈ s.
Proof. rewrite rev_alt. apply elem_of_reverse. Qed.

Lemma join_elem sep (pieces : list (list A)) a :
  a ∈ Py.join sep pieces → a ∈ sep ∨ ∃ piece, piece ∈ pieces ∧ a ∈ piece.
Proof.
  induction pieces as [|piece pieces IH]; [by intros ?%elem_of_nil|].
  destruct pieces as [|piece' pieces].
  - cbn [Py.join]. intros Ha. right. exists piece. split; [apply list_elem_of_here | done].
  - change (Py.join sep (piece :: piece' :: pieces))
      with (piece ++ sep ++ Py.join sep (piece' :: pieces)).
    rewrite !elem_of_app. intros [Ha | [Ha | Ha]].
    + right. exists piece. split; [apply list_elem_of_here | done].
    + by left.
    + destruct (IH Ha) as [? | (p & Hp & ?)]; [by left|].
      right. exists p. split; [by apply list_elem_of_further | done].
Qed.

Lemma fields_elem (ws : A → bool) cur s word a :
  word ∈ Py.fields ws cur s → a ∈ word → a ∈ cur ∨ a ∈ s.
Proof.
  revert cur. induction s as [|b s IH]; intros cur; cbn [Py.fields].
  - destruct cur as [|c cur]; [by intros ?%elem_of_nil|].
    intros ->%list_elem_of_singleton Ha. left. by apply elem_of_rev in Ha.
  - destruct (ws b).
    + destruct cur as [|c cur].
      * intros Hw Ha. destruct (IH [] Hw Ha) as [?%elem_of_nil | ?]; [done|].
        right. by apply list_elem_of_further.
      * intros [-> | Hw]%elem_of_cons Ha.
        -- left. by apply elem_of_rev in Ha.
        -- destruct (IH [] Hw Ha) as [?%elem_of_nil | ?]; [done|].
           right. by apply list_elem_of_further.
    + intros Hw Ha. destruct (IH (b :: cur) Hw Ha) as [[-> | ?]%elem_of_cons | ?].
      * right. apply list_elem_of_here.
      * by left.
      * right. by apply list_elem_of_further.
Qed.

(** *** [strip] and [replace] add nothing *)

Lemma drop_while_elem (f : A → bool) s a : a ∈ Py.drop_while f s → a ∈ s.
Proof.
  induction s as [|b s IH]; cbn [Py.drop_while]; [done|].
  destruct (f b); [|done]. intros Ha. apply list_elem_of_further. by apply IH.
Qed.

Lemma strip_by_elem (f : A → bool) s a : a ∈ Py.strip_by f s → a ∈ s.
Proof.
  unfold Py.strip_by. intros Ha. apply elem_of_rev in Ha.
  apply drop_while_elem in Ha. apply elem_of_rev in Ha. by apply drop_while_elem in Ha.
Qed.

Lemma split_fuel_elem n sep s piece a :
  piece ∈ Py.split_fuel n sep s → a ∈ piece → a ∈ s.
Proof.
  revert s. induction n as [|n IH]; intros s; cbn [Py.split_fuel].
  - by intros ->%list_elem_of_singleton.
  - destruct (Py.find sep s) as [i|]; [|by intros ->%list_elem_of_singleton].
    intros [-> | Hp]%elem_of_cons Ha.
    + rewrite <- (take_drop i s). apply elem_of_app. by left.
    + rewrite <- (take_drop (i + length sep) s). apply elem_of_app. right. by apply IH.
Qed.

Lemma replace_elem old new s a : a ∈ Py.replace old new s → a ∈ new ∨ a ∈ s.
Proof.
  unfold Py.replace, Py.split. intros Ha.
  destruct (join_elem _ _ _ Ha) as [? | (piece & Hp & Hpa)]; [by left|].
  right. by apply (split_fuel_elem _ _ _ _ _ Hp).
Qed.

(** *** [replace] of a single element *)

Lemma find_single_cons_ne c a s : a ≠ c → Py.find [c] (a :: s) = S <$> Py.find [c] s.
Proof.
  intros Hne. cbn [Py.find Py.starts_with].
  rewrite bool_decide_eq_false_2 by (by intros ->). done.
Qed.

Lemma split_single_cons_ne c a s :
  a ≠ c →
  Py.split [c] (a :: s)
  = match Py.split [c] s with
    | piece :: rest => (a :: piece) :: rest
    | [] => [[a]]
    end.
Proof.
  intros Hne. pose proof (find_single_cons_ne c a s Hne) as Hfind.
  destruct (Py.find [c] s) as [i|] eqn:E.
  - rewrite (PyFacts.split_cons [c] (a :: s) (S i)) by done.
    by rewrite (PyFacts.split_cons [c] s i) by done.
  - by rewrite !PyFacts.split_singleton.
Qed.

(** Replacing one element is a substitution, element by element. *)
Lemma replace_single c new s :
  Py.replace [c] new s = s ≫= (fun a => if decide (a = c) then new else [a]).
Proof.
  unfold Py.replace. induction s as [|a s IH]; [done|].
  cbn [mbind list_bind]. rewrite <- IH. destruct (decide (a = c)) as [-> | Hne].
  - change (c :: s) with ([c] ++ s). rewrite PyFacts.split_here by done.
    destruct (PyFacts.split_nonempty [c] s) as (piece & rest & ->). done.
  - rewrite split_single_cons_ne by done.
    destruct (PyFacts.split_nonempty [c] s) as (piece & rest & ->).
    by destruct rest.
Qed.

Lemma replace_single_delete c s :
  Py.replace [c] [] s = filter (fun a => a ≠ c) s.
Proof.
  rewrite replace_single. induction s as [|a s IH]; [done|].
  cbn [mbind list_bind]. rewrite IH, filter_cons.
  by destruct (decide (a = c)), (decide (a ≠ c)).
Qed.

End sequences.
End TextFacts.

Module SuggestFacts.
Section facts.
Context `{PyRuntime}.

Lemma forallb_Forall {A} (f : A → bool) (l : list A) :
  forallb f l = true → Forall (fun a => f a = true) l.
Proof.
  induction l as [|a l IH]; cbn [forallb]; [constructor|].
  intros [? ?]%andb_true_iff. constructor; [done | by apply IH].
Qed.

Lemma not_space_Forall (s : str) :
  forallb (fun c => negb (isspace c)) s = true → Forall (fun c => isspace c = false) s.
Proof.
  intros Hs. apply forallb_Forall in Hs. eapply Forall_impl; [exact Hs|].
  intros c Hc. by apply negb_true_iff.
Qed.

(** The place that the prompts name: the city, else the town, else the
    village. *)
Lemma locality_first (addr : dict) (place : pyval) :
  (addr !! KStr (u "city") = Some place
   ∨ py_truthy (default VNone (addr !! KStr (u "city"))) = false
     ∧ (addr !! KStr (u "town") = Some place
        ∨ py_truthy (default VNone (addr !! KStr (u "town"))) = false
          ∧ addr !! KStr (u "village") = Some place)) →
  py_truthy place = true →
  locality (VDict addr) = Ok place.
Proof.
  intros Hplace Htruthy. unfold locality. cbn [py_get mbind result_bind].
  destruct Hplace as [-> | [-> [-> | [-> ->]]]];
    cbn [default from_option id]; by rewrite ?Htruthy.
Qed.

Lemma address_of_dict (ld loc : dict) (addr : pyval) :
  ld !! KStr (u "data") = Some (VDict loc) →
  loc !! KStr (u "address") = Some addr →
  address_of (VDict ld) = Ok (Some addr).
Proof.
  intros Hdata Haddr. unfold address_of.
  rewrite (ServiceFacts.dict_truthy _ _ _ Hdata). cbn [py_get py_item mbind result_bind].
  rewrite Hdata. cbn [default from_option id].
  rewrite (ServiceFacts.dict_truthy _ _ _ Haddr). cbn [py_get mbind result_bind].
  by rewrite Haddr.
Qed.

Lemma date_part_blank (s : str) :
  32%N ∈ s → forallb isspace s = true →
  date_part_of (VStr s) = Raise index_out_of_range.
Proof.
  intros Hspace Hblank. unfold date_part_of.
  assert (py_truthy (VStr s) = true) as ->.
  { destruct s; [by apply elem_of_nil in Hspace | done]. }
  cbn [py_in mbind result_bind].
  apply list_elem_of_split in Hspace as (x & y & ->).
  change (u " ") with [32%N].
  rewrite (PyFacts.contains_true [32%N] x y).
  unfold split_ws. rewrite TextFacts.fields_blank; [done|].
  by apply forallb_Forall.
Qed.

End facts.
End SuggestFacts.

(** ** The description and language services, further properties *)



(** X13: when the image file cannot be read, no request is sent to the
    vision model: the function does nothing after the attempt to read, and
    returns the failure record with the message of the exception. *)
Theorem vision_unreadable_image `{PyRuntime} (w : World) (image_path : str)
    (exif_data location_data wikidata_places : pyval) (e : exn) :
  read_file w image_path = Raise e →
  analyze_image_with_ollama w image_path exif_data location_data wikidata_places
  = mkIO [FileRead image_path]
      (Ok (mkdict [("description", VNone);
                   ("error",
                    VStr (match exn_kind e with
                          | URLError =>
                              u "Failed to connect to Ollama. Is it running? Error: "
                              ++ exn_str e
                          | _ => exn_str e
                          end));
                   ("model", VStr OLLAMA_MODEL)])).
Proof.
  intros Hread. unfold analyze_image_with_ollama, catch.
  cbn [mbind IO_bind mret IO_ret emit lift outcome trace].
  rewrite Hread. reflexivity.
Qed.

Lemma vision_unreadable_image_witness :
  analyze_image_with_ollama (H := example_runtime (fun _ => Ok VNone))
    (broken_world example_missing_file) (u "uploads/photo.jpg") VNone VNone VNone
  = mkIO [FileRead (u "uploads/photo.jpg")]
      (Ok (mkdict [("description", VNone);
                   ("error", VStr (exn_str example_missing_file));
                   ("model", VStr OLLAMA_MODEL)])).
Proof.
  exact (vision_unreadable_image (H := example_runtime (fun _ => Ok VNone))
           (broken_world example_missing_file) (u "uploads/photo.jpg") VNone VNone VNone
           example_missing_file eq_refl).
Defined.

(** X14: the requests that [analyze_image_with_ollama] sends and what it
    returns depend neither on the EXIF record it is given nor on the places
    after the tenth: only the first ten places are listed in the prompt. *)
Theorem vision_uses_first_ten_places `{PyRuntime} (w : World) (image_path : str)
    (exif_data exif_data' location_data : pyval) (places : list pyval) :
  analyze_image_with_ollama w image_path exif_data location_data (VList places)
  = analyze_image_with_ollama w image_path exif_data' location_data
      (VList (take 10 places))
  ∧ vision_prompt location_data (VList places)
    = vision_prompt location_data (VList (take 10 places)).
Proof.
  assert (vision_prompt location_data (VList places)
          = vision_prompt location_data (VList (take 10 places))) as Hprompt.
  { unfold vision_prompt. by rewrite ServiceFacts.wikidata_context_first_ten. }
  split; [|done]. unfold analyze_image_with_ollama. by rewrite Hprompt.
Qed.

(** X15: the place that the prompts name is the address's city, or its town
    when it has no city, or its village when it has neither.  With such a
    place and a country, the vision prompt says "This photo was taken in
    <place>, <country>. ", and the filename prompt's hint is " in <place>":
    the country is named there only when there is no place. *)
Theorem prompts_name_the_locality `{PyRuntime} (ld loc addr : dict) (place country : str) :
  ld !! KStr (u "data") = Some (VDict loc) →
  loc !! KStr (u "address") = Some (VDict addr) →
  (addr !! KStr (u "city") = Some (VStr place)
   ∨ py_truthy (default VNone (addr !! KStr (u "city"))) = false
     ∧ (addr !! KStr (u "town") = Some (VStr place)
        ∨ py_truthy (default VNone (addr !! KStr (u "town"))) = false
          ∧ addr !! KStr (u "village") = Some (VStr place))) →
  place ≠ [] →
  addr !! KStr (u "country") = Some (VStr country) →
  country ≠ [] →
  location_context_of (VDict ld) = Ok (place ++ u ", " ++ country)
  ∧ location_hint_of (VDict ld) = Ok (u " in " ++ place)
  ∧ vision_prompt (VDict ld) VNone
    = Ok (u "Describe what you see in this image in one clear sentence (maximum 25 words). "
          ++ u "Your description should naturally include the main subject AND the location. "
          ++ (u "This photo was taken in " ++ (place ++ u ", " ++ country) ++ u ". ")
          ++ [LF; LF]
          ++ u "Provide a single integrated sentence that describes the subject and location together. "
          ++ u "Do not split this into separate parts - make it one flowing sentence.").
Proof.
  intros Hdata Haddr Hplace Hne Hcountry Hne'.
  assert (py_truthy (VStr place) = true) as Htruthy by by destruct place.
  assert (py_truthy (VStr country) = true) as Htruthy' by by destruct country.
  pose proof (SuggestFacts.locality_first addr (VStr place) Hplace Htruthy) as Hlocality.
  pose proof (SuggestFacts.address_of_dict ld loc (VDict addr) Hdata Haddr) as Haddress.
  assert (location_context_of (VDict ld) = Ok (place ++ u ", " ++ country)) as Hcontext.
  { unfold location_context_of. rewrite Haddress. cbn [mbind result_bind].
    rewrite Hlocality. cbn [mbind result_bind]. rewrite Htruthy.
    cbn [mbind result_bind mret result_ret py_get]. rewrite Hcountry.
    cbn [default from_option id]. rewrite Htruthy'.
    unfold str_join. cbn [mbind result_bind mret result_ret app str_join_from].
    reflexivity. }
  split_and!; [done | |].
  - unfold location_hint_of. rewrite Haddress. cbn [mbind result_bind].
    rewrite Hlocality. cbn [mbind result_bind mret result_ret py_get].
    by rewrite Htruthy.
  - unfold vision_prompt. rewrite Hcontext.
    cbn [mbind result_bind mret result_ret wikidata_context py_truthy andb].
    assert (truthy (place ++ u ", " ++ country) = true) as -> by by destruct place.
    reflexivity.
Qed.

Lemma prompts_name_the_locality_witness :
  location_hint_of (H := example_runtime (fun _ => Ok VNone)) example_location
  = Ok (u " in Potsdam").
Proof.
  refine (proj1 (proj2
            (prompts_name_the_locality (H := example_runtime (fun _ => Ok VNone))
               (mkdict [("data", VDict (mkdict [("address", example_address)]))])
               (mkdict [("address", example_address)])
               (mkdict [("town", VStr (u "Potsdam")); ("village", VStr (u "Golm"));
                        ("country", VStr (u "Germany"))])
               (u "Potsdam") (u "Germany") _ _ _ _ _ _))).
  - by vm_compute.
  - by vm_compute.
  - right. split; [by vm_compute|]. left. by vm_compute.
  - done.
  - by vm_compute.
  - done.
Defined.



(** ** The filename suggestion, further properties *)

(** X17: the date part of a filename is the first field of the date string:
    what stands before its first space, when that is not empty and has no
    whitespace in it.  A date string with no space (U+0020) in it is taken
    whole, whatever else it holds. *)
Theorem date_part_is_first_field (date rest : str) :
  date ≠ [] →
  forallb (fun c => negb (isspace c)) date = true →
  date_part_of (VStr (date ++ u " " ++ rest)) = Ok (VStr date)
  ∧ date_part_of (VStr date) = Ok (VStr date)
  ∧ ∀ s, 32%N ∉ s → date_part_of (VStr s) = Ok (VStr s).
Proof.
  intros Hne Hdate. apply SuggestFacts.not_space_Forall in Hdate.
  assert (32%N ∉ date) as Hnone.
  { intros Hin. by apply (proj1 (Forall_forall _ _) Hdate) in Hin. }
  assert (∀ s, 32%N ∉ s → date_part_of (VStr s) = Ok (VStr s)) as Hwhole.
  { intros s Hs. unfold date_part_of. destruct s as [|c s]; [done|].
    assert (py_truthy (VStr (c :: s)) = true) as -> by done.
    cbn [py_in mbind result_bind]. unfold Py.contains. change (u " ") with [32%N].
    by rewrite PyFacts.find_single_None. }
  split_and!.
  - unfold date_part_of.
    assert (py_truthy (VStr (date ++ u " " ++ rest)) = true) as -> by by destruct date.
    cbn [py_in mbind result_bind]. rewrite PyFacts.contains_true.
    unfold split_ws. change (u " " ++ rest) with (32%N :: rest).
    by rewrite TextFacts.fields_first.
  - by apply Hwhole.
  - exact Hwhole.
Qed.

Lemma date_part_is_first_field_witness :
  date_part_of (VStr (u "2025-10-30" ++ u " " ++ u "08-01-42")) = Ok (VStr (u "2025-10-30")).
Proof.
  exact (proj1 (date_part_is_first_field (u "2025-10-30") (u "08-01-42")
                  ltac:(done) eq_refl)).
Defined.

(** X18: a date string that is made of whitespace and has a space in it
    makes [suggest_filename] return null without any request to the model:
    the first field of such a string does not exist, and the [IndexError] is
    caught with every other exception. *)
Theorem blank_date_gives_no_suggestion `{PyRuntime} (w : World)
    (description location_data : pyval) (date_str : str) :
  32%N ∈ date_str →
  forallb isspace date_str = true →
  suggest_filename w description (VStr date_str) location_data = mkIO [] (Ok VNone).
Proof.
  intros Hspace Hblank. unfold suggest_filename, catch.
  cbn [mbind IO_bind mret IO_ret emit lift outcome trace].
  destruct (location_hint_of location_data) as [hint|e]; cbn [outcome trace app]; [|done].
  by rewrite (SuggestFacts.date_part_blank _ Hspace Hblank).
Qed.

Lemma blank_date_gives_no_suggestion_witness :
  suggest_filename (H := example_runtime (fun _ => Ok VNone))
    (answering_world example_chat_reply example_plain_image)
    (VStr (u "A bridge.")) (VStr (u "  ")) VNone
  = mkIO [] (Ok VNone).
Proof.
  apply (blank_date_gives_no_suggestion (H := example_runtime (fun _ => Ok VNone))
           (answering_world example_chat_reply example_plain_image)
           (VStr (u "A bridge.")) VNone (u "  "));
    [apply list_elem_of_here | reflexivity].
Defined.

(** X19: the words that [suggest_filename] makes of the model's reply are in
    normal form: they contain no hyphen, their only whitespace is the single
    space, and splitting them at whitespace and joining the fields with one
    space gives them back (so no space stands at either end or next to
    another). *)
Theorem clean_filename_base_normal_form `{PyRuntime} (content : str) :
  let words := clean_filename_base content in
  (45%N ∉ words)
  ∧ (∀ c, c ∈ words → isspace c = true → c = 32%N)
  ∧ Py.join (u " ") (split_ws words) = words
  ∧ strip_ws words = words.
Proof.
  intros words. unfold clean_filename_base in words.
  set (s1 := Py.replace (u "-") (u " ") (str_lower content)) in words.
  set (s2 := Py.strip ([DQUOTE; SQUOTE] ++ u ".,!?") s1) in words.
  set (s3 := Py.replace (u "end_of_turn>") [] s2) in words.
  set (s4 := Py.replace (u "<end_of_turn>") [] s3) in words.
  set (s5 := Py.replace (u "</s>") [] s4) in words.
  set (s6 := Py.replace (u "<s>") [] s5) in words.
  assert (Forall (fun word => word ≠ [] ∧ Forall (fun c => isspace c = false) word)
            (split_ws s6)) as Hfields by (by apply TextFacts.fields_words).
  assert (split_ws words = split_ws s6) as Hsplit.
  { unfold words, split_ws at 1. change (u " ") with [32%N].
    by apply TextFacts.fields_join. }
  assert (∀ c, c ∈ words → c = 32%N ∨ c ∈ s6) as Helem.
  { intros c Hc. unfold words in Hc.
    destruct (TextFacts.join_elem _ _ _ Hc) as [Hsep | (word & Hword & Hcw)].
    - left. by apply list_elem_of_singleton in Hsep.
    - right. unfold split_ws in Hword.
      by destruct (TextFacts.fields_elem _ _ _ _ _ Hword Hcw) as [?%elem_of_nil | ?]. }
  split_and!.
  - intros Hhyphen. destruct (Helem _ Hhyphen) as [? | H6]; [done|].
    assert (∀ old s, 45%N ∈ Py.replace old [] s → 45%N ∈ s) as Hdel.
    { intros old s Hin. by destruct (TextFacts.replace_elem _ _ _ _ Hin) as [?%elem_of_nil | ?]. }
    apply Hdel, Hdel, Hdel, Hdel in H6. apply TextFacts.strip_by_elem in H6.
    unfold s1 in H6. change (u "-") with [45%N] in H6.
    rewrite TextFacts.replace_single in H6.
    apply list_elem_of_bind in H6 as (a & Ha & _).
    destruct (decide (a = 45%N)) as [-> | Hne].
    + by apply list_elem_of_singleton in Ha.
    + apply list_elem_of_singleton in Ha. by subst.
  - intros c Hc Hspace. unfold words in Hc.
    destruct (TextFacts.join_elem _ _ _ Hc) as [Hsep | (word & Hword & Hcw)].
    + by apply list_elem_of_singleton in Hsep.
    + apply (proj1 (Forall_forall _ _) Hfields) in Hword as [_ Hword].
      apply (proj1 (Forall_forall _ _) Hword) in Hcw. congruence.
  - by rewrite Hsplit.
  - unfold strip_ws. apply PyFacts.strip_by_id.
    + intros c. by apply TextFacts.join_words_head.
    + intros c. by apply TextFacts.join_words_last.
Qed.
Module EndpointFacts.
Section facts.
Context `{PyRuntime} (w : World).

Lemma do_POST_translate req :
  path req = u "/translate" → do_POST w req = post_translate w req.
Proof. intros Hpath. unfold do_POST. by rewrite Hpath, bool_decide_eq_true_2. Qed.

Lemma do_POST_suggest_filename req :
  path req = u "/suggest-filename" → do_POST w req = post_suggest_filename w req.
Proof.
  intros Hpath. unfold do_POST. rewrite Hpath.
  rewrite !bool_decide_eq_false_2 by HandlerFacts.str_neq.
  by rewrite bool_decide_eq_true_2.
Qed.

Lemma do_POST_vision req :
  path req = u "/upload/vision" → do_POST w req = post_vision w req.
Proof.
  intros Hpath. unfold do_POST. rewrite Hpath.
  rewrite !bool_decide_eq_false_2 by HandlerFacts.str_neq.
  by rewrite bool_decide_eq_true_2.
Qed.

Lemma do_POST_wikidata_pois req :
  path req = u "/wikidata-pois" → do_POST w req = post_wikidata_pois w req.
Proof.
  intros Hpath. unfold do_POST. rewrite Hpath.
  rewrite !bool_decide_eq_false_2 by HandlerFacts.str_neq.
  by rewrite bool_decide_eq_true_2.
Qed.

Lemma do_POST_upload req :
  path req = u "/upload" → do_POST w req = post_upload w req.
Proof.
  intros Hpath. unfold do_POST. rewrite Hpath.
  rewrite !bool_decide_eq_false_2 by HandlerFacts.str_neq.
  by rewrite bool_decide_eq_true_2.
Qed.




Lemma reverse_geocode_returns lat lon :
  ∃ location, outcome (reverse_geocode w lat lon) = Ok location.
Proof. rewrite GeoFacts.reverse_geocode_run. by eexists. Qed.

Lemma search_nearby_poi_returns lat lon direction :
  ∃ pois, outcome (search_nearby_poi w lat lon direction) = Ok pois.
Proof. rewrite GeoFacts.search_nearby_poi_run. by eexists. Qed.

End facts.
End EndpointFacts.

(** ** The request handler, further properties *)

(** X20: a request whose required field is missing, null or empty is
    refused with status 400 before anything else is done: [text] and
    [language] for a translation, [description] for a filename suggestion.
    No request goes to the model. *)
Theorem missing_required_field_is_refused `{PyRuntime} (w : World) (req : request)
    (data : dict) :
  let absent k := py_truthy (default VNone (data !! KStr (u k))) = false in
  json_loads (body req) = Ok (VDict data) →
  (path req = u "/translate" → absent "text" ∨ absent "language" →
   do_POST w req = mkIO [] (Ok (ErrorResponse 400 (u "Missing text or language"))))
  ∧ (path req = u "/suggest-filename" → absent "description" →
     do_POST w req = mkIO [] (Ok (ErrorResponse 400 (u "Missing description")))).
Proof.
  intros absent Hbody. split.
  - intros Hpath Habsent. rewrite EndpointFacts.do_POST_translate by done.
    unfold post_translate, catch.
    cbn [mbind IO_bind mret IO_ret emit lift outcome trace]. rewrite Hbody.
    cbn [outcome trace py_get].
    unfold absent in Habsent.
    destruct Habsent as [E | E]; rewrite E; cbn [negb orb]; by rewrite ?orb_true_r.
  - intros Hpath Habsent. rewrite EndpointFacts.do_POST_suggest_filename by done.
    unfold post_suggest_filename, catch.
    cbn [mbind IO_bind mret IO_ret emit lift outcome trace]. rewrite Hbody.
    cbn [outcome trace py_get]. unfold absent in Habsent. by rewrite Habsent.
Qed.

Lemma missing_required_field_is_refused_witness :
  do_POST (H := example_runtime (fun _ => Ok (VDict (mkdict [("text", VStr (u "A bridge."))]))))
    (answering_world example_chat_reply example_plain_image)
    (Request (u "/translate") (Some (u "application/json")) [])
  = mkIO [] (Ok (ErrorResponse 400 (u "Missing text or language"))).
Proof.
  refine (proj1 (missing_required_field_is_refused
                   (H := example_runtime
                           (fun _ => Ok (VDict (mkdict [("text", VStr (u "A bridge."))]))))
                   (answering_world example_chat_reply example_plain_image)
                   (Request (u "/translate") (Some (u "application/json")) [])
                   (mkdict [("text", VStr (u "A bridge."))]) eq_refl) eq_refl _).
  right. by vm_compute.
Defined.

(** X21: a translation request whose [language] is not a string (a number,
    a list, an object, [true]) is answered with status 500 and the message
    of the [AttributeError] that [target_language.upper()] raises, in the
    console line that [translate_text] writes before its [try]; no request
    goes to the model. *)
Theorem translate_language_must_be_text `{PyRuntime} (w : World) (req : request)
    (data : dict) (text language : pyval) :
  path req = u "/translate" →
  json_loads (body req) = Ok (VDict data) →
  data !! KStr (u "text") = Some text →
  py_truthy text = true →
  data !! KStr (u "language") = Some language →
  py_truthy language = true →
  match language with VStr _ | VBytes _ => False | _ => True end →
  do_POST w req
  = mkIO [] (Ok (JsonResponse 500 (VDict (mkdict
      [("success", VBool false);
       ("error", VStr (u ("'" ++ type_name language
                          ++ "' object has no attribute 'upper'")))])))).
Proof.
  intros Hpath Hbody Htext Htruthy Hlanguage Htruthy' Hkind.
  rewrite EndpointFacts.do_POST_translate by done.
  unfold post_translate, catch.
  cbn [mbind IO_bind mret IO_ret emit lift outcome trace]. rewrite Hbody.
  cbn [outcome trace py_get]. rewrite Htext, Hlanguage.
  cbn [default from_option id]. rewrite Htruthy, Htruthy'. cbn [negb orb].
  unfold translate_text.
  by destruct language.
Qed.

Lemma translate_language_must_be_text_witness :
  do_POST (H := example_runtime
                  (fun _ => Ok (VDict (mkdict [("text", VStr (u "A bridge."));
                                               ("language", VInt 5)]))))
    (answering_world example_chat_reply example_plain_image)
    (Request (u "/translate") (Some (u "application/json")) [])
  = mkIO [] (Ok (JsonResponse 500 (VDict (mkdict
      [("success", VBool false);
       ("error", VStr (u "'int' object has no attribute 'upper'"))])))).
Proof.
  apply (translate_language_must_be_text
           (H := example_runtime
                   (fun _ => Ok (VDict (mkdict [("text", VStr (u "A bridge."));
                                                ("language", VInt 5)]))))
           (answering_world example_chat_reply example_plain_image)
           (Request (u "/translate") (Some (u "application/json")) [])
           (mkdict [("text", VStr (u "A bridge.")); ("language", VInt 5)])
           (VStr (u "A bridge.")) (VInt 5));
    first [exact I | by vm_compute].
Defined.

(** X22: a POST to any path other than the five endpoints is answered with
    status 404 "Not Found", and nothing is done for it. *)
Theorem unknown_path_is_not_found `{PyRuntime} (w : World) (req : request) :
  path req ∉ [u "/translate"; u "/suggest-filename"; u "/upload/vision";
              u "/wikidata-pois"; u "/upload"] →
  do_POST w req = mkIO [] (Ok (ErrorResponse 404 (u "Not Found"))).
Proof.
  intros Hpath. unfold do_POST.
  rewrite !bool_decide_eq_false_2; [done | | | | |];
    intros E; apply Hpath; rewrite E; DecoderFacts.in_list.
Qed.

Lemma unknown_path_is_not_found_witness :
  do_POST (H := example_runtime (fun _ => Ok VNone))
    (answering_world example_chat_reply example_plain_image)
    (Request (u "/") None [])
  = mkIO [] (Ok (ErrorResponse 404 (u "Not Found"))).
Proof.
  apply (unknown_path_is_not_found (H := example_runtime (fun _ => Ok VNone))
           (answering_world example_chat_reply example_plain_image)
           (Request (u "/") None [])).
  intros Hin.
  repeat (apply elem_of_cons in Hin as [E | Hin]; [by vm_compute in E|]).
  by apply elem_of_nil in Hin.
Defined.

(** X23: on the four endpoints that take a JSON body, a body that
    [json.loads] cannot read, or that is not a JSON object, is answered with
    status 500 and the document [{"success": false, "error": <message>}];
    nothing else is done for it. *)
Theorem unreadable_json_body_is_a_server_error `{PyRuntime} (w : World) (req : request) :
  let server_error e :=
    mkIO [] (Ok (JsonResponse 500 (VDict (mkdict
      [("success", VBool false); ("error", VStr (exn_str e))])))) in
  path req ∈ [u "/translate"; u "/suggest-filename"; u "/upload/vision";
              u "/wikidata-pois"] →
  (∀ e, json_loads (body req) = Raise e → do_POST w req = server_error e)
  ∧ (∀ v, json_loads (body req) = Ok v →
          match v with VDict _ => False | _ => True end →
          do_POST w req = server_error (no_attribute v "get")).
Proof.
  intros server_error Hpath.
  assert (∀ e, (match json_loads (body req) with
                | Ok (VDict _) => False
                | Ok v => e = no_attribute v "get"
                | Raise e' => e = e'
                end) → do_POST w req = server_error e) as Hall.
  { intros e He.
    assert (∀ k d, match json_loads (body req) with
                   | Ok v => py_get v k d
                   | Raise e' => Raise e'
                   end = Raise e) as Hget.
    { destruct (json_loads (body req)) as [v|e']; [|by subst].
      destruct v; first [by destruct He | by subst]. }
    rewrite !elem_of_cons, elem_of_nil in Hpath.
    destruct Hpath as [Hpath | [Hpath | [Hpath | [Hpath | []]]]];
      [rewrite EndpointFacts.do_POST_translate by done; unfold post_translate
      |rewrite EndpointFacts.do_POST_suggest_filename by done; unfold post_suggest_filename
      |rewrite EndpointFacts.do_POST_vision by done; unfold post_vision
      |rewrite EndpointFacts.do_POST_wikidata_pois by done; unfold post_wikidata_pois];
      unfold catch; cbn [mbind IO_bind mret IO_ret emit lift outcome trace];
      (destruct (json_loads (body req)) as [v|e']; cbn [outcome trace];
       [rewrite Hget; reflexivity | injection (Hget "x" VNone) as ->; reflexivity]). }
  split.
  - intros e He. apply Hall. by rewrite He.
  - intros v Hv Hkind. apply Hall. rewrite Hv. by destruct v.
Qed.

Lemma unreadable_json_body_is_a_server_error_witness :
  do_POST (H := example_runtime example_loads)
    (answering_world example_chat_reply example_plain_image)
    (Request (u "/wikidata-pois") (Some (u "application/json")) (b "{"))
  = mkIO [] (Ok (JsonResponse 500 (VDict (mkdict
      [("success", VBool false);
       ("error", VStr (u "Expecting value: line 1 column 1 (char 0)"))])))).
Proof.
  refine (proj1 (unreadable_json_body_is_a_server_error (H := example_runtime example_loads)
                   (answering_world example_chat_reply example_plain_image)
                   (Request (u "/wikidata-pois") (Some (u "application/json")) (b "{")) _)
            (Exn ValueError (u "Expecting value: line 1 column 1 (char 0)")) _).
  - DecoderFacts.in_list.
  - by vm_compute.
Defined.






(** X26: what the upload endpoint makes of the [Content-Type] header.  A
    request without the header is answered with status 500; one whose header
    does not mention [multipart/form-data] with status 400; one whose header
    mentions it and has no [boundary=] with status 500 ("list index out of
    range").  In each case nothing is decoded or written.  When [boundary=]
    occurs once in the header, the boundary is everything that follows it,
    as UTF-8. *)
Theorem upload_needs_a_multipart_content_type `{PyRuntime} (w : World) (req : request) :
  let server_error e :=
    mkIO [] (Ok (JsonResponse 500 (VDict (mkdict
      [("success", VBool false); ("error", VStr (exn_str e))])))) in
  path req = u "/upload" →
  (content_type req = None → do_POST w req = server_error (not_iterable VNone))
  ∧ (∀ ct, content_type req = Some ct →
           Py.contains (u "multipart/form-data") ct = false →
           do_POST w req
           = mkIO [] (Ok (ErrorResponse 400 (u "Bad Request: Expected multipart/form-data"))))
  ∧ (∀ ct, content_type req = Some ct →
           Py.contains (u "multipart/form-data") ct = true →
           Py.contains (u "boundary=") ct = false →
           do_POST w req = server_error index_out_of_range)
  ∧ (∀ lead boundary,
       Py.find (u "boundary=") (lead ++ u "boundary=") = Some (length lead) →
       Py.contains (u "boundary=") boundary = false →
       boundary_of (lead ++ u "boundary=" ++ boundary)
       = match Utf8.encode boundary with
         | Some bs => Ok bs
         | None => Raise (Exn UnicodeError (u "'utf-8' codec can't encode character"))
         end).
Proof.
  intros server_error Hpath. rewrite EndpointFacts.do_POST_upload by done.
  unfold post_upload, catch. split_and!.
  - intros ->. reflexivity.
  - intros ct -> Hmulti.
    cbn [mbind IO_bind mret IO_ret result_ret emit lift outcome trace].
    rewrite Hmulti. reflexivity.
  - intros ct -> Hmulti Hboundary.
    cbn [mbind IO_bind mret IO_ret result_ret emit lift outcome trace].
    rewrite Hmulti. cbn [negb mbind IO_bind mret IO_ret emit lift outcome trace].
    assert (boundary_of ct = Raise index_out_of_range) as ->; [|reflexivity].
    unfold boundary_of, Py.contains in *.
    destruct (Py.find (u "boundary=") ct) eqn:Hfind; [done|].
    by rewrite PyFacts.split_singleton.
  - intros lead boundary Hlead Hboundary. unfold boundary_of.
    rewrite PyFacts.split_app_sep by done.
    unfold Py.contains in Hboundary.
    destruct (Py.find (u "boundary=") boundary) eqn:Hfind; [done|].
    by rewrite PyFacts.split_singleton.
Qed.

Lemma upload_needs_a_multipart_content_type_witness :
  do_POST (H := example_runtime (fun _ => Ok VNone))
    (answering_world example_chat_reply example_plain_image)
    (Request (u "/upload") (Some (u "multipart/form-data")) [])
  = mkIO [] (Ok (JsonResponse 500 (VDict (mkdict
      [("success", VBool false); ("error", VStr (u "list index out of range"))])))).
Proof.
  exact (proj1 (proj2 (proj2
           (upload_needs_a_multipart_content_type (H := example_runtime (fun _ => Ok VNone))
              (answering_world example_chat_reply example_plain_image)
              (Request (u "/upload") (Some (u "multipart/form-data")) []) eq_refl)))
           (u "multipart/form-data") eq_refl eq_refl eq_refl).
Defined.

(** X27: when the EXIF record of an upload has both coordinates, and the
    bearing of the camera, if the GPS directory gives one, converts to a
    float, the handler, after it has written the file and opened the image,
    sends two requests with these coordinates, to the reverse geocoder and
    then to the POI search, and answers with status 200 whatever the two
    services do: their records, failure records included, stand under
    [location] and [pois], and the bearing, when there is one, under
    [camera_direction]. *)
Theorem upload_with_gps_asks_both_services `{PyRuntime} (w : World) (req : request)
    (ct : str) (boundary : bytes) (filename : str) (image_data : bytes)
    (exif_data : dict) (lat lon : pyval) (direction : option float) :
  let safe_filename := timestamp w ++ u "_" ++ filename in
  let file_path := upload_path safe_filename in
  path req = u "/upload" →
  content_type req = Some ct →
  Py.contains (u "multipart/form-data") ct = true →
  boundary_of ct = Ok boundary →
  decode_upload boundary (body req) = Ok (ImageFile filename image_data) →
  write_file w file_path image_data = Ok tt →
  outcome (extract_exif_data w file_path) = Ok exif_data →
  exif_data !! KStr (u "GPSLatitude") = Some lat →
  exif_data !! KStr (u "GPSLongitude") = Some lon →
  camera_direction_of exif_data = Ok direction →
  ∃ location pois,
    outcome (reverse_geocode w lat lon) = Ok location
    ∧ outcome (search_nearby_poi w lat lon direction) = Ok pois
    ∧ do_POST w req
      = mkIO ([FileWrite file_path image_data; ImageOpen file_path;
               HttpRequest (reverse_geocode_url lat lon) None]
              ++ match direction with
                 | Some d =>
                     [Print (u "Camera direction: " ++ fmt (VFloat d) ++ DIRECTION_UNIT)]
                 | None => []
                 end
              ++ [HttpRequest (poi_search_url lat lon) None])
          (Ok (JsonResponse 200 (VDict (mkdict
             [("success", VBool true); ("filename", VStr safe_filename);
              ("exif", VDict exif_data); ("location", VDict location);
              ("pois", VDict pois);
              ("camera_direction",
               match direction with Some d => VFloat d | None => VNone end);
              ("vision", VNone)])))).
Proof.
  intros safe_filename file_path Hpath Hct Hmulti Hboundary Hfile Hwrite Hexif Hlat Hlon
    Hdirection.
  destruct (EndpointFacts.reverse_geocode_returns w lat lon) as [location Hlocation].
  destruct (EndpointFacts.search_nearby_poi_returns w lat lon direction) as [pois Hpois].
  exists location, pois. split; [done|]. split; [done|].
  assert (enrich w exif_data
          = mkIO ([HttpRequest (reverse_geocode_url lat lon) None]
                  ++ match direction with
                     | Some d =>
                         [Print (u "Camera direction: " ++ fmt (VFloat d)
                                 ++ DIRECTION_UNIT)]
                     | None => []
                     end
                  ++ [HttpRequest (poi_search_url lat lon) None])
              (Ok (VDict location, VDict pois,
                   match direction with Some d => VFloat d | None => VNone end)))
    as Henrich.
  { unfold enrich. rewrite Hlat, Hlon.
    rewrite !bool_decide_eq_true_2 by by eexists.
    cbn [andb lift mbind IO_bind outcome trace py_item]. rewrite Hdirection.
    cbn [outcome trace]. rewrite Hlat, Hlon. cbn [outcome trace app].
    rewrite (HandlerFacts.outcome_bind _ _ _ Hlocation). cbn [outcome trace].
    rewrite (HandlerFacts.outcome_bind _ _ _ Hpois). cbn [outcome trace mret IO_ret].
    rewrite GeoFacts.reverse_geocode_run, GeoFacts.search_nearby_poi_run.
    cbn [trace]. by rewrite app_nil_r. }
  rewrite EndpointFacts.do_POST_upload by done.
  unfold post_upload. rewrite Hct.
  unfold extract_exif_data in *.
  cbn [mbind IO_bind emit outcome trace mret IO_ret lift app] in Hexif.
  injection Hexif as Hexif.
  cbn [lift mbind IO_bind outcome trace mret IO_ret result_ret]. rewrite Hmulti.
  cbn [negb lift mbind IO_bind outcome trace mret IO_ret]. rewrite Hboundary.
  cbn [lift mbind IO_bind outcome trace mret IO_ret]. rewrite Hfile.
  cbn [lift mbind IO_bind outcome trace mret IO_ret emit]. fold safe_filename file_path.
  rewrite Hwrite.
  cbn [lift mbind IO_bind outcome trace mret IO_ret emit]. rewrite Hexif, Henrich.
  by destruct direction.
Qed.

Lemma upload_with_gps_asks_both_services_witness :
  let runtime := example_runtime (fun _ => Ok VNone) in
  let world := offline_world example_error example_gps_image in
  let file_path := u "uploads/20251030_080142_a.jpg" in
  let lat := VFloat (- (48 + 51 / 60 + 29.5 / 3600))%float in
  let lon := VFloat (2 + 17 / 60 + 40 / 3600)%float in
  trace (do_POST (H := runtime) world example_upload_request)
  = [FileWrite file_path (b "AAA"); ImageOpen file_path;
     HttpRequest (reverse_geocode_url (H := runtime) lat lon) None;
     HttpRequest (poi_search_url (H := runtime) lat lon) None].
Proof.
  intros runtime world file_path lat lon.
  destruct (upload_with_gps_asks_both_services (H := runtime) world example_upload_request
              (u "multipart/form-data; boundary=XyZ") example_boundary (u "a.jpg") (b "AAA")
              (match outcome (extract_exif_data (H := runtime) world file_path) with
               | Ok exif_data => exif_data
               | Raise _ => ∅
               end)
              lat lon None)
    as (location & pois & _ & _ & Hrun); [vm_compute; reflexivity ..|].
  rewrite Hrun. reflexivity.
Defined.
Module UploadFacts.

(** The pieces of a split are stretches of the sequence. *)
Lemma split_fuel_infix {A} `{EqDecision A} n (sep s piece : list A) :
  piece ∈ Py.split_fuel n sep s → ∃ x y, s = x ++ piece ++ y.
Proof.
  revert s. induction n as [|n IH]; intros s; cbn [Py.split_fuel].
  - intros ->%list_elem_of_singleton. exists [], []. by rewrite app_nil_r.
  - destruct (Py.find sep s) as [i|].
    + intros [-> | Hp]%elem_of_cons.
      * exists [], (drop i s). by rewrite take_drop.
      * destruct (IH _ Hp) as (x & y & Hxy).
        exists (take (i + length sep) s ++ x), y.
        by rewrite <- app_assoc, <- Hxy, take_drop.
    + intros ->%list_elem_of_singleton. exists [], []. by rewrite app_nil_r.
Qed.

(** What occurs in a piece occurs in the sequence. *)
Lemma contains_piece {A} `{EqDecision A} (pat sep s piece : list A) :
  piece ∈ Py.split sep s → Py.contains pat piece = true → Py.contains pat s = true.
Proof.
  intros Hpiece Hpat. destruct (split_fuel_infix _ _ _ _ Hpiece) as (x & y & ->).
  unfold Py.contains in Hpat.
  destruct (Py.find pat piece) as [j|] eqn:Hfind; [|done].
  destruct (PyFacts.find_Some_elim _ _ _ Hfind) as (Hstart & _ & _).
  apply PyFacts.starts_with_prefix in Hstart as [r Hr].
  apply (PyFacts.contains_decompose pat _ (x ++ take j piece) (r ++ y)).
  rewrite <- (take_drop j piece) at 1. rewrite Hr. by rewrite <- !app_assoc.
Qed.

Lemma scan_part_no_file st part :
  Py.contains (b "filename=") part = false → scan_part st part = Ok st.
Proof. intros Hpart. unfold scan_part. by rewrite Hpart, andb_false_r. Qed.

Lemma scan_parts_no_file st parts :
  Forall (fun part => Py.contains (b "filename=") part = false) parts →
  scan_parts st parts = Ok st.
Proof.
  induction 1 as [|part parts Hp _ IH]; cbn [scan_parts]; [done|].
  by rewrite scan_part_no_file.
Qed.

(** A part raises only for want of a blank line. *)
Lemma scan_parts_return st parts :
  Forall (fun part => Py.contains (b "Content-Disposition") part = true →
                      Py.contains (b "filename=") part = true →
                      Py.contains (CRLF ++ CRLF) part = true) parts →
  ∃ st', scan_parts st parts = Ok st'.
Proof.
  intros Hparts. revert st.
  induction Hparts as [|part parts Hp _ IH]; intros st; cbn [scan_parts]; [by eexists|].
  assert (∃ st', scan_part st part = Ok st') as [st' ->]; [|apply IH].
  destruct (Py.contains (b "Content-Disposition") part) eqn:Hcd;
    [|unfold scan_part; rewrite Hcd; by eexists].
  destruct (Py.contains (b "filename=") part) eqn:Hfn;
    [|unfold scan_part; rewrite Hcd, Hfn; by eexists].
  by apply DecoderFacts.scan_part_total, Hp.
Qed.

Lemma clean_filename_filter (filename : str) :
  clean_filename filename
  = filter (fun c => c ∉ [DQUOTE; SQUOTE; LF; CR]) filename.
Proof.
  unfold clean_filename. rewrite !TextFacts.replace_single_delete.
  rewrite !list_filter_filter. apply list_filter_iff. intros c.
  rewrite !not_elem_of_cons. pose proof (not_elem_of_nil c). tauto.
Qed.

End UploadFacts.

(** ** The upload decoder, further properties *)

(** X28: a body in which [filename=] does not occur has no file part,
    whatever the boundary is: the decoder finds no image, and the upload is
    refused with status 400 "No image file provided" before anything is
    written. *)
Theorem upload_without_file_part_is_refused `{PyRuntime} (w : World) (req : request)
    (ct : str) (boundary : bytes) :
  path req = u "/upload" →
  content_type req = Some ct →
  Py.contains (u "multipart/form-data") ct = true →
  boundary_of ct = Ok boundary →
  Py.contains (b "filename=") (body req) = false →
  decode_upload boundary (body req) = Ok NoImageFile
  ∧ do_POST w req = mkIO [] (Ok (ErrorResponse 400 (u "No image file provided"))).
Proof.
  intros Hpath Hct Hmulti Hboundary Hbody.
  assert (decode_upload boundary (body req) = Ok NoImageFile) as Hdecode.
  { unfold decode_upload, parse_multipart.
    rewrite UploadFacts.scan_parts_no_file; [done|].
    apply Forall_forall. intros part Hpart.
    destruct (Py.contains (b "filename=") part) eqn:E; [|done].
    by rewrite (UploadFacts.contains_piece _ _ _ _ Hpart E) in Hbody. }
  split; [done|].
  rewrite EndpointFacts.do_POST_upload by done.
  unfold post_upload, catch. rewrite Hct.
  cbn [lift mbind IO_bind outcome trace mret IO_ret result_ret]. rewrite Hmulti.
  cbn [negb lift mbind IO_bind outcome trace mret IO_ret]. rewrite Hboundary.
  cbn [lift mbind IO_bind outcome trace mret IO_ret]. by rewrite Hdecode.
Qed.

Lemma upload_without_file_part_is_refused_witness :
  do_POST (H := example_runtime (fun _ => Ok VNone))
    (answering_world example_chat_reply example_plain_image)
    (Request (u "/upload") (Some (u "multipart/form-data; boundary=XyZ")) example_form_body)
  = mkIO [] (Ok (ErrorResponse 400 (u "No image file provided"))).
Proof.
  refine (proj2 (upload_without_file_part_is_refused
                   (H := example_runtime (fun _ => Ok VNone))
                   (answering_world example_chat_reply example_plain_image)
                   (Request (u "/upload") (Some (u "multipart/form-data; boundary=XyZ"))
                      example_form_body)
                   (u "multipart/form-data; boundary=XyZ") example_boundary _ _ _ _ _));
    vm_compute; reflexivity.
Defined.

(** X29: the filename under which an upload is stored has no double quote,
    no single quote and no line break in it: cleaning removes exactly these
    four characters and keeps the others in their order.  The payload that
    is stored with it is never empty. *)
Theorem stored_filename_has_no_quotes (boundary body : bytes) (filename : str)
    (image_data : bytes) :
  decode_upload boundary body = Ok (ImageFile filename image_data) →
  Forall (fun c => c ∉ [DQUOTE; SQUOTE; LF; CR]) filename
  ∧ image_data ≠ []
  ∧ ∀ name, clean_filename name = filter (fun c => c ∉ [DQUOTE; SQUOTE; LF; CR]) name.
Proof.
  intros Hdecode. split_and!; [| |apply UploadFacts.clean_filename_filter];
    unfold decode_upload in Hdecode;
    destruct (parse_multipart boundary body) as [[[data|] [name|]]|]; try done;
    cbn [mbind result_bind] in Hdecode;
    destruct (truthy data) eqn:Hdata; try done; destruct (truthy name); try done;
    injection Hdecode as <- <-.
  - rewrite UploadFacts.clean_filename_filter. apply Forall_forall.
    by intros c [? _]%list_elem_of_filter.
  - by destruct data.
Qed.

Lemma stored_filename_has_no_quotes_witness :
  decode_upload example_boundary (multipart_body example_boundary [example_part_quoted])
  = Ok (ImageFile (u "ab.jpg") (b "AAA"))
  ∧ Forall (fun c => c ∉ [DQUOTE; SQUOTE; LF; CR]) (u "ab.jpg").
Proof.
  assert (decode_upload example_boundary
            (multipart_body example_boundary [example_part_quoted])
          = Ok (ImageFile (u "ab.jpg") (b "AAA"))) as Hdecode by (vm_compute; reflexivity).
  split; [done|].
  exact (proj1 (stored_filename_has_no_quotes example_boundary
                  (multipart_body example_boundary [example_part_quoted])
                  (u "ab.jpg") (b "AAA") Hdecode)).
Defined.

(** X30: the decoder raises only for want of a blank line.  When every
    piece of the body that mentions [Content-Disposition] and [filename=]
    has a blank line ([CR LF CR LF]) in it, the decoder returns; when the
    first piece with [filename=] mentions [Content-Disposition] and has no
    blank line, it raises the [ValueError] of the unpacking ("not enough
    values to unpack (expected 2, got 1)"), which the handler answers with
    status 500. *)
Theorem file_part_needs_a_blank_line (boundary body : bytes) :
  let parts := Py.split (b "--" ++ boundary) body in
  (Forall (fun part => Py.contains (b "Content-Disposition") part = true →
                       Py.contains (b "filename=") part = true →
                       Py.contains (CRLF ++ CRLF) part = true) parts →
   ∃ file, decode_upload boundary body = Ok file)
  ∧ (∀ earlier part later,
       parts = earlier ++ part :: later →
       Forall (fun part => Py.contains (b "filename=") part = false) earlier →
       Py.contains (b "Content-Disposition") part = true →
       Py.contains (b "filename=") part = true →
       Py.contains (CRLF ++ CRLF) part = false →
       decode_upload boundary body
       = Raise (Exn ValueError (u "not enough values to unpack (expected 2, got 1)"))).
Proof.
  intros parts. split.
  - intros Hparts. unfold decode_upload, parse_multipart. fold parts.
    destruct (UploadFacts.scan_parts_return (None, None) parts Hparts) as [[data name] ->].
    cbn [mbind result_bind]. destruct data, name; try by eexists.
    destruct (_ && _); by eexists.
  - intros earlier part later Hsplit Hearlier Hcd Hfn Hblank.
    unfold decode_upload, parse_multipart. fold parts. rewrite Hsplit.
    rewrite DecoderFacts.scan_parts_app, UploadFacts.scan_parts_no_file by done.
    cbn [mbind result_bind scan_parts]. unfold scan_part. rewrite Hcd, Hfn. cbn [andb].
    unfold Py.split_max1. unfold Py.contains in Hblank.
    by destruct (Py.find (CRLF ++ CRLF) part).
Qed.

Lemma file_part_needs_a_blank_line_witness :
  decode_upload example_boundary example_unterminated_body
  = Raise (Exn ValueError (u "not enough values to unpack (expected 2, got 1)")).
Proof.
  refine (proj2 (file_part_needs_a_blank_line example_boundary example_unterminated_body)
            [[]] (CRLF ++ disposition_line (b "a.jpg") ++ CRLF ++ b "AAA") [] _ _ _ _ _).
  - vm_compute; reflexivity.
  - constructor; [vm_compute; reflexivity | constructor].
  - vm_compute; reflexivity.
  - vm_compute; reflexivity.
  - vm_compute; reflexivity.
Defined.
